(** * S-Params: the numerical layer and the render dispatch

    A shallow embedding of [file_manager.py] (class [TouchstoneFile]) and
    [plot_engine.py] (class [PlotEngine]).

    - Python exceptions are values of [exn]; a call that may raise returns a
      [result].
    - NumPy's scalar kernels (float64 arithmetic, [np.abs], [np.log10],
      [np.arctan2], ...) are external to the repository: they are the fields
      of the class [NumPy], so every definition below is generic in them and
      holds for IEEE doubles (with their infinities and NaN) as well as for
      the idealised real-number instance [RealNumPy] given further down.
    - NumPy's array functions used by the source ([np.clip], [np.unwrap],
      [np.gradient], [np.zeros_like], array indexing) are written out on
      lists from NumPy's reference behaviour.
    - Matplotlib is external as well: the figure is the record of the calls
      the engine makes on it. *)

From Stdlib Require Import String Ascii List ZArith QArith Lia Bool Arith.
From Stdlib Require Import Reals Qreals Lra.
Import ListNotations.
Open Scope string_scope.
Open Scope nat_scope.

(* ------------------------------------------------------------------ *)
(** ** Python results and exceptions *)

Inductive exn : Type :=
| ValueError (msg : string)
| IndexError (msg : string)
| AttributeError (msg : string)
| UnboundLocalError (name : string).

Inductive result (A : Type) : Type :=
| Ok (a : A)
| Raise (e : exn).
Arguments Ok {A} a.
Arguments Raise {A} e.

Definition bind {A B} (r : result A) (k : A -> result B) : result B :=
  match r with
  | Ok a => k a
  | Raise e => Raise e
  end.

Notation "x <- r ;; k" := (bind r (fun x => k))
  (at level 61, r at next level, right associativity).
Notation "' p <- r ;; k" := (bind r (fun p => k))
  (at level 61, p pattern, r at next level, right associativity).

Definition is_ok {A} (r : result A) : bool :=
  match r with Ok _ => true | Raise _ => false end.

(** [str(e)] of an exception. *)
Definition exn_str (e : exn) : string :=
  match e with
  | ValueError m => m
  | IndexError m => m
  | AttributeError m => m
  | UnboundLocalError n =>
      "cannot access local variable '" ++ n
        ++ "' where it is not associated with a value"
  end.

Fixpoint mapM {A B} (g : A -> result B) (l : list A) : result (list B) :=
  match l with
  | [] => Ok []
  | a :: t => b <- g a ;; bs <- mapM g t ;; Ok (b :: bs)
  end.

(* ------------------------------------------------------------------ *)
(** ** Python strings and integers *)

Definition digit_char (d : nat) : ascii := ascii_of_nat (48 + d).

(** [str(n)] for a non-negative integer: its decimal digits. *)
Fixpoint str_fuel (fuel n : nat) : string :=
  match fuel with
  | 0 => ""
  | S fuel' =>
      if n <? 10 then String (digit_char n) ""
      else str_fuel fuel' (n / 10) ++ String (digit_char (n mod 10)) ""
  end.

Definition str (n : nat) : string := str_fuel (S n) n.

(** [s[i]] on a string. *)
Definition str_index (s : string) (i : nat) : result ascii :=
  match String.get i s with
  | Some c => Ok c
  | None => Raise (IndexError "string index out of range")
  end.

(** [int(c)] on a one-character string. *)
Definition int (c : ascii) : result Z :=
  let n := nat_of_ascii c in
  if (48 <=? n) && (n <=? 57) then Ok (Z.of_nat n - 48)%Z
  else Raise (ValueError ("invalid literal for int() with base 10: '"
                            ++ String c "'")).

(** [x in xs] on a list of strings. *)
Definition str_in (x : string) (xs : list string) : bool :=
  existsb (String.eqb x) xs.

(* ------------------------------------------------------------------ *)
(** ** NumPy scalar kernels *)

Class NumPy : Type := {
  float64 : Type;
  complex128 : Type;
  (** a numeric literal of the source, as a float64 *)
  lit : Q -> float64;
  np_pi : float64;
  fadd : float64 -> float64 -> float64;
  fsub : float64 -> float64 -> float64;
  fmul : float64 -> float64 -> float64;
  fdiv : float64 -> float64 -> float64;
  fneg : float64 -> float64;
  fabs : float64 -> float64;
  np_mod : float64 -> float64 -> float64;
  feqb : float64 -> float64 -> bool;
  fltb : float64 -> float64 -> bool;
  np_maximum : float64 -> float64 -> float64;
  np_minimum : float64 -> float64 -> float64;
  np_log10 : float64 -> float64;
  np_arctan2 : float64 -> float64 -> float64;
  (** [np.abs] on a complex number *)
  np_abs : complex128 -> float64;
  np_real : complex128 -> float64;
  np_imag : complex128 -> float64
}.

Section NumPyArrays.
Context `{NP : NumPy}.

(** [np.angle(z, deg)]: [arctan2(z.imag, z.real)], times [180/pi] when
    [deg] is set. *)
Definition np_angle (deg : bool) (z : complex128) : float64 :=
  let a := np_arctan2 (np_imag z) (np_real z) in
  if deg then fmul a (fdiv (lit 180) np_pi) else a.

(** [np.clip(a, a_min, a_max)] is [minimum(a_max, maximum(a, a_min))]. *)
Definition np_clip (a a_min a_max : float64) : float64 :=
  np_minimum a_max (np_maximum a a_min).

(** [np.zeros_like(a)] *)
Definition np_zeros_like (a : list float64) : list float64 :=
  map (fun _ => lit 0) a.

(** [np.diff(a)]: [a[i+1] - a[i]]. *)
Fixpoint np_diff (a : list float64) : list float64 :=
  match a with
  | x :: ((y :: _) as t) => fsub y x :: np_diff t
  | _ => []
  end.

(** [np.cumsum(a)], the running sum started from [acc]. *)
Fixpoint cumsum_from (acc : float64) (a : list float64) : list float64 :=
  match a with
  | [] => []
  | x :: t => let acc' := fadd acc x in acc' :: cumsum_from acc' t
  end.

Definition np_cumsum (a : list float64) : list float64 :=
  match a with
  | [] => []
  | x :: t => x :: cumsum_from x t
  end.

Fixpoint zip_with {A B D} (g : A -> B -> D) (l : list A) (m : list B)
  : list D :=
  match l, m with
  | a :: l', b :: m' => g a b :: zip_with g l' m'
  | _, _ => []
  end.

(** [np.unwrap(p)] with the default period [2*pi]. *)
Definition np_unwrap (p : list float64) : list float64 :=
  let period := fmul (lit 2) np_pi in
  let discont := fdiv period (lit 2) in
  let interval_high := fdiv period (lit 2) in
  let interval_low := fneg interval_high in
  let dd := np_diff p in
  let ddmod :=
    map (fun d =>
           let m := fadd (np_mod (fsub d interval_low) period) interval_low in
           if feqb m interval_low && fltb (lit 0) d then interval_high else m)
        dd in
  let ph_correct :=
    zip_with (fun m d => if fltb (fabs d) discont then lit 0 else fsub m d)
             ddmod dd in
  match p with
  | [] => []
  | p0 :: rest => p0 :: zip_with fadd rest (np_cumsum ph_correct)
  end.

(** [np.gradient(y, x)] for 1-d [y] and a coordinate array [x], with the
    default [edge_order=1]: second-order central differences inside,
    first-order one-sided differences at the two ends. *)
Definition gradient_at (y dx : list float64) (uniform : bool) (n i : nat)
  : float64 :=
  let yv k := nth k y (lit 0) in
  let dxv k := nth k dx (lit 0) in
  if i =? 0 then
    fdiv (fsub (yv 1) (yv 0)) (dxv 0)
  else if i =? n - 1 then
    fdiv (fsub (yv (n - 1)) (yv (n - 2)))
         (if uniform then dxv 0 else dxv (n - 2))
  else if uniform then
    fdiv (fsub (yv (i + 1)) (yv (i - 1))) (fmul (lit 2) (dxv 0))
  else
    let dx1 := dxv (i - 1) in
    let dx2 := dxv i in
    let a := fdiv (fneg dx2) (fmul dx1 (fadd dx1 dx2)) in
    let b := fdiv (fsub dx2 dx1) (fmul dx1 dx2) in
    let c := fdiv dx1 (fmul dx2 (fadd dx1 dx2)) in
    fadd (fadd (fmul a (yv (i - 1))) (fmul b (yv i))) (fmul c (yv (i + 1))).

Definition np_gradient (y x : list float64) : result (list float64) :=
  let n := length y in
  if negb (length x =? n) then
    Raise (ValueError
      "when 1d, distances must match the length of the corresponding dimension")
  else
    let dx := np_diff x in
    match dx with
    | [] =>
        (* [diffx[0]] on an empty difference array *)
        Raise (IndexError "index 0 is out of bounds for axis 0 with size 0")
    | dx0 :: _ =>
        let uniform := forallb (fun d => feqb d dx0) dx in
        if n <? 2 then
          Raise (ValueError
            "Shape of array too small to calculate a numerical gradient, at least (edge_order + 1) elements are required.")
        else Ok (map (gradient_at y dx uniform n) (seq 0 n))
    end.

(** Index normalisation of NumPy: [-dim <= i < dim], negatives count from
    the end. *)
Definition np_norm_index (dim : nat) (axis : nat) (i : Z) : result nat :=
  if ((0 <=? i) && (i <? Z.of_nat dim))%Z then Ok (Z.to_nat i)
  else if ((- Z.of_nat dim <=? i) && (i <? 0))%Z
       then Ok (Z.to_nat (i + Z.of_nat dim))
       else Raise (IndexError
              ("index " ++ (if (i <? 0)%Z then "-" else "")
                 ++ str (Z.abs_nat i) ++ " is out of bounds for axis "
                 ++ str axis ++ " with size " ++ str dim)).
End NumPyArrays.

(* ------------------------------------------------------------------ *)
(** ** The scikit-rf network *)

Module Network.
(** What [rf.Network(path)] provides: [f] the frequencies, [nports] the
    port count P, [s] the samples of shape (N, P, P) as [s[k][i][j]]. *)
Record t `{NP : NumPy} : Type := mk {
  f : list float64;
  nports : nat;
  s : list (list (list complex128))
}.
Arguments mk {NP} f nports s.

(** The shape invariant of a parsed network. *)
Definition wf `{NP : NumPy} (nw : t) : Prop :=
  length (s nw) = length (f nw)
  /\ Forall (fun m => length m = nports nw
                      /\ Forall (fun row => length row = nports nw) m)
            (s nw).

(** [s[:, row, col]] *)
Definition s_slice `{NP : NumPy} (nw : t) (row col : Z)
  : result (list complex128) :=
  r <- np_norm_index (nports nw) 1 row ;;
  c <- np_norm_index (nports nw) 2 col ;;
  mapM (fun m =>
          match nth_error m r with
          | Some line =>
              match nth_error line c with
              | Some v => Ok v
              | None => Raise (IndexError "index out of bounds")
              end
          | None => Raise (IndexError "index out of bounds")
          end) (s nw).
End Network.

(* ------------------------------------------------------------------ *)
(** ** file_manager.py: class TouchstoneFile *)

(** [Path(filepath).name] as pathlib computes it on a POSIX system: the
    path is cut at every separator, empty components and [.] components
    are dropped (so a trailing separator, a doubled one and a leading [./]
    do not count), and the name is the last component left; a path with no
    component left, such as the empty one or the root, has the empty name. *)
Fixpoint path_parts (component : string) (p : string) : list string :=
  match p with
  | EmptyString => [component]
  | String c rest =>
      if Ascii.eqb c "/"%char then component :: path_parts "" rest
      else path_parts (component ++ String c "") rest
  end.

Definition path_component (x : string) : bool :=
  negb (x =? "")%string && negb (x =? ".")%string.

Definition path_name (p : string) : string :=
  last (filter path_component (path_parts "" p)) "".

Module TouchstoneFile.
Record t `{NP : NumPy} : Type := mk {
  filepath : string;
  filename : string;
  network : Network.t;
  s_params : list string;
  frequency : list float64
}.
Arguments mk {NP} filepath filename network s_params frequency.

Section Methods.
Context `{NP : NumPy}.

(** The two nested loops of [load_file], appending to [self.s_params]. *)
Definition gen_s_params (nports : nat) : list string :=
  fold_left
    (fun acc i =>
       fold_left
         (fun acc' j => app acc' [("S" ++ str (i + 1) ++ str (j + 1))%string])
         (seq 0 nports) acc)
    (seq 0 nports) [].

(** [TouchstoneFile(filepath)], i.e. [__init__] followed by [load_file].
    [rf_Network] is scikit-rf's parser; whatever it raises is wrapped in
    a [ValueError]. *)
Definition load_file (rf_Network : string -> result Network.t)
           (filepath : string) : result t :=
  let filename := path_name filepath in
  match rf_Network filepath with
  | Ok nw =>
      Ok {| filepath := filepath;
            filename := filename;
            network := nw;
            s_params := gen_s_params (Network.nports nw);
            frequency := Network.f nw |}
  | Raise e =>
      Raise (ValueError ("Error loading " ++ filename ++ ": " ++ exn_str e))
  end.

(** Lines 58-59: [row = int(param_name[1]) - 1],
    [col = int(param_name[2]) - 1]. *)
Definition parse_row_col (param_name : string) : result (Z * Z) :=
  c1 <- str_index param_name 1 ;;
  d1 <- int c1 ;;
  let row := (d1 - 1)%Z in
  c2 <- str_index param_name 2 ;;
  d2 <- int c2 ;;
  let col := (d2 - 1)%Z in
  Ok (row, col).

Definition get_s_parameter (self : t) (param_name : string)
  : result (list float64 * list complex128) :=
  if negb (str_in param_name (s_params self)) then
    Raise (ValueError (param_name ++ " not available in " ++ filename self))
  else
    '(row, col) <- parse_row_col param_name ;;
    s_data <- Network.s_slice (network self) row col ;;
    Ok (frequency self, s_data).

Definition get_magnitude_db (self : t) (param_name : string)
  : result (list float64 * list float64) :=
  '(freq, s_data) <- get_s_parameter self param_name ;;
  let mag_db := map (fun v => fmul (lit 20) (np_log10 (np_abs v))) s_data in
  Ok (freq, mag_db).

Definition get_magnitude_linear (self : t) (param_name : string)
  : result (list float64 * list float64) :=
  '(freq, s_data) <- get_s_parameter self param_name ;;
  let mag := map np_abs s_data in
  Ok (freq, mag).

Definition get_phase_deg (self : t) (param_name : string)
  : result (list float64 * list float64) :=
  '(freq, s_data) <- get_s_parameter self param_name ;;
  let phase := map (np_angle true) s_data in
  Ok (freq, phase).

Definition get_phase_rad (self : t) (param_name : string)
  : result (list float64 * list float64) :=
  '(freq, s_data) <- get_s_parameter self param_name ;;
  let phase := map (np_angle false) s_data in
  Ok (freq, phase).

Definition get_real_imag (self : t) (param_name : string)
  : result (list float64 * list float64 * list float64) :=
  '(freq, s_data) <- get_s_parameter self param_name ;;
  let real := map np_real s_data in
  let imag := map np_imag s_data in
  Ok (freq, real, imag).

Definition get_vswr (self : t) (param_name : string)
  : result (list float64 * list float64) :=
  '(freq, s_data) <- get_s_parameter self param_name ;;
  let gamma := map np_abs s_data in
  let gamma := map (fun g => np_clip g (lit 0) (lit 0.9999)) gamma in
  let vswr := map (fun g => fdiv (fadd (lit 1) g) (fsub (lit 1) g)) gamma in
  Ok (freq, vswr).

Definition get_group_delay (self : t) (param_name : string)
  : result (list float64 * list float64) :=
  '(freq, s_data) <- get_s_parameter self param_name ;;
  let phase := np_unwrap (map (np_angle false) s_data) in
  let omega := map (fmul (fmul (lit 2) np_pi)) freq in
  group_delay <-
    (if 1 <? length phase then
       g <- np_gradient phase omega ;; Ok (map fneg g)
     else Ok (np_zeros_like phase)) ;;
  Ok (freq, group_delay).

Definition get_complex_data (self : t) (param_name : string)
  : result (list complex128) :=
  '(_, s_data) <- get_s_parameter self param_name ;;
  Ok s_data.
End Methods.
End TouchstoneFile.

(* ------------------------------------------------------------------ *)
(** ** plot_engine.py: class PlotEngine *)

Module PlotEngine.
Section Engine.
Context `{NP : NumPy}.

(** A trace dictionary. ['color'] is the one optional key. *)
Record Trace : Type := mkTrace {
  touchstone_file : TouchstoneFile.t;
  param_name : string;
  legend_name : string;
  color : option string
}.

Record PlotConfig : Type := mkConfig {
  title : string;
  xlabel : string;
  ylabel : string;
  grid : bool;
  legend_loc : string;
  xlim_auto : bool;
  ylim_auto : bool;
  xlim : option float64 * option float64;
  ylim : option float64 * option float64
}.

(** What the Matplotlib calls of the engine put on the axes. [Patch] is
    what [ax.add_patch] would add. *)
Inductive artist : Type :=
| Text (x y : float64) (text : string)
| Line (xs ys : list float64) (label : string) (colour : option string)
       (linestyle : string)
| Marker (x y : float64) (fmt : string) (colour : option string)
| Patch (cx cy radius : float64).

Record Axes : Type := mkAxes {
  projection : string;
  artists : list artist;
  ax_xlabel : option string;
  ax_ylabel : option string;
  ax_title : option string;
  ax_grid : bool;
  ax_legend : option string;
  ax_xlim : option (float64 * float64);
  ax_ylim : option (float64 * float64)
}.

(** The engine. [ax] is the one subplot of [self.figure], which
    [self.ax] aliases; [draws] counts [canvas.draw()]; [stdout] is what
    [print] wrote; [calls] records every calculator invocation (method
    name and parameter) in order. *)
Record t : Type := mk {
  ax : option Axes;
  plot_config : PlotConfig;
  last_traces : list Trace;
  draws : nat;
  stdout : list string;
  calls : list (string * string)
}.

(** Stateful, raising computations on the engine. An exception leaves
    the mutations made before it in place. *)
Definition M (A : Type) : Type := t -> result A * t.

Definition ret {A} (a : A) : M A := fun e => (Ok a, e).

Definition raise {A} (x : exn) : M A := fun e => (Raise x, e).

Definition mbind {A B} (m : M A) (k : A -> M B) : M B :=
  fun e =>
    match m e with
    | (Ok a, e') => k a e'
    | (Raise x, e') => (Raise x, e')
    end.

(** The outcome of [m] as a value: the body of a [try]. *)
Definition catch {A} (m : M A) : M (result A) :=
  fun e => let (r, e') := m e in (Ok r, e').

Notation "x <-- m ;;; k" := (mbind m (fun x => k))
  (at level 61, m at next level, right associativity).
Notation "' p <-- m ;;; k" := (mbind m (fun p => k))
  (at level 61, p pattern, m at next level, right associativity).
Notation "m ;;; k" := (mbind m (fun _ => k))
  (at level 61, right associativity).

Fixpoint for_each {A} (body : A -> M unit) (l : list A) : M unit :=
  match l with
  | [] => ret tt
  | a :: rest => body a ;;; for_each body rest
  end.

Definition print (line : string) : M unit :=
  fun e => (Ok tt, mk (ax e) (plot_config e) (last_traces e) (draws e)
                      (stdout e ++ [line])%list (calls e)).

(** A calculator call [tf.<method>(param)], recorded in [calls]. *)
Definition call {A} (method : string) (param : string) (r : result A)
  : M A :=
  fun e => (r, mk (ax e) (plot_config e) (last_traces e) (draws e)
                  (stdout e) (calls e ++ [(method, param)])%list).

Definition set_ax (a : option Axes) : M unit :=
  fun e => (Ok tt, mk a (plot_config e) (last_traces e) (draws e)
                      (stdout e) (calls e)).

Definition set_last_traces (traces : list Trace) : M unit :=
  fun e => (Ok tt, mk (ax e) (plot_config e) traces (draws e)
                      (stdout e) (calls e)).

Definition canvas_draw : M unit :=
  fun e => (Ok tt, mk (ax e) (plot_config e) (last_traces e) (S (draws e))
                      (stdout e) (calls e)).

Definition config : M PlotConfig := fun e => (Ok (plot_config e), e).

(** A method call on [self.ax]. *)
Definition on_ax (g : Axes -> result Axes) : M unit :=
  fun e =>
    match ax e with
    | None =>
        (Raise (AttributeError "'NoneType' object has no attribute"), e)
    | Some a =>
        match g a with
        | Ok a' => (Ok tt, mk (Some a') (plot_config e) (last_traces e)
                              (draws e) (stdout e) (calls e))
        | Raise x => (Raise x, e)
        end
    end.

Definition add_artist (x : artist) (a : Axes) : Axes :=
  mkAxes (projection a) (artists a ++ [x])%list (ax_xlabel a) (ax_ylabel a)
         (ax_title a) (ax_grid a) (ax_legend a) (ax_xlim a) (ax_ylim a).

(** [self.figure.add_subplot(111, projection=...)] *)
Definition add_subplot (proj : string) : M unit :=
  set_ax (Some (mkAxes proj [] None None None false None None None)).

Definition ax_text (x y : float64) (s : string) : M unit :=
  on_ax (fun a => Ok (add_artist (Text x y s) a)).

(** [ax.plot(x, y, label=..., color=..., linestyle=...)]; Matplotlib
    rejects arrays of different lengths. *)
Definition ax_plot (xs ys : list float64) (label : string)
           (colour : option string) (linestyle : string) : M unit :=
  on_ax (fun a =>
           if length xs =? length ys
           then Ok (add_artist (Line xs ys label colour linestyle) a)
           else Raise (ValueError
                         "x and y must have same first dimension")).

Definition ax_plot_point (x y : float64) (fmt : string)
           (colour : option string) : M unit :=
  on_ax (fun a => Ok (add_artist (Marker x y fmt colour) a)).

Definition set_xlabel (s : string) : M unit :=
  on_ax (fun a => Ok (mkAxes (projection a) (artists a) (Some s)
                             (ax_ylabel a) (ax_title a) (ax_grid a)
                             (ax_legend a) (ax_xlim a) (ax_ylim a))).

Definition set_ylabel (s : string) : M unit :=
  on_ax (fun a => Ok (mkAxes (projection a) (artists a) (ax_xlabel a)
                             (Some s) (ax_title a) (ax_grid a)
                             (ax_legend a) (ax_xlim a) (ax_ylim a))).

Definition set_title (s : string) : M unit :=
  on_ax (fun a => Ok (mkAxes (projection a) (artists a) (ax_xlabel a)
                             (ax_ylabel a) (Some s) (ax_grid a)
                             (ax_legend a) (ax_xlim a) (ax_ylim a))).

Definition ax_grid_on : M unit :=
  on_ax (fun a => Ok (mkAxes (projection a) (artists a) (ax_xlabel a)
                             (ax_ylabel a) (ax_title a) true
                             (ax_legend a) (ax_xlim a) (ax_ylim a))).

Definition ax_legend_at (loc : string) : M unit :=
  on_ax (fun a => Ok (mkAxes (projection a) (artists a) (ax_xlabel a)
                             (ax_ylabel a) (ax_title a) (ax_grid a)
                             (Some loc) (ax_xlim a) (ax_ylim a))).

Definition set_xlim (lo hi : float64) : M unit :=
  on_ax (fun a => Ok (mkAxes (projection a) (artists a) (ax_xlabel a)
                             (ax_ylabel a) (ax_title a) (ax_grid a)
                             (ax_legend a) (Some (lo, hi)) (ax_ylim a))).

Definition set_ylim (lo hi : float64) : M unit :=
  on_ax (fun a => Ok (mkAxes (projection a) (artists a) (ax_xlabel a)
                             (ax_ylabel a) (ax_title a) (ax_grid a)
                             (ax_legend a) (ax_xlim a) (Some (lo, hi)))).

(** [if color:] an absent or empty colour is falsy. *)
Definition truthy (c : option string) : option string :=
  match c with
  | Some EmptyString => None
  | _ => c
  end.

(** The limits block shared by the XY plots. *)
Definition apply_limits : M unit :=
  cfg <-- config ;;;
  (if negb (xlim_auto cfg) then
     match xlim cfg with
     | (Some lo, Some hi) => set_xlim lo hi
     | _ => ret tt
     end
   else ret tt) ;;;
  (if negb (ylim_auto cfg) then
     match ylim cfg with
     | (Some lo, Some hi) => set_ylim lo hi
     | _ => ret tt
     end
   else ret tt).

Definition clear_plot : M unit := set_ax None.

(** The [if]/[elif] chain of [_plot_standard]: the calculator of the
    plot type and the [ylabel] it binds; [None] is the final [else]. *)
Definition standard_calculator (plot_type : string)
  : option (string
            * (TouchstoneFile.t -> string
               -> result (list float64 * list float64))
            * string) :=
  if (plot_type =? "Magnitude (dB)")%string then
    Some ("get_magnitude_db", TouchstoneFile.get_magnitude_db,
          "Magnitude (dB)")
  else if (plot_type =? "Magnitude (Linear)")%string then
    Some ("get_magnitude_linear", TouchstoneFile.get_magnitude_linear,
          "Magnitude")
  else if (plot_type =? "Phase (Degrees)")%string then
    Some ("get_phase_deg", TouchstoneFile.get_phase_deg,
          "Phase (Degrees)")
  else if (plot_type =? "Phase (Radians)")%string then
    Some ("get_phase_rad", TouchstoneFile.get_phase_rad,
          "Phase (Radians)")
  else if (plot_type =? "VSWR")%string then
    Some ("get_vswr", TouchstoneFile.get_vswr, "VSWR")
  else if (plot_type =? "Group Delay")%string then
    Some ("get_group_delay", TouchstoneFile.get_group_delay,
          "Group Delay (s)")
  else None.

(** One iteration of the loop of [_plot_standard]. The local variable
    [ylabel] is [None] while unbound; the iteration returns its value
    afterwards. *)
Definition standard_iter (plot_type : string) (ylabel : option string)
           (trace : Trace) : M (option string) :=
  let tf := touchstone_file trace in
  let param := param_name trace in
  let label := legend_name trace in
  let color := color trace in
  match standard_calculator plot_type with
  | None => ret ylabel
  | Some (method, calculator, yl) =>
      r <-- catch (call method param (calculator tf param)) ;;;
      match r with
      | Raise x =>
          print ("Error plotting " ++ label ++ ": " ++ exn_str x) ;;;
          ret ylabel
      | Ok (freq, data) =>
          let freq_ghz := map (fun v => fdiv v (lit 1e9)) freq in
          p <-- catch (ax_plot freq_ghz data label (truthy color) "-") ;;;
          match p with
          | Raise x =>
              print ("Error plotting " ++ label ++ ": " ++ exn_str x) ;;;
              ret (Some yl)
          | Ok _ => ret (Some yl)
          end
      end
  end.

Fixpoint standard_loop (plot_type : string) (ylabel : option string)
         (traces : list Trace) : M (option string) :=
  match traces with
  | [] => ret ylabel
  | trace :: rest =>
      ylabel' <-- standard_iter plot_type ylabel trace ;;;
      standard_loop plot_type ylabel' rest
  end.

Definition _plot_standard (plot_type : string) (traces : list Trace)
  : M unit :=
  add_subplot "rectilinear" ;;;
  local_ylabel <-- standard_loop plot_type None traces ;;;
  cfg <-- config ;;;
  set_xlabel (xlabel cfg) ;;;
  (* [self.plot_config.get('ylabel', ylabel)] evaluates the local
     [ylabel] before the lookup. *)
  match local_ylabel with
  | None => raise (UnboundLocalError "ylabel")
  | Some _ =>
      set_ylabel (ylabel cfg) ;;;
      set_title (title cfg) ;;;
      (if grid cfg then ax_grid_on else ret tt) ;;;
      ax_legend_at (legend_loc cfg) ;;;
      apply_limits
  end.

(** [_draw_smith_grid]: the circle objects are built and dropped; the
    one call on the axes is [grid]. *)
Definition _draw_smith_grid : M unit :=
  let resistance :=
    map (fun r =>
           let center_x := fdiv r (fadd (lit 1) r) in
           let radius := fdiv (lit 1) (fadd (lit 1) r) in
           (center_x, lit 0, radius))
        (filter (fun r => negb (feqb r (lit 0)))
                [lit 0; lit 0.2; lit 0.5; lit 1.0; lit 2.0; lit 5.0]) in
  let reactance :=
    map (fun x =>
           let center_y :=
             if negb (feqb x (lit 0)) then fdiv (lit 1) x else lit 0 in
           let radius :=
             if negb (feqb x (lit 0)) then fabs (fdiv (lit 1) x)
             else lit 0 in
           (center_y, radius))
        [lit 0.2; lit 0.5; lit 1.0; lit 2.0; lit 5.0;
         lit (-0.2); lit (-0.5); lit (-1.0); lit (-2.0); lit (-5.0)] in
  let _ := resistance in
  let _ := reactance in
  ax_grid_on.

(** [a[0]] and [a[-1]] on a NumPy array. *)
Definition np_first (a : list float64) : result float64 :=
  match a with
  | x :: _ => Ok x
  | [] => Raise (IndexError
            "index 0 is out of bounds for axis 0 with size 0")
  end.

Definition np_last (a : list float64) : result float64 :=
  match rev a with
  | x :: _ => Ok x
  | [] => Raise (IndexError
            "index -1 is out of bounds for axis 0 with size 0")
  end.

Definition lift {A} (r : result A) : M A := fun e => (r, e).

(** The [try] body of one iteration of [_plot_smith_chart]. *)
Definition smith_body (trace : Trace) : M unit :=
  let tf := touchstone_file trace in
  let param := param_name trace in
  let label := legend_name trace in
  let color := color trace in
  s_data <-- call "get_complex_data" param
                  (TouchstoneFile.get_complex_data tf param) ;;;
  let gamma := s_data in
  let real := map np_real gamma in
  let imag := map np_imag gamma in
  let r := map np_abs gamma in
  let theta := map (np_angle false) gamma in
  ax_plot theta r label (truthy color) "-" ;;;
  t0 <-- lift (np_first theta) ;;;
  r0 <-- lift (np_first r) ;;;
  ax_plot_point t0 r0 "o" (truthy color) ;;;
  tn <-- lift (np_last theta) ;;;
  rn <-- lift (np_last r) ;;;
  ax_plot_point tn rn "s" (truthy color).

Definition smith_iter (trace : Trace) : M unit :=
  r <-- catch (smith_body trace) ;;;
  match r with
  | Raise x =>
      print ("Error plotting " ++ legend_name trace ++ " on Smith chart: "
               ++ exn_str x)
  | Ok _ => ret tt
  end.

Definition _plot_smith_chart (traces : list Trace) : M unit :=
  add_subplot "polar" ;;;
  _draw_smith_grid ;;;
  for_each smith_iter traces ;;;
  set_ylim (lit 0) (lit 1) ;;;
  cfg <-- config ;;;
  set_title (title cfg) ;;;
  ax_legend_at "upper left".

(** The [try] body of one iteration of [_plot_real_imag]. Without a
    colour the second line takes the colour Matplotlib gave the
    first, which the record leaves open as [None]. *)
Definition real_imag_body (trace : Trace) : M unit :=
  let tf := touchstone_file trace in
  let param := param_name trace in
  let label := legend_name trace in
  let color := color trace in
  '(freq, real, imag) <-- call "get_real_imag" param
                               (TouchstoneFile.get_real_imag tf param) ;;;
  let freq_ghz := map (fun v => fdiv v (lit 1e9)) freq in
  ax_plot freq_ghz real (label ++ " (Real)") (truthy color) "-" ;;;
  ax_plot freq_ghz imag (label ++ " (Imag)") (truthy color) "--".

Definition real_imag_iter (trace : Trace) : M unit :=
  r <-- catch (real_imag_body trace) ;;;
  match r with
  | Raise x =>
      print ("Error plotting " ++ legend_name trace ++ ": " ++ exn_str x)
  | Ok _ => ret tt
  end.

Definition _plot_real_imag (traces : list Trace) : M unit :=
  add_subplot "rectilinear" ;;;
  for_each real_imag_iter traces ;;;
  cfg <-- config ;;;
  set_xlabel (xlabel cfg) ;;;
  set_ylabel "Real / Imaginary" ;;;
  set_title (title cfg) ;;;
  (if grid cfg then ax_grid_on else ret tt) ;;;
  ax_legend_at (legend_loc cfg) ;;;
  apply_limits.

Definition plot (plot_type : string) (traces : list Trace) : M unit :=
  clear_plot ;;;
  set_last_traces traces ;;;
  match traces with
  | [] =>
      add_subplot "rectilinear" ;;;
      ax_text (lit 0.5) (lit 0.5) "No data to plot" ;;;
      canvas_draw
  | _ :: _ =>
      (if (plot_type =? "Smith Chart")%string then
         _plot_smith_chart traces
       else if (plot_type =? "Real vs Imaginary")%string then
         _plot_real_imag traces
       else _plot_standard plot_type traces) ;;;
      canvas_draw
  end.

(** The dictionary handed to [update_config]: the keys it carries, among
    the nine the engine reads. *)
Record ConfigDict : Type := mkConfigDict {
  cd_title : option string;
  cd_xlabel : option string;
  cd_ylabel : option string;
  cd_grid : option bool;
  cd_legend_loc : option string;
  cd_xlim_auto : option bool;
  cd_ylim_auto : option bool;
  cd_xlim : option (option float64 * option float64);
  cd_ylim : option (option float64 * option float64)
}.

Definition or_keep {A} (new : option A) (old : A) : A :=
  match new with
  | Some v => v
  | None => old
  end.

(** [self.plot_config.update(config)] *)
Definition dict_update (cfg : PlotConfig) (d : ConfigDict) : PlotConfig :=
  mkConfig (or_keep (cd_title d) (title cfg))
           (or_keep (cd_xlabel d) (xlabel cfg))
           (or_keep (cd_ylabel d) (ylabel cfg))
           (or_keep (cd_grid d) (grid cfg))
           (or_keep (cd_legend_loc d) (legend_loc cfg))
           (or_keep (cd_xlim_auto d) (xlim_auto cfg))
           (or_keep (cd_ylim_auto d) (ylim_auto cfg))
           (or_keep (cd_xlim d) (xlim cfg))
           (or_keep (cd_ylim d) (ylim cfg)).

Definition update_config (d : ConfigDict) : M unit :=
  fun e => (Ok tt, mk (ax e) (dict_update (plot_config e) d) (last_traces e)
                      (draws e) (stdout e) (calls e)).
End Engine.
End PlotEngine.

(* ------------------------------------------------------------------ *)
(** ** The idealised instance: float64 as real numbers

    Exact real arithmetic in place of rounding; there is no infinity and no
    NaN here ([ln] and the division are total with conventional values). *)

Module Ideal.
Local Open Scope R_scope.

Definition Rltb (a b : R) : bool := if Rlt_dec a b then true else false.
Definition Reqb (a b : R) : bool := if Req_dec_T a b then true else false.

(** [np.mod]: the remainder has the sign of the divisor. *)
Definition Rmod (x y : R) : R := x - IZR (Int_part (x / y)) * y.

Definition arctan2 (y x : R) : R :=
  if Rlt_dec 0 x then atan (y / x)
  else if Rlt_dec x 0 then
         if Rlt_dec y 0 then atan (y / x) - PI else atan (y / x) + PI
       else if Rlt_dec 0 y then PI / 2
            else if Rlt_dec y 0 then - (PI / 2)
                 else 0.

Definition log10 (x : R) : R := ln x / ln 10.

Definition Cabs (z : R * R) : R := sqrt (fst z * fst z + snd z * snd z).

#[export] Instance RealNumPy : NumPy := {|
  float64 := R;
  complex128 := R * R;
  lit := Q2R;
  np_pi := PI;
  fadd := Rplus;
  fsub := Rminus;
  fmul := Rmult;
  fdiv := Rdiv;
  fneg := Ropp;
  fabs := Rabs;
  np_mod := Rmod;
  feqb := Reqb;
  fltb := Rltb;
  np_maximum := Rmax;
  np_minimum := Rmin;
  np_log10 := log10;
  np_arctan2 := arctan2;
  np_abs := Cabs;
  np_real := fst;
  np_imag := snd
|}.

(** [clip(x, lo, hi)] in the words of the specification. *)
Definition clip (x lo hi : R) : R :=
  if Rlt_dec x lo then lo else if Rlt_dec hi x then hi else x.

(** The specification's VSWR of a reflection magnitude:
    [(1+G)/(1-G)] with [G = clip(|v|, 0, 0.9999)]. *)
Definition vswr_of (magnitude : R) : R :=
  let G := clip magnitude 0 (9999 / 10000) in (1 + G) / (1 - G).
End Ideal.

(** The engine as [__init__] leaves it. *)
Definition init_engine `{NP : NumPy} : PlotEngine.t :=
  PlotEngine.mk None
    (PlotEngine.mkConfig "S-Parameter Plot" "Frequency (GHz)" "Magnitude (dB)"
                         true "best" true true (None, None) (None, None))
    [] 0 [] [].

(** Whether an artist is a patch, which is what a reference circle on the
    chart would be. *)
Definition is_patch `{NP : NumPy} (x : PlotEngine.artist) : bool :=
  match x with
  | PlotEngine.Patch _ _ _ => true
  | _ => false
  end.

(** Polar axes with the grid switched on and no patch among the artists. *)
Definition polar_grid_without_circles `{NP : NumPy}
           (o : option PlotEngine.Axes) : Prop :=
  exists a,
    o = Some a
    /\ PlotEngine.projection a = "polar"
    /\ PlotEngine.ax_grid a = true
    /\ Forall (fun x => is_patch x = false) (PlotEngine.artists a).

(** [m] leaves the axes polar, gridded and free of patches. *)
Definition keeps_axes `{NP : NumPy} {A} (m : PlotEngine.M A) : Prop :=
  forall e,
    polar_grid_without_circles (PlotEngine.ax e) ->
    polar_grid_without_circles (PlotEngine.ax (snd (m e))).

(** [m] moreover returns normally. *)
Definition runs_on_axes `{NP : NumPy} (m : PlotEngine.M unit) : Prop :=
  forall e,
    polar_grid_without_circles (PlotEngine.ax e) ->
    exists e', m e = (Ok tt, e')
               /\ polar_grid_without_circles (PlotEngine.ax e').

(** The identifier [S{i}{j}] for 1-based ports [i], [j], as the f-string of
    [load_file] formats it. *)
Definition param_id (i j : nat) : string := "S" ++ str i ++ str j.

(** Every character of [s] is a decimal digit. *)
Fixpoint all_digits (s : string) : Prop :=
  match s with
  | EmptyString => True
  | String c rest => (exists d, d <= 9 /\ c = digit_char d) /\ all_digits rest
  end.

(* ------------------------------------------------------------------ *)
(** ** Difference quotients, in the words of the specification *)

Section Differences.
Context `{NP : NumPy}.

(** The slope of [y] over [x] between the neighbouring indices [i] and
    [i+1]: the forward difference at [i], the backward one at [i+1]. *)
Definition one_sided_difference (y x : list float64) (i : nat) : float64 :=
  fdiv (fsub (nth (i + 1) y (lit 0)) (nth i y (lit 0)))
       (fsub (nth (i + 1) x (lit 0)) (nth i x (lit 0))).

(** The centered difference at [k] on an evenly spaced grid of step
    [h]. *)
Definition centered_difference (y : list float64) (h : float64) (k : nat)
  : float64 :=
  fdiv (fsub (nth (k + 1) y (lit 0)) (nth (k - 1) y (lit 0)))
       (fmul (lit 2) h).

(** The centered three-point difference at [k] on an uneven grid, with
    the steps [h1] before and [h2] after [k]. *)
Definition centered_difference_uneven (y x : list float64) (k : nat)
  : float64 :=
  let h1 := fsub (nth k x (lit 0)) (nth (k - 1) x (lit 0)) in
  let h2 := fsub (nth (k + 1) x (lit 0)) (nth k x (lit 0)) in
  fadd (fadd (fmul (fdiv (fneg h2) (fmul h1 (fadd h1 h2)))
                   (nth (k - 1) y (lit 0)))
             (fmul (fdiv (fsub h2 h1) (fmul h1 h2)) (nth k y (lit 0))))
       (fmul (fdiv h1 (fmul h2 (fadd h1 h2))) (nth (k + 1) y (lit 0))).

(** NumPy's test for an evenly spaced coordinate array. *)
Definition evenly_spaced (x : list float64) : bool :=
  let h := fsub (nth 1 x (lit 0)) (nth 0 x (lit 0)) in
  forallb (fun d => feqb d h) (np_diff x).
End Differences.

(* ------------------------------------------------------------------ *)
(** ** The unwrapped phase, in the words of the specification

    Over the reals: "continuous, not wrapped to +-pi". *)

Section UnwrappedPhase.
Import Ideal.
Local Open Scope R_scope.

(** No step between neighbouring samples exceeds half a turn. *)
Definition continuous_phase (phase : list R) : Prop :=
  forall k, (k + 1 < length phase)%nat ->
    Rabs (nth (k + 1) phase 0 - nth k phase 0) <= PI.

(** [phase] shows the angles of [angles]: sample by sample the two differ
    by a whole number of turns. *)
Definition same_angles (phase angles : list R) : Prop :=
  length phase = length angles
  /\ forall k, (k < length angles)%nat ->
       exists turns : Z, nth k phase 0 = nth k angles 0 + IZR turns * (2 * PI).

(** What [np.unwrap] adds to the step [d] between two neighbours
    ([ph_correct] in NumPy), in exact arithmetic. *)
Definition unwrap_correction (d : R) : R :=
  let m := Rmod (d - - PI) (2 * PI) + - PI in
  let ddmod := if Reqb m (- PI) && Rltb 0 d then PI else m in
  if Rltb (Rabs d) PI then 0 else ddmod - d.
End UnwrappedPhase.

(* ------------------------------------------------------------------ *)
(** ** Concrete networks, in the idealised instance *)

Module Samples.
Import Ideal.

(** The parser of a session in which [nw] is what the file holds. *)
Definition parser_of (nw : Network.t) : string -> result Network.t :=
  fun _ => Ok nw.

(** One port, samples [0.5+0j] and [0.3+0.4j] at 1 GHz and 2 GHz. *)
Definition one_port : Network.t :=
  Network.mk [Q2R 1e9; Q2R 2e9] 1
             [ [[ (Q2R 0.5, Q2R 0) ]]; [[ (Q2R 0.3, Q2R 0.4) ]] ].

Definition one_port_file : TouchstoneFile.t :=
  TouchstoneFile.mk "dut.s1p" "dut.s1p" one_port ["S11"]
                    [Q2R 1e9; Q2R 2e9].

(** Two ports, one frequency point. *)
Definition two_port : Network.t :=
  Network.mk [Q2R 1e9] 2
             [ [ [ (Q2R 0.5, Q2R 0); (Q2R 0.1, Q2R 0) ];
                 [ (Q2R 0.1, Q2R 0); (Q2R 0.3, Q2R 0.4) ] ] ].

Definition two_port_file : TouchstoneFile.t :=
  TouchstoneFile.mk "dut.s2p" "dut.s2p" two_port
                    ["S11"; "S12"; "S21"; "S22"] [Q2R 1e9].

(** One port and no frequency point: every series has length zero. *)
Definition empty_one_port : Network.t := Network.mk [] 1 [].

Definition empty_file : TouchstoneFile.t :=
  TouchstoneFile.mk "empty.s1p" "empty.s1p" empty_one_port ["S11"] [].

(** Ten ports, one frequency point; the sample of output port [i] and
    input port [j] (counted from 1) is the number [10*i + j], so that the
    sample tells which entry was read: 101 for S(10,1), 20 for S(1,10). *)
Definition ten_port : Network.t :=
  Network.mk [Q2R 1e9] 10
    [ map (fun i =>
             map (fun j => (IZR (Z.of_nat (10 * i + j)), 0%R)) (seq 1 10))
          (seq 1 10) ].

Definition ten_port_file : TouchstoneFile.t :=
  TouchstoneFile.mk "dut.s10p" "dut.s10p" ten_port
                    (TouchstoneFile.gen_s_params 10) [Q2R 1e9].

(** A trace asking a two-port file for [S33]. *)
Definition s33_trace : PlotEngine.Trace :=
  PlotEngine.mkTrace two_port_file "S33" "S33" None.

Definition s21_trace : PlotEngine.Trace :=
  PlotEngine.mkTrace two_port_file "S21" "S21" (Some "red").
End Samples.

(* ------------------------------------------------------------------ *)
(** ** A Python dictionary with integer keys

    Entries in insertion order; a key occurs once. *)

Module Dict.
Definition t (V : Type) : Type := list (Z * V).

Fixpoint get {V} (k : Z) (d : t V) : option V :=
  match d with
  | [] => None
  | (k', v) :: rest => if (k =? k')%Z then Some v else get k rest
  end.

Definition mem {V} (k : Z) (d : t V) : bool :=
  match get k d with Some _ => true | None => false end.

(** [d[k] = v]: an existing key keeps its place. *)
Fixpoint set {V} (k : Z) (v : V) (d : t V) : t V :=
  match d with
  | [] => [(k, v)]
  | (k', v') :: rest =>
      if (k =? k')%Z then (k, v) :: rest else (k', v') :: set k v rest
  end.

(** [del d[k]] *)
Fixpoint del {V} (k : Z) (d : t V) : t V :=
  match d with
  | [] => []
  | (k', v') :: rest =>
      if (k =? k')%Z then del k rest else (k', v') :: del k rest
  end.
End Dict.

(* ------------------------------------------------------------------ *)
(** ** file_manager.py: class FileManager *)

Module FileManager.
Record t `{NP : NumPy} : Type := mk {
  files : Dict.t TouchstoneFile.t
}.
Arguments mk {NP} files.

Section Methods.
Context `{NP : NumPy}.

Definition init : t := mk [].

(** [load_file(slot_id, filepath)]: the constructor runs first; when it
    raises, nothing is assigned. *)
Definition load_file (rf_Network : string -> result Network.t)
           (slot_id : Z) (filepath : string) (self : t)
  : result TouchstoneFile.t * t :=
  match TouchstoneFile.load_file rf_Network filepath with
  | Ok touchstone_file =>
      (Ok touchstone_file, mk (Dict.set slot_id touchstone_file (files self)))
  | Raise e => (Raise e, self)
  end.

Definition remove_file (slot_id : Z) (self : t) : t :=
  if Dict.mem slot_id (files self)
  then mk (Dict.del slot_id (files self))
  else self.

Definition get_file (slot_id : Z) (self : t) : option TouchstoneFile.t :=
  Dict.get slot_id (files self).

Definition clear_all (self : t) : t := mk [].
End Methods.
End FileManager.

(* ------------------------------------------------------------------ *)
(** ** The callers: trace collection and colour assignment *)

(** The colour list of [update_plot] and [open_plot_window]. *)
Definition colors : list string :=
  ["#1f77b4"; "#ff7f0e"; "#2ca02c"; "#d62728"; "#9467bd";
   "#8c564b"; "#e377c2"; "#7f7f7f"; "#bcbd22"; "#17becf"].

(** [l[i]] on a Python list, for a non-negative [i]. *)
Definition list_index {A} (l : list A) (i : nat) : result A :=
  match nth_error l i with
  | Some a => Ok a
  | None => Raise (IndexError "list index out of range")
  end.

(** A non-empty string is truthy. *)
Definition nonempty (s : string) : bool := negb (s =? "")%string.

(** ui_components.py, class FileSlotWidget: the values its widgets hold.
    The signals it emits are outside this record. *)
Module FileSlotWidget.
Record t `{NP : NumPy} : Type := mk {
  slot_id : Z;
  filepath : option string;
  touchstone_file : option TouchstoneFile.t;
  available_params : list string;
  enabled_checkbox : bool;
  param_combo : string;
  legend_edit : string
}.
Arguments mk {NP} slot_id filepath touchstone_file available_params
          enabled_checkbox param_combo legend_edit.

(** The dictionary of [get_trace_data]; [update_plot] adds the colour. *)
Record TraceData `{NP : NumPy} : Type := mkTraceData {
  trace : PlotEngine.Trace;
  trace_slot_id : Z
}.
Arguments mkTraceData {NP} trace trace_slot_id.

Section Methods.
Context `{NP : NumPy}.

(** The slot as [__init__] and [init_ui] leave it. *)
Definition init (slot_id : Z) : t := mk slot_id None None [] false "" "".

(** [load_file(filepath)]: on a failing constructor the message box is
    shown and nothing is assigned. *)
Definition load_file (rf_Network : string -> result Network.t)
           (path : string) (self : t) : t :=
  match TouchstoneFile.load_file rf_Network path with
  | Ok tf =>
      let params := TouchstoneFile.s_params tf in
      match params with
      | first :: _ =>
          mk (slot_id self) (Some path) (Some tf) params true first first
      | [] =>
          mk (slot_id self) (Some path) (Some tf) params true ""
             (legend_edit self)
      end
  | Raise _ => self
  end.

Definition remove_file (self : t) : t :=
  mk (slot_id self) None None [] false "" "".

Definition get_trace_data (self : t) : option TraceData :=
  match touchstone_file self with
  | Some tf =>
      if enabled_checkbox self && nonempty (param_combo self)
         && nonempty (legend_edit self)
      then Some (mkTraceData
                   (PlotEngine.mkTrace tf (param_combo self) (legend_edit self)
                                       None)
                   (slot_id self))
      else None
  | None => None
  end.

(** [trace_data['color'] = c] *)
Definition set_color (c : string) (td : TraceData) : TraceData :=
  mkTraceData
    (PlotEngine.mkTrace (PlotEngine.touchstone_file (trace td))
                        (PlotEngine.param_name (trace td))
                        (PlotEngine.legend_name (trace td)) (Some c))
    (trace_slot_id td).
End Methods.
End FileSlotWidget.

(** main_window.py, class MainWindow *)
Module MainWindow.
Section Methods.
Context `{NP : NumPy}.

(** The loop of [update_plot], from slot index [i] on, appending to
    [traces]. *)
Fixpoint collect_from (i : nat) (file_slots : list FileSlotWidget.t)
         (traces : list FileSlotWidget.TraceData)
  : result (list FileSlotWidget.TraceData) :=
  match file_slots with
  | [] => Ok traces
  | slot :: rest =>
      match FileSlotWidget.get_trace_data slot with
      | Some trace_data =>
          c <- list_index colors (i mod length colors) ;;
          collect_from (S i) rest
                       (app traces [FileSlotWidget.set_color c trace_data])
      | None => collect_from (S i) rest traces
      end
  end.

Definition collect_traces (file_slots : list FileSlotWidget.t)
  : result (list FileSlotWidget.TraceData) :=
  collect_from 0 file_slots [].

Definition update_plot (file_slots : list FileSlotWidget.t)
           (plot_type : string) : PlotEngine.M unit :=
  match collect_traces file_slots with
  | Ok traces =>
      PlotEngine.plot plot_type (map FileSlotWidget.trace traces)
  | Raise x => PlotEngine.raise x
  end.
End Methods.
End MainWindow.

(** file_manager_window.py, class FileManagerWindow *)
Module FileManagerWindow.
Section Methods.
Context `{NP : NumPy}.

(** The inner loop of [open_plot_window] over the selections of one
    file. *)
Fixpoint add_selections (touchstone_file : TouchstoneFile.t)
         (selections : list (string * string))
         (traces : list PlotEngine.Trace) (trace_count : nat)
  : result (list PlotEngine.Trace * nat) :=
  match selections with
  | [] => Ok (traces, trace_count)
  | (param_name, legend_name) :: rest =>
      c <- list_index colors (trace_count mod length colors) ;;
      add_selections touchstone_file rest
        (app traces [PlotEngine.mkTrace touchstone_file param_name
                                        legend_name (Some c)])
        (trace_count + 1)
  end.

(** The outer loop, over the items of [selected_s_params]. *)
Fixpoint collect_selected (loaded_files : Dict.t TouchstoneFile.t)
         (items : Dict.t (list (string * string)))
         (traces : list PlotEngine.Trace) (trace_count : nat)
  : result (list PlotEngine.Trace * nat) :=
  match items with
  | [] => Ok (traces, trace_count)
  | (slot_id, selections) :: rest =>
      match Dict.get slot_id loaded_files, selections with
      | Some touchstone_file, _ :: _ =>
          '(traces', trace_count') <-
            add_selections touchstone_file selections traces trace_count ;;
          collect_selected loaded_files rest traces' trace_count'
      | _, _ => collect_selected loaded_files rest traces trace_count
      end
  end.

(** [open_plot_window]: [None] is the "No Data" message, after which
    nothing is plotted. *)
Definition open_plot_window (loaded_files : Dict.t TouchstoneFile.t)
           (selected_s_params : Dict.t (list (string * string)))
  : result (option (list PlotEngine.Trace)) :=
  '(traces, _) <- collect_selected loaded_files selected_s_params [] 0 ;;
  match traces with
  | [] => Ok None
  | _ :: _ => Ok (Some traces)
  end.
End Methods.
End FileManagerWindow.

(* ------------------------------------------------------------------ *)
(** ** s_param_selector.py: class SParamSelectorDialog *)

Module SParamSelectorDialog.
(** One row of [params_table]: the parameter cell, the legend cell and the
    include checkbox, all of which [populate_table] sets. *)
Record Row : Type := mkRow {
  param_item : string;
  legend_item : string;
  include_checkbox : bool
}.

Section Methods.
(** Python's [str.isspace] on one character. *)
Variable isspace : ascii -> bool.

Fixpoint lstrip (s : string) : string :=
  match s with
  | EmptyString => EmptyString
  | String c rest => if isspace c then lstrip rest else s
  end.

Fixpoint rstrip (s : string) : string :=
  match s with
  | EmptyString => EmptyString
  | String c rest =>
      match rstrip rest with
      | EmptyString => if isspace c then EmptyString else String c EmptyString
      | kept => String c kept
      end
  end.

(** [s.strip()] *)
Definition strip (s : string) : string := rstrip (lstrip s).

(** [current_dict.get(param)] for
    [current_dict = {param: legend for param, legend in current_selections}]:
    a later pair overrides an earlier one. *)
Definition current_dict_get (current_selections : list (string * string))
           (param : string) : option string :=
  fold_left (fun found '(q, legend) =>
               if (param =? q)%string then Some legend else found)
            current_selections None.

Definition populate_table (s_params : list string)
           (current_selections : list (string * string)) : list Row :=
  map (fun param =>
         match current_dict_get current_selections param with
         | Some legend => mkRow param legend true
         | None => mkRow param param false
         end) s_params.

Definition select_all (rows : list Row) : list Row :=
  map (fun r => mkRow (param_item r) (legend_item r) true) rows.

Definition select_none (rows : list Row) : list Row :=
  map (fun r => mkRow (param_item r) (legend_item r) false) rows.

Definition get_selections (rows : list Row) : list (string * string) :=
  flat_map (fun r =>
              if include_checkbox r then
                let param_name := param_item r in
                let legend_name := strip (legend_item r) in
                let legend_name :=
                  if nonempty legend_name then legend_name else param_name in
                [(param_name, legend_name)]
              else []) rows.
End Methods.
End SParamSelectorDialog.

(* ------------------------------------------------------------------ *)
(** ** plot_controls.py and plot_window.py *)

Module PlotControlsWidget.
(** The values of the widgets. *)
Record t `{NP : NumPy} : Type := mk {
  plot_type_combo : string;
  title_edit : string;
  xlabel_edit : string;
  ylabel_edit : string;
  grid_checkbox : bool;
  legend_combo : string;
  xlim_auto_checkbox : bool;
  ylim_auto_checkbox : bool;
  xmin_spinbox : float64;
  xmax_spinbox : float64;
  ymin_spinbox : float64;
  ymax_spinbox : float64
}.
Arguments mk {NP} plot_type_combo title_edit xlabel_edit ylabel_edit
          grid_checkbox legend_combo xlim_auto_checkbox ylim_auto_checkbox
          xmin_spinbox xmax_spinbox ymin_spinbox ymax_spinbox.

(** The dictionary [update_config] emits with [config_changed]. *)
Definition update_config `{NP : NumPy} (self : t) : PlotEngine.ConfigDict :=
  PlotEngine.mkConfigDict
    (Some (title_edit self)) (Some (xlabel_edit self))
    (Some (ylabel_edit self)) (Some (grid_checkbox self))
    (Some (legend_combo self)) (Some (xlim_auto_checkbox self))
    (Some (ylim_auto_checkbox self))
    (Some (if negb (xlim_auto_checkbox self)
           then (Some (xmin_spinbox self), Some (xmax_spinbox self))
           else (None, None)))
    (Some (if negb (ylim_auto_checkbox self)
           then (Some (ymin_spinbox self), Some (ymax_spinbox self))
           else (None, None))).

Definition get_plot_type `{NP : NumPy} (self : t) : string :=
  plot_type_combo self.
End PlotControlsWidget.

Module PlotWindow.
Section Methods.
Context `{NP : NumPy}.

(** [getattr(self.plot_engine, 'last_traces', [])]: the engine record
    starts with the empty list. *)
Definition last_traces : PlotEngine.M (list PlotEngine.Trace) :=
  fun e => (Ok (PlotEngine.last_traces e), e).

Definition update_plot (controls : PlotControlsWidget.t)
           (traces : list PlotEngine.Trace) (plot_type : option string)
  : PlotEngine.M unit :=
  let plot_type :=
    match plot_type with
    | None => PlotControlsWidget.get_plot_type controls
    | Some t => t
    end in
  PlotEngine.plot plot_type traces.

Definition on_plot_type_changed (plot_type : string) : PlotEngine.M unit :=
  PlotEngine.mbind last_traces (PlotEngine.plot plot_type).

Definition on_config_changed (controls : PlotControlsWidget.t)
           (config : PlotEngine.ConfigDict) : PlotEngine.M unit :=
  PlotEngine.mbind (PlotEngine.update_config config)
    (fun _ =>
       let plot_type := PlotControlsWidget.get_plot_type controls in
       PlotEngine.mbind last_traces (PlotEngine.plot plot_type)).
End Methods.
End PlotWindow.

(* ------------------------------------------------------------------ *)
(** ** What a render leaves on the axes, trace by trace *)

Section Rendered.
Context `{NP : NumPy}.

(** Hz to GHz, as the XY plots scale the frequency axis. *)
Definition ghz (freq : list float64) : list float64 :=
  map (fun v => fdiv v (lit 1e9)) freq.

(** The line an XY plot draws for [trace], if any. *)
Definition standard_artists
           (calculator : TouchstoneFile.t -> string
                         -> result (list float64 * list float64))
           (trace : PlotEngine.Trace) : list PlotEngine.artist :=
  match calculator (PlotEngine.touchstone_file trace)
                   (PlotEngine.param_name trace) with
  | Ok (freq, data) =>
      if length (ghz freq) =? length data
      then [PlotEngine.Line (ghz freq) data (PlotEngine.legend_name trace)
                            (PlotEngine.truthy (PlotEngine.color trace)) "-"]
      else []
  | Raise _ => []
  end.

(** The line an XY plot prints for [trace], if any. *)
Definition standard_reports
           (calculator : TouchstoneFile.t -> string
                         -> result (list float64 * list float64))
           (trace : PlotEngine.Trace) : list string :=
  match calculator (PlotEngine.touchstone_file trace)
                   (PlotEngine.param_name trace) with
  | Ok (freq, data) =>
      if length (ghz freq) =? length data then []
      else ["Error plotting " ++ PlotEngine.legend_name trace
              ++ ": x and y must have same first dimension"]
  | Raise x =>
      ["Error plotting " ++ PlotEngine.legend_name trace ++ ": " ++ exn_str x]
  end.

(** Whether the calculator of [trace] returns. *)
Definition computes
           (calculator : TouchstoneFile.t -> string
                         -> result (list float64 * list float64))
           (trace : PlotEngine.Trace) : bool :=
  is_ok (calculator (PlotEngine.touchstone_file trace)
                    (PlotEngine.param_name trace)).

(** The limits an XY plot sets from the configuration. *)
Definition applied_limit (auto : bool) (lim : option float64 * option float64)
  : option (float64 * float64) :=
  if auto then None
  else match lim with
       | (Some lo, Some hi) => Some (lo, hi)
       | _ => None
       end.

(** What the Smith chart draws for [trace]: the curve in polar
    coordinates, then the markers of its first and last sample. *)
Definition smith_artists (trace : PlotEngine.Trace)
  : list PlotEngine.artist :=
  match TouchstoneFile.get_complex_data (PlotEngine.touchstone_file trace)
                                        (PlotEngine.param_name trace) with
  | Ok s_data =>
      let r := map np_abs s_data in
      let theta := map (np_angle false) s_data in
      let c := PlotEngine.truthy (PlotEngine.color trace) in
      PlotEngine.Line theta r (PlotEngine.legend_name trace) c "-"
      :: match s_data with
         | [] => []
         | first :: _ =>
             [PlotEngine.Marker (np_angle false first) (np_abs first) "o" c;
              PlotEngine.Marker (np_angle false (last s_data first))
                                (np_abs (last s_data first)) "s" c]
         end
  | Raise _ => []
  end.

Definition smith_reports (trace : PlotEngine.Trace) : list string :=
  match TouchstoneFile.get_complex_data (PlotEngine.touchstone_file trace)
                                        (PlotEngine.param_name trace) with
  | Ok [] =>
      ["Error plotting " ++ PlotEngine.legend_name trace
         ++ " on Smith chart: index 0 is out of bounds for axis 0 with size 0"]
  | Ok _ => []
  | Raise x =>
      ["Error plotting " ++ PlotEngine.legend_name trace
         ++ " on Smith chart: " ++ exn_str x]
  end.

(** What the real/imaginary plot draws for [trace]. *)
Definition real_imag_artists (trace : PlotEngine.Trace)
  : list PlotEngine.artist :=
  match TouchstoneFile.get_real_imag (PlotEngine.touchstone_file trace)
                                     (PlotEngine.param_name trace) with
  | Ok (freq, real, imag) =>
      let c := PlotEngine.truthy (PlotEngine.color trace) in
      if length (ghz freq) =? length real
      then [PlotEngine.Line (ghz freq) real
                            (PlotEngine.legend_name trace ++ " (Real)") c "-";
            PlotEngine.Line (ghz freq) imag
                            (PlotEngine.legend_name trace ++ " (Imag)") c "--"]
      else []
  | Raise _ => []
  end.

Definition real_imag_reports (trace : PlotEngine.Trace) : list string :=
  match TouchstoneFile.get_real_imag (PlotEngine.touchstone_file trace)
                                     (PlotEngine.param_name trace) with
  | Ok (freq, real, imag) =>
      if length (ghz freq) =? length real then []
      else ["Error plotting " ++ PlotEngine.legend_name trace
              ++ ": x and y must have same first dimension"]
  | Raise x =>
      ["Error plotting " ++ PlotEngine.legend_name trace ++ ": " ++ exn_str x]
  end.

(** [l] appended to the artists of [a]. *)
Definition add_artists (l : list PlotEngine.artist) (a : PlotEngine.Axes)
  : PlotEngine.Axes :=
  PlotEngine.mkAxes (PlotEngine.projection a) (PlotEngine.artists a ++ l)%list
                    (PlotEngine.ax_xlabel a) (PlotEngine.ax_ylabel a)
                    (PlotEngine.ax_title a) (PlotEngine.ax_grid a)
                    (PlotEngine.ax_legend a) (PlotEngine.ax_xlim a)
                    (PlotEngine.ax_ylim a).

(** The axes of a finished XY plot holding [arts]: labels, title, grid,
    legend and limits as the configuration [cfg] gives them. *)
Definition xy_axes (cfg : PlotEngine.PlotConfig)
           (arts : list PlotEngine.artist) : PlotEngine.Axes :=
  PlotEngine.mkAxes
    "rectilinear" arts
    (Some (PlotEngine.xlabel cfg)) (Some (PlotEngine.ylabel cfg))
    (Some (PlotEngine.title cfg)) (PlotEngine.grid cfg)
    (Some (PlotEngine.legend_loc cfg))
    (applied_limit (PlotEngine.xlim_auto cfg) (PlotEngine.xlim cfg))
    (applied_limit (PlotEngine.ylim_auto cfg) (PlotEngine.ylim cfg)).

(** The axes an XY plot leaves when it raises on the unbound [ylabel]:
    only the x label was set. *)
Definition xy_axes_aborted (cfg : PlotEngine.PlotConfig)
           (arts : list PlotEngine.artist) : PlotEngine.Axes :=
  PlotEngine.mkAxes "rectilinear" arts (Some (PlotEngine.xlabel cfg))
                    None None false None None None.

(** The axes of a finished Smith chart holding [arts]. *)
Definition smith_axes (cfg : PlotEngine.PlotConfig)
           (arts : list PlotEngine.artist) : PlotEngine.Axes :=
  PlotEngine.mkAxes "polar" arts None None (Some (PlotEngine.title cfg)) true
                    (Some "upper left") None (Some (lit 0, lit 1)).

(** The axes of a finished real/imaginary plot holding [arts]. *)
Definition real_imag_axes (cfg : PlotEngine.PlotConfig)
           (arts : list PlotEngine.artist) : PlotEngine.Axes :=
  PlotEngine.mkAxes
    "rectilinear" arts
    (Some (PlotEngine.xlabel cfg)) (Some "Real / Imaginary")
    (Some (PlotEngine.title cfg)) (PlotEngine.grid cfg)
    (Some (PlotEngine.legend_loc cfg))
    (applied_limit (PlotEngine.xlim_auto cfg) (PlotEngine.xlim cfg))
    (applied_limit (PlotEngine.ylim_auto cfg) (PlotEngine.ylim cfg)).

(** The engine [e] with axes [a] after [l] was drawn, [reports] printed and
    the calculators [invoked] called. *)
Definition after_drawing (e : PlotEngine.t) (a : PlotEngine.Axes)
           (l : list PlotEngine.artist) (reports : list string)
           (invoked : list (string * string)) : PlotEngine.t :=
  PlotEngine.mk (Some (add_artists l a)) (PlotEngine.plot_config e)
                (PlotEngine.last_traces e) (PlotEngine.draws e)
                (PlotEngine.stdout e ++ reports)%list
                (PlotEngine.calls e ++ invoked)%list.
End Rendered.

(** Whether the strings of [l] are pairwise different. *)
Fixpoint distinct (l : list string) : bool :=
  match l with
  | [] => true
  | x :: rest => negb (str_in x rest) && distinct rest
  end.

(** The traces [traces] carry the palette colours by position: the k-th
    one has colour [colors[k mod 10]]. *)
Definition positional_colours `{NP : NumPy} (traces : list PlotEngine.Trace)
  : Prop :=
  forall k t,
    nth_error traces k = Some t ->
    PlotEngine.color t = Some (nth (k mod 10) colors "").

(** File, parameter and legend of a trace. *)
Definition trace_key `{NP : NumPy} (t : PlotEngine.Trace)
  : TouchstoneFile.t * string * string :=
  (PlotEngine.touchstone_file t, PlotEngine.param_name t,
   PlotEngine.legend_name t).

(** The selections of the loaded files, in the order of
    [selected_s_params]. *)
Definition selected_keys `{NP : NumPy}
           (loaded_files : Dict.t TouchstoneFile.t)
           (selected_s_params : Dict.t (list (string * string)))
  : list (TouchstoneFile.t * string * string) :=
  flat_map (fun '(slot_id, selections) =>
              match Dict.get slot_id loaded_files with
              | Some tf => map (fun '(p, l) => (tf, p, l)) selections
              | None => []
              end) selected_s_params.

(* ================================================================== *)
(** * Decimal formatting *)

Lemma str_fuel_irrelevant :
  forall f1 f2 n, n < f1 -> n < f2 -> str_fuel f1 n = str_fuel f2 n.
Proof.
  induction f1 as [|f1 IH]; intros f2 n H1 H2; [lia|].
  destruct f2 as [|f2]; [lia|].
  cbn [str_fuel]. destruct (n <? 10) eqn:E; [reflexivity|].
  apply Nat.ltb_ge in E.
  assert (n / 10 < n) by (apply Nat.div_lt; lia).
  rewrite (IH f2 (n / 10)); [reflexivity | lia | lia].
Qed.

Lemma str_small : forall n, n < 10 -> str n = String (digit_char n) "".
Proof.
  intros n H. unfold str. cbn [str_fuel].
  apply Nat.ltb_lt in H. rewrite H. reflexivity.
Qed.

Lemma str_large :
  forall n, 10 <= n ->
            str n = str (n / 10) ++ String (digit_char (n mod 10)) "".
Proof.
  intros n H. unfold str at 1.
  cbn [str_fuel].
  destruct (n <? 10) eqn:E; [apply Nat.ltb_lt in E; lia|].
  assert (n / 10 < n) by (apply Nat.div_lt; lia).
  unfold str. rewrite (str_fuel_irrelevant n (S (n / 10)) (n / 10)) by lia.
  reflexivity.
Qed.

Lemma all_digits_app :
  forall a b, all_digits a -> all_digits b -> all_digits (a ++ b).
Proof.
  induction a as [|c a IH]; simpl; intros b Ha Hb; [assumption|].
  destruct Ha as [Hc Ha]. split; [assumption | apply IH; assumption].
Qed.

Lemma str_all_digits : forall n, all_digits (str n).
Proof.
  intro n. induction n as [n IH] using (well_founded_induction lt_wf).
  destruct (Nat.lt_ge_cases n 10) as [H|H].
  - rewrite str_small by assumption. simpl. split; [|exact I].
    exists n. split; [lia | reflexivity].
  - rewrite str_large by assumption. apply all_digits_app.
    + apply IH. apply Nat.div_lt; lia.
    + simpl. split; [|exact I]. exists (n mod 10). split; [|reflexivity].
      pose proof (Nat.mod_upper_bound n 10). lia.
Qed.

(** The leading digit of [str n] is at most [n], and positive when [n] is. *)
Lemma str_head :
  forall n, exists d rest,
      str n = String (digit_char d) rest /\ d <= 9 /\ d <= n /\ (1 <= n -> 1 <= d).
Proof.
  intro n. induction n as [n IH] using (well_founded_induction lt_wf).
  destruct (Nat.lt_ge_cases n 10) as [H|H].
  - exists n, "". rewrite str_small by assumption. repeat split; lia.
  - assert (Hq : n / 10 < n) by (apply Nat.div_lt; lia).
    assert (Hq1 : 1 <= n / 10).
    { apply Nat.div_le_lower_bound; lia. }
    destruct (IH _ Hq) as (d & rest & E & H9 & Hd & Hpos).
    exists d, (rest ++ String (digit_char (n mod 10)) "").
    rewrite str_large by assumption. rewrite E.
    repeat split; try reflexivity; lia.
Qed.

(** From ten on, [str n] has at least two characters, both digits. *)
Lemma str_head2 :
  forall n, 10 <= n ->
    exists d1 d2 rest,
      str n = String (digit_char d1) (String (digit_char d2) rest)
      /\ 1 <= d1 <= 9 /\ d2 <= 9.
Proof.
  intros n H.
  assert (Hq1 : 1 <= n / 10) by (apply Nat.div_le_lower_bound; lia).
  destruct (str_head (n / 10)) as (d1 & rest & E & H9 & _ & Hpos).
  pose proof (str_all_digits (n / 10)) as Hall. rewrite E in Hall.
  rewrite str_large by assumption. rewrite E.
  destruct rest as [|c rest].
  - exists d1, (n mod 10), "".
    pose proof (Nat.mod_upper_bound n 10).
    repeat split; try reflexivity; lia.
  - cbn [all_digits] in Hall. destruct Hall as (_ & (d2 & Hd2 & ->) & _).
    exists d1, d2, (rest ++ String (digit_char (n mod 10)) "").
    repeat split; try reflexivity; lia.
Qed.

Lemma int_digit_char :
  forall d, d <= 9 -> int (digit_char d) = Ok (Z.of_nat d).
Proof.
  intros d H.
  do 10 (destruct d as [|d]; [reflexivity|]). lia.
Qed.

(* ================================================================== *)
(** * The parameter listing *)

Lemma fold_append_map :
  forall {A B} (g : A -> B) (l : list A) (acc : list B),
    fold_left (fun acc' j => app acc' [g j]) l acc = app acc (map g l).
Proof.
  intros A B g l. induction l as [|a l IH]; intro acc; simpl.
  - now rewrite app_nil_r.
  - rewrite IH, <- app_assoc. reflexivity.
Qed.

Lemma nested_fold_flat_map :
  forall {A B D} (g : A -> B -> D) (lj : list B) (li : list A) (acc : list D),
    fold_left
      (fun acc0 i => fold_left (fun acc' j => app acc' [g i j]) lj acc0)
      li acc
    = app acc (flat_map (fun i => map (g i) lj) li).
Proof.
  intros A B D g lj li. induction li as [|a li IH]; intro acc; simpl.
  - now rewrite app_nil_r.
  - rewrite (fold_append_map (g a)), IH, <- app_assoc. reflexivity.
Qed.

Lemma gen_s_params_flat_map :
  forall P,
    TouchstoneFile.gen_s_params P
    = flat_map (fun i => map (fun j => param_id (i + 1) (j + 1)) (seq 0 P))
               (seq 0 P).
Proof.
  intro P. unfold TouchstoneFile.gen_s_params.
  exact (nested_fold_flat_map (fun i j => param_id (i + 1) (j + 1))
                              (seq 0 P) (seq 0 P) []).
Qed.

Lemma In_gen_s_params :
  forall P p,
    In p (TouchstoneFile.gen_s_params P)
    <-> exists i j, i < P /\ j < P /\ p = param_id (i + 1) (j + 1).
Proof.
  intros P p. rewrite gen_s_params_flat_map, in_flat_map. split.
  - intros (i & Hi & Hp). apply in_map_iff in Hp.
    destruct Hp as (j & <- & Hj).
    apply in_seq in Hi. apply in_seq in Hj.
    exists i, j. repeat split; lia.
  - intros (i & j & Hi & Hj & ->). exists i. split.
    + apply in_seq. lia.
    + apply in_map_iff. exists j. split; [reflexivity | apply in_seq; lia].
Qed.

(** Blocks of equal length, indexed row-major. *)
Lemma nth_error_flat_map_blocks :
  forall {B} (g : nat -> nat -> B) P n a i j,
    i < n -> j < P ->
    nth_error (flat_map (fun i' => map (g i') (seq 0 P)) (seq a n)) (i * P + j)
    = Some (g (a + i) j).
Proof.
  intros B g P n. induction n as [|n IH]; intros a i j Hi Hj; [lia|].
  cbn [seq flat_map].
  destruct i as [|i].
  - rewrite nth_error_app1 by (rewrite length_map, length_seq; lia).
    simpl. rewrite nth_error_map, nth_error_seq.
    apply Nat.ltb_lt in Hj. rewrite Hj. simpl.
    now rewrite Nat.add_0_r.
  - rewrite nth_error_app2 by (rewrite length_map, length_seq; simpl; lia).
    rewrite length_map, length_seq.
    replace (S i * P + j - P) with (i * P + j) by (simpl; lia).
    rewrite IH by lia. f_equal. f_equal. lia.
Qed.

Lemma length_flat_map_blocks :
  forall {B} (g : nat -> nat -> B) P n a,
    length (flat_map (fun i' => map (g i') (seq 0 P)) (seq a n)) = n * P.
Proof.
  intros B g P n. induction n as [|n IH]; intro a; [reflexivity|].
  cbn [seq flat_map]. rewrite length_app, length_map, length_seq, IH.
  simpl. reflexivity.
Qed.

Lemma str_in_true : forall x xs, str_in x xs = true <-> In x xs.
Proof.
  intros x xs. unfold str_in. rewrite existsb_exists. split.
  - intros (y & Hy & E). apply String.eqb_eq in E. now subst.
  - intro H. exists x. split; [assumption | apply String.eqb_refl].
Qed.

Lemma str_in_false : forall x xs, str_in x xs = false <-> ~ In x xs.
Proof.
  intros x xs. rewrite <- str_in_true. destruct (str_in x xs); split;
    intro H; try reflexivity; try discriminate; try congruence.
Qed.

(* ================================================================== *)
(** * Parsing a listed identifier *)

(** The characters at positions 1 and 2 of a listed identifier are digits
    no larger than the port count; with at most nine ports they are the two
    port numbers themselves. *)
Lemma param_id_digits :
  forall P a b,
    1 <= a <= P -> 1 <= b <= P ->
    exists d1 d2,
      String.get 1 (param_id a b) = Some (digit_char d1)
      /\ String.get 2 (param_id a b) = Some (digit_char d2)
      /\ 1 <= d1 <= 9 /\ d2 <= 9 /\ d1 <= P /\ d2 <= P
      /\ (P <= 9 -> d1 = a /\ d2 = b).
Proof.
  intros P a b Ha Hb. unfold param_id.
  destruct (Nat.lt_ge_cases a 10) as [Ha10|Ha10].
  - rewrite (str_small a) by assumption.
    destruct (Nat.lt_ge_cases b 10) as [Hb10|Hb10].
    + rewrite (str_small b) by assumption.
      exists a, b. simpl. repeat split; lia.
    + destruct (str_head b) as (d & rest & E & H9 & Hd & Hpos).
      rewrite E. exists a, d. simpl. repeat split; lia.
  - destruct (str_head2 a Ha10) as (d1 & d2 & rest & E & H1 & H2).
    rewrite E. exists d1, d2. simpl. repeat split; lia.
Qed.

Lemma parse_row_col_digits :
  forall p d1 d2,
    String.get 1 p = Some (digit_char d1) ->
    String.get 2 p = Some (digit_char d2) ->
    d1 <= 9 -> d2 <= 9 ->
    TouchstoneFile.parse_row_col p
    = Ok ((Z.of_nat d1 - 1)%Z, (Z.of_nat d2 - 1)%Z).
Proof.
  intros p d1 d2 E1 E2 H1 H2. unfold TouchstoneFile.parse_row_col, str_index.
  rewrite E1, E2. cbn [bind].
  rewrite !int_digit_char by assumption. reflexivity.
Qed.

(* ================================================================== *)
(** * Sample retrieval *)

Section Retrieval.
Context `{NP : NumPy}.

Lemma load_file_inv :
  forall rf_Network path tf,
    TouchstoneFile.load_file rf_Network path = Ok tf ->
    exists nw,
      rf_Network path = Ok nw
      /\ tf = TouchstoneFile.mk path (path_name path) nw
                (TouchstoneFile.gen_s_params (Network.nports nw))
                (Network.f nw).
Proof.
  intros rf_Network path tf. unfold TouchstoneFile.load_file.
  destruct (rf_Network path) as [nw|e]; [|discriminate].
  intro H. injection H as <-. exists nw. split; reflexivity.
Qed.

Lemma np_norm_index_ok :
  forall dim axis i,
    (- Z.of_nat dim <= i < Z.of_nat dim)%Z ->
    exists r, np_norm_index dim axis i = Ok r /\ r < dim.
Proof.
  intros dim axis i H. unfold np_norm_index.
  destruct ((0 <=? i)%Z && (i <? Z.of_nat dim)%Z) eqn:E1.
  - exists (Z.to_nat i). split; [reflexivity|].
    apply andb_true_iff in E1. destruct E1 as [E1 E2].
    apply Z.leb_le in E1. apply Z.ltb_lt in E2. lia.
  - destruct ((- Z.of_nat dim <=? i)%Z && (i <? 0)%Z) eqn:E2.
    + exists (Z.to_nat (i + Z.of_nat dim)). split; [reflexivity|].
      apply andb_true_iff in E2. destruct E2 as [E2 E3].
      apply Z.leb_le in E2. apply Z.ltb_lt in E3. lia.
    + exfalso.
      apply andb_false_iff in E1. apply andb_false_iff in E2.
      rewrite Z.leb_gt, !Z.ltb_ge in E1.
      rewrite Z.leb_gt, !Z.ltb_ge in E2. lia.
Qed.

Lemma mapM_cell_ok :
  forall P r c (mats : list (list (list complex128))),
    r < P -> c < P ->
    Forall (fun m => length m = P /\ Forall (fun row => length row = P) m)
           mats ->
    exists l,
      mapM (fun m =>
              match nth_error m r with
              | Some line =>
                  match nth_error line c with
                  | Some v => Ok v
                  | None => Raise (IndexError "index out of bounds")
                  end
              | None => Raise (IndexError "index out of bounds")
              end) mats = Ok l
      /\ length l = length mats.
Proof.
  intros P r c mats Hr Hc HF. induction HF as [|m mats [Hm Hrows] _ IH].
  - exists []. split; reflexivity.
  - destruct IH as (l & El & Hl).
    destruct (nth_error m r) as [line|] eqn:Em.
    + assert (Hline : length line = P).
      { rewrite Forall_forall in Hrows. apply Hrows.
        eapply nth_error_In. eassumption. }
      destruct (nth_error line c) as [v|] eqn:Ev.
      * exists (v :: l). cbn [mapM]. rewrite Em, Ev. cbn [bind].
        rewrite El. cbn [bind]. split; [reflexivity | simpl; lia].
      * apply nth_error_None in Ev. lia.
    + apply nth_error_None in Em. lia.
Qed.

Lemma s_slice_ok :
  forall nw row col,
    Network.wf nw ->
    (- Z.of_nat (Network.nports nw) <= row < Z.of_nat (Network.nports nw))%Z ->
    (- Z.of_nat (Network.nports nw) <= col < Z.of_nat (Network.nports nw))%Z ->
    exists s_data,
      Network.s_slice nw row col = Ok s_data
      /\ length s_data = length (Network.f nw).
Proof.
  intros nw row col [Hlen Hshape] Hrow Hcol. unfold Network.s_slice.
  destruct (np_norm_index_ok _ 1 _ Hrow) as (r & -> & Hr).
  destruct (np_norm_index_ok _ 2 _ Hcol) as (c & -> & Hc).
  cbn [bind].
  destruct (mapM_cell_ok _ r c _ Hr Hc Hshape) as (l & El & Hl).
  exists l. split; [exact El | congruence].
Qed.

Lemma get_s_parameter_unlisted :
  forall tf p,
    ~ In p (TouchstoneFile.s_params tf) ->
    TouchstoneFile.get_s_parameter tf p
    = Raise (ValueError (p ++ " not available in "
                           ++ TouchstoneFile.filename tf)).
Proof.
  intros tf p H. unfold TouchstoneFile.get_s_parameter.
  apply str_in_false in H. rewrite H. reflexivity.
Qed.

(** A listed identifier parses, its indices are accepted by the array, and
    the series comes back with one sample per frequency. *)
Lemma get_s_parameter_listed :
  forall rf_Network path tf p,
    TouchstoneFile.load_file rf_Network path = Ok tf ->
    Network.wf (TouchstoneFile.network tf) ->
    In p (TouchstoneFile.s_params tf) ->
    let P := Z.of_nat (Network.nports (TouchstoneFile.network tf)) in
    exists row col s_data,
      TouchstoneFile.parse_row_col p = Ok (row, col)
      /\ (-1 <= row < P)%Z /\ (-1 <= col < P)%Z
      /\ ((P <= 9)%Z ->
          (0 <= row)%Z /\ (0 <= col)%Z
          /\ p = param_id (Z.to_nat row + 1) (Z.to_nat col + 1))
      /\ Network.s_slice (TouchstoneFile.network tf) row col = Ok s_data
      /\ length s_data = length (TouchstoneFile.frequency tf)
      /\ TouchstoneFile.get_s_parameter tf p
         = Ok (TouchstoneFile.frequency tf, s_data).
Proof.
  intros rf_Network path tf p Hload Hwf Hin P.
  destruct (load_file_inv _ _ _ Hload) as (nw & _ & ->).
  cbn [TouchstoneFile.network TouchstoneFile.s_params
       TouchstoneFile.frequency] in *.
  subst P.
  pose proof Hin as Hin'.
  apply In_gen_s_params in Hin. destruct Hin as (i & j & Hi & Hj & ->).
  destruct (param_id_digits (Network.nports nw) (i + 1) (j + 1))
    as (d1 & d2 & G1 & G2 & H1 & H2 & B1 & B2 & Hsmall); try lia.
  pose proof (parse_row_col_digits _ _ _ G1 G2 (proj2 H1) H2) as Hparse.
  destruct (s_slice_ok nw (Z.of_nat d1 - 1) (Z.of_nat d2 - 1) Hwf)
    as (s_data & Hs & Hl); try lia.
  exists (Z.of_nat d1 - 1)%Z, (Z.of_nat d2 - 1)%Z, s_data.
  split; [exact Hparse|].
  split; [lia|]. split; [lia|].
  split.
  { intro HP. destruct Hsmall as [-> ->]; [lia|].
    split; [lia|]. split; [lia|].
    f_equal; lia. }
  split; [exact Hs|]. split; [exact Hl|].
  unfold TouchstoneFile.get_s_parameter.
  cbn [TouchstoneFile.network TouchstoneFile.s_params
       TouchstoneFile.frequency].
  apply str_in_true in Hin'. rewrite Hin'. cbn [negb].
  rewrite Hparse. cbn [bind]. rewrite Hs. reflexivity.
Qed.
End Retrieval.

(* ================================================================== *)
(** * The claims on the network accessor *)

(** C7. For a loaded network with P ports the listing [s_params] has P*P
    entries and its entry at position [i*P + j] (0-based [i], [j] below P)
    is [S{i+1}{j+1}]: the output port varies slower than the input port.
    For two ports it is exactly S11, S12, S21, S22. *)
Theorem parameter_listing_order :
  forall `{NP : NumPy} rf_Network path tf,
    TouchstoneFile.load_file rf_Network path = Ok tf ->
    let P := Network.nports (TouchstoneFile.network tf) in
    length (TouchstoneFile.s_params tf) = P * P
    /\ (forall i j, i < P -> j < P ->
                    nth_error (TouchstoneFile.s_params tf) (i * P + j)
                    = Some (param_id (i + 1) (j + 1)))
    /\ (P = 2 -> TouchstoneFile.s_params tf = ["S11"; "S12"; "S21"; "S22"]).
Proof.
  intros NP rf_Network path tf Hload P.
  destruct (load_file_inv _ _ _ Hload) as (nw & _ & ->).
  cbn [TouchstoneFile.network TouchstoneFile.s_params] in *. subst P.
  rewrite gen_s_params_flat_map. split; [|split].
  - apply length_flat_map_blocks.
  - intros i j Hi Hj.
    rewrite (nth_error_flat_map_blocks
               (fun i' j' => param_id (i' + 1) (j' + 1))) by assumption.
    reflexivity.
  - intros ->. reflexivity.
Qed.

Lemma parameter_listing_order_witness :
  TouchstoneFile.load_file (Samples.parser_of Samples.two_port) "dut.s2p"
  = Ok Samples.two_port_file
  /\ TouchstoneFile.s_params Samples.two_port_file
     = ["S11"; "S12"; "S21"; "S22"].
Proof.
  split; [reflexivity|].
  apply (parameter_listing_order (Samples.parser_of Samples.two_port)
                                 "dut.s2p" Samples.two_port_file eq_refl).
  reflexivity.
Defined.

(** C6. On a loaded network with P ports, a request whose identifier parses
    (positions 1 and 2, as [get_s_parameter] reads them) to a row or a
    column index beyond the port count is rejected by the membership test:
    the call raises the [ValueError] "... not available in ..." and
    returns nothing (the method assigns no attribute, so the file object
    is as before). In particular [S33] is rejected on every two-port
    network. *)
Theorem out_of_range_parameter_rejected :
  forall `{NP : NumPy} rf_Network path tf,
    TouchstoneFile.load_file rf_Network path = Ok tf ->
    let P := Z.of_nat (Network.nports (TouchstoneFile.network tf)) in
    (forall p row col,
        TouchstoneFile.parse_row_col p = Ok (row, col) ->
        (P <= row \/ P <= col)%Z ->
        TouchstoneFile.get_s_parameter tf p
        = Raise (ValueError (p ++ " not available in "
                               ++ TouchstoneFile.filename tf)))
    /\ (P = 2%Z ->
        TouchstoneFile.get_s_parameter tf "S33"
        = Raise (ValueError ("S33 not available in "
                               ++ TouchstoneFile.filename tf))).
Proof.
  intros NP rf_Network path tf Hload P.
  assert (Hgen : forall p row col,
             TouchstoneFile.parse_row_col p = Ok (row, col) ->
             (P <= row \/ P <= col)%Z ->
             ~ In p (TouchstoneFile.s_params tf)).
  { intros p row col Hparse Hout Hin.
    destruct (load_file_inv _ _ _ Hload) as (nw & _ & ->).
    cbn [TouchstoneFile.network TouchstoneFile.s_params] in *. subst P.
    apply In_gen_s_params in Hin. destruct Hin as (i & j & Hi & Hj & ->).
    destruct (param_id_digits (Network.nports nw) (i + 1) (j + 1))
      as (d1 & d2 & G1 & G2 & H1 & H2 & B1 & B2 & _); try lia.
    rewrite (parse_row_col_digits _ _ _ G1 G2 (proj2 H1) H2) in Hparse.
    injection Hparse as <- <-. lia. }
  split.
  - intros p row col Hparse Hout.
    apply get_s_parameter_unlisted. eapply Hgen; eassumption.
  - intro HP.
    apply (get_s_parameter_unlisted tf "S33").
    apply (Hgen "S33" 2%Z 2%Z); [reflexivity | lia].
Qed.

Lemma out_of_range_parameter_rejected_witness :
  TouchstoneFile.load_file (Samples.parser_of Samples.two_port) "dut.s2p"
  = Ok Samples.two_port_file
  /\ TouchstoneFile.get_s_parameter Samples.two_port_file "S33"
     = Raise (ValueError "S33 not available in dut.s2p").
Proof.
  split; [reflexivity|].
  apply (proj2 (out_of_range_parameter_rejected
                  (Samples.parser_of Samples.two_port) "dut.s2p"
                  Samples.two_port_file eq_refl)).
  reflexivity.
Defined.

(** C10, as stated, fails from ten ports on. A ten-port file lists [S101],
    the identifier of output port 10 and input port 1; its positions 1 and 2
    are the characters 1 and 0, which parse to row 0 and column -1, and -1
    is not within [0, 9]. NumPy reads column -1 as the last one, so the
    call answers with the sample of output port 1 and input port 10. Hence
    not every listed identifier parses to indices within [0, P-1]. *)
Lemma ten_port_identifier_parses_negative :
  In "S101" (TouchstoneFile.gen_s_params 10)
  /\ param_id 10 1 = "S101"
  /\ TouchstoneFile.parse_row_col "S101" = Ok (0%Z, (-1)%Z)
  /\ ~ (0 <= -1 < 10)%Z
  /\ TouchstoneFile.load_file (Samples.parser_of Samples.ten_port) "dut.s10p"
     = Ok Samples.ten_port_file
  /\ In "S101" (TouchstoneFile.s_params Samples.ten_port_file)
  /\ TouchstoneFile.get_s_parameter Samples.ten_port_file "S101"
     = Ok ([Q2R 1e9], [(20%R, 0%R)])
  /\ ~ (forall P p row col,
           In p (TouchstoneFile.gen_s_params P) ->
           TouchstoneFile.parse_row_col p = Ok (row, col) ->
           (0 <= row < Z.of_nat P)%Z /\ (0 <= col < Z.of_nat P)%Z).
Proof.
  assert (Hin : In "S101" (TouchstoneFile.gen_s_params 10)).
  { apply In_gen_s_params. exists 9, 0. repeat split; try lia. }
  split; [exact Hin|].
  split; [reflexivity|].
  split; [reflexivity|].
  split; [lia|].
  split; [reflexivity|].
  split; [exact Hin|].
  split; [reflexivity|].
  intro H.
  destruct (H 10 "S101" 0%Z (-1)%Z Hin eq_refl) as [_ Hcol]. lia.
Qed.

(** C10, amended. For every identifier of the listing of a loaded,
    well-shaped P-port network, positions 1 and 2 parse to a row and a
    column within [-1, P-1]; NumPy accepts these (-1 is the last index), so
    the slice is taken, has one sample per frequency, and the call raises no
    [IndexError]. With at most nine ports row and column lie within
    [0, P-1] and are the two ports of the identifier. *)
Theorem listed_parameter_indices_accepted :
  forall `{NP : NumPy} rf_Network path tf p,
    TouchstoneFile.load_file rf_Network path = Ok tf ->
    Network.wf (TouchstoneFile.network tf) ->
    In p (TouchstoneFile.s_params tf) ->
    let P := Z.of_nat (Network.nports (TouchstoneFile.network tf)) in
    exists row col s_data,
      TouchstoneFile.parse_row_col p = Ok (row, col)
      /\ (-1 <= row < P)%Z /\ (-1 <= col < P)%Z
      /\ ((P <= 9)%Z ->
          (0 <= row < P)%Z /\ (0 <= col < P)%Z
          /\ p = param_id (Z.to_nat row + 1) (Z.to_nat col + 1))
      /\ Network.s_slice (TouchstoneFile.network tf) row col = Ok s_data
      /\ TouchstoneFile.get_s_parameter tf p
         = Ok (TouchstoneFile.frequency tf, s_data)
      /\ (forall msg,
             TouchstoneFile.get_s_parameter tf p <> Raise (IndexError msg)).
Proof.
  intros NP rf_Network path tf p Hload Hwf Hin P.
  destruct (get_s_parameter_listed _ _ _ _ Hload Hwf Hin)
    as (row & col & s_data & Hp & Hr & Hc & Hsmall & Hs & _ & Hget).
  exists row, col, s_data. fold P in Hr, Hc, Hsmall.
  repeat (split; [assumption|]).
  split.
  { intro HP. destruct (Hsmall HP) as (H0r & H0c & E).
    repeat split; try lia. exact E. }
  split; [assumption|]. split; [assumption|].
  intros msg. rewrite Hget. discriminate.
Qed.

Lemma listed_parameter_indices_accepted_witness :
  (TouchstoneFile.load_file (Samples.parser_of Samples.two_port) "dut.s2p"
   = Ok Samples.two_port_file
   /\ Network.wf Samples.two_port
   /\ In "S21" (TouchstoneFile.s_params Samples.two_port_file)
   /\ exists row col s_data,
       TouchstoneFile.parse_row_col "S21" = Ok (row, col)
       /\ (-1 <= row < 2)%Z /\ (-1 <= col < 2)%Z
       /\ ((2 <= 9)%Z ->
           (0 <= row < 2)%Z /\ (0 <= col < 2)%Z
           /\ "S21" = param_id (Z.to_nat row + 1) (Z.to_nat col + 1))
       /\ Network.s_slice Samples.two_port row col = Ok s_data
       /\ TouchstoneFile.get_s_parameter Samples.two_port_file "S21"
          = Ok (TouchstoneFile.frequency Samples.two_port_file, s_data)
       /\ (forall msg,
              TouchstoneFile.get_s_parameter Samples.two_port_file "S21"
              <> Raise (IndexError msg)))
  /\ (TouchstoneFile.load_file (Samples.parser_of Samples.ten_port) "dut.s10p"
      = Ok Samples.ten_port_file
      /\ Network.wf Samples.ten_port
      /\ In "S101" (TouchstoneFile.s_params Samples.ten_port_file)
      /\ exists row col s_data,
          TouchstoneFile.parse_row_col "S101" = Ok (row, col)
          /\ (-1 <= row < 10)%Z /\ (-1 <= col < 10)%Z
          /\ Network.s_slice Samples.ten_port row col = Ok s_data
          /\ TouchstoneFile.get_s_parameter Samples.ten_port_file "S101"
             = Ok (TouchstoneFile.frequency Samples.ten_port_file, s_data)
          /\ (forall msg,
                 TouchstoneFile.get_s_parameter Samples.ten_port_file "S101"
                 <> Raise (IndexError msg))).
Proof.
  assert (Hwf : Network.wf Samples.two_port).
  { split; [reflexivity|]. repeat constructor. }
  assert (Hin : In "S21" (TouchstoneFile.s_params Samples.two_port_file)).
  { simpl. tauto. }
  assert (Hwf10 : Network.wf Samples.ten_port).
  { split; [reflexivity|]. repeat constructor. }
  assert (Hin10 : In "S101" (TouchstoneFile.s_params Samples.ten_port_file)).
  { apply (nth_error_In (TouchstoneFile.s_params Samples.ten_port_file) 90).
    reflexivity. }
  split.
  - split; [reflexivity|]. split; [exact Hwf|]. split; [exact Hin|].
    exact (listed_parameter_indices_accepted
             (Samples.parser_of Samples.two_port) "dut.s2p"
             Samples.two_port_file "S21" eq_refl Hwf Hin).
  - split; [reflexivity|]. split; [exact Hwf10|]. split; [exact Hin10|].
    destruct (listed_parameter_indices_accepted
                (Samples.parser_of Samples.ten_port) "dut.s10p"
                Samples.ten_port_file "S101" eq_refl Hwf10 Hin10)
      as (row & col & s_data & Hp & Hr & Hc & _ & Hs & Hg & Hn).
    exists row, col, s_data.
    split; [exact Hp|]. split; [exact Hr|]. split; [exact Hc|].
    split; [exact Hs|]. split; [exact Hg|]. exact Hn.
Defined.

(* ================================================================== *)
(** * NumPy's array functions *)

Section Arrays.
Context `{NP : NumPy}.

Lemma length_np_diff : forall a, length (np_diff a) = length a - 1.
Proof.
  induction a as [|x [|y t] IH]; try reflexivity.
  cbn [np_diff length] in *. lia.
Qed.

Lemma nth_np_diff :
  forall a k d,
    k + 1 < length a ->
    nth k (np_diff a) d = fsub (nth (k + 1) a d) (nth k a d).
Proof.
  induction a as [|x [|y t] IH]; intros k d H; cbn [length] in H; try lia.
  destruct k as [|k]; [reflexivity|].
  cbn [np_diff]. cbn [nth]. rewrite IH by (cbn [length]; lia).
  reflexivity.
Qed.

Lemma length_zip_with :
  forall {A B D} (g : A -> B -> D) l m,
    length (zip_with g l m) = Nat.min (length l) (length m).
Proof.
  intros A B D g. induction l as [|a l IH]; intros [|b m]; simpl;
    try reflexivity. now rewrite IH.
Qed.

Lemma length_cumsum_from :
  forall a acc, length (cumsum_from acc a) = length a.
Proof.
  induction a as [|x t IH]; intro acc; simpl; [reflexivity|].
  now rewrite IH.
Qed.

Lemma length_np_cumsum : forall a, length (np_cumsum a) = length a.
Proof.
  intros [|x t]; simpl; [reflexivity|]. now rewrite length_cumsum_from.
Qed.

Lemma length_np_unwrap : forall p, length (np_unwrap p) = length p.
Proof.
  intros [|p0 rest]; [reflexivity|].
  unfold np_unwrap. cbn [length]. f_equal.
  rewrite length_zip_with, length_np_cumsum, length_zip_with, length_map,
    length_np_diff.
  cbn [length]. lia.
Qed.

Lemma np_gradient_ok :
  forall y x,
    length x = length y -> 2 <= length y ->
    np_gradient y x
    = Ok (map (gradient_at y (np_diff x)
                           (forallb (fun d => feqb d (nth 0 (np_diff x) (lit 0)))
                                    (np_diff x))
                           (length y))
              (seq 0 (length y))).
Proof.
  intros y x Hlen H2. unfold np_gradient.
  pose proof (length_np_diff x) as Hdx.
  apply Nat.eqb_eq in Hlen. rewrite Hlen. cbn [negb]. cbn zeta.
  apply Nat.eqb_eq in Hlen.
  destruct (np_diff x) as [|dx0 dx]; [cbn [length] in Hdx; lia|].
  destruct (length y <? 2) eqn:E; [apply Nat.ltb_lt in E; lia|].
  reflexivity.
Qed.

Lemma nth_map_seq :
  forall {A} (g : nat -> A) n k d, k < n -> nth k (map g (seq 0 n)) d = g k.
Proof.
  intros A g n k d H.
  rewrite (nth_indep _ d (g 0)) by (rewrite length_map, length_seq; lia).
  rewrite (map_nth g (seq 0 n) 0 k), seq_nth by assumption. reflexivity.
Qed.

(** [np.gradient] in the words of the specification: one-sided at both
    ends, centered in between. *)
Lemma np_gradient_differences :
  forall y x,
    length x = length y -> 2 <= length y ->
    exists g,
      np_gradient y x = Ok g
      /\ length g = length y
      /\ nth 0 g (lit 0) = one_sided_difference y x 0
      /\ nth (length y - 1) g (lit 0)
         = (if evenly_spaced x
            then fdiv (fsub (nth (length y - 1) y (lit 0))
                            (nth (length y - 2) y (lit 0)))
                      (fsub (nth 1 x (lit 0)) (nth 0 x (lit 0)))
            else one_sided_difference y x (length y - 2))
      /\ forall k, 0 < k < length y - 1 ->
                   nth k g (lit 0)
                   = if evenly_spaced x
                     then centered_difference
                            y (fsub (nth 1 x (lit 0)) (nth 0 x (lit 0))) k
                     else centered_difference_uneven y x k.
Proof.
  intros y x Hlen H2.
  rewrite (np_gradient_ok y x Hlen H2).
  assert (Hdx0 : nth 0 (np_diff x) (lit 0)
                 = fsub (nth 1 x (lit 0)) (nth 0 x (lit 0))).
  { apply (nth_np_diff x 0). lia. }
  rewrite Hdx0. fold (evenly_spaced x).
  eexists. split; [reflexivity|].
  split; [now rewrite length_map, length_seq|].
  split; [|split].
  - rewrite nth_map_seq by lia. unfold gradient_at. cbn [Nat.eqb].
    rewrite Hdx0. reflexivity.
  - rewrite nth_map_seq by lia. unfold gradient_at.
    destruct (length y - 1 =? 0) eqn:E0; [apply Nat.eqb_eq in E0; lia|].
    rewrite Nat.eqb_refl, Hdx0.
    destruct (evenly_spaced x); [reflexivity|].
    unfold one_sided_difference.
    rewrite (nth_np_diff x (length y - 2)) by lia.
    replace (length y - 2 + 1) with (length y - 1) by lia. reflexivity.
  - intros k Hk. rewrite nth_map_seq by lia. unfold gradient_at.
    destruct (k =? 0) eqn:E0; [apply Nat.eqb_eq in E0; lia|].
    destruct (k =? length y - 1) eqn:E1; [apply Nat.eqb_eq in E1; lia|].
    rewrite Hdx0.
    destruct (evenly_spaced x); [reflexivity|].
    unfold centered_difference_uneven.
    rewrite (nth_np_diff x (k - 1)) by lia.
    rewrite (nth_np_diff x k) by lia.
    replace (k - 1 + 1) with k by lia. reflexivity.
Qed.
End Arrays.

(* ================================================================== *)
(** * The claims on the calculators *)

(** C8. Whenever [get_magnitude_linear] answers, its series is the
    elementwise [|v|] of the samples, [get_magnitude_db] answers on the same
    frequencies, and at every index k the dB value is [20 * log10] of the
    linear magnitude at k (in particular wherever that magnitude is not
    zero). *)
Theorem magnitude_db_of_linear :
  forall `{NP : NumPy} tf p freq mag,
    TouchstoneFile.get_magnitude_linear tf p = Ok (freq, mag) ->
    exists s_data mag_db,
      TouchstoneFile.get_s_parameter tf p = Ok (freq, s_data)
      /\ mag = map np_abs s_data
      /\ TouchstoneFile.get_magnitude_db tf p = Ok (freq, mag_db)
      /\ length mag_db = length mag
      /\ forall k m,
          nth_error mag k = Some m ->
          nth_error mag_db k = Some (fmul (lit 20) (np_log10 m)).
Proof.
  intros NP tf p freq mag.
  unfold TouchstoneFile.get_magnitude_linear, TouchstoneFile.get_magnitude_db.
  destruct (TouchstoneFile.get_s_parameter tf p) as [[fq s_data]|e];
    [|discriminate].
  cbn [bind]. intro H. injection H as <- <-.
  exists s_data, (map (fun v => fmul (lit 20) (np_log10 (np_abs v))) s_data).
  split; [reflexivity|]. split; [reflexivity|]. split; [reflexivity|].
  split; [now rewrite !length_map|].
  intros k m. rewrite !nth_error_map.
  destruct (nth_error s_data k) as [v|]; [|discriminate].
  cbn [option_map]. intro H. injection H as <-. reflexivity.
Qed.

Lemma magnitude_db_of_linear_witness :
  TouchstoneFile.get_magnitude_linear Samples.one_port_file "S11"
  = Ok ([Q2R 1e9; Q2R 2e9],
        [Ideal.Cabs (Q2R 0.5, Q2R 0); Ideal.Cabs (Q2R 0.3, Q2R 0.4)])
  /\ exists s_data mag_db,
      TouchstoneFile.get_s_parameter Samples.one_port_file "S11"
      = Ok ([Q2R 1e9; Q2R 2e9], s_data)
      /\ [Ideal.Cabs (Q2R 0.5, Q2R 0); Ideal.Cabs (Q2R 0.3, Q2R 0.4)]
         = map Ideal.Cabs s_data
      /\ TouchstoneFile.get_magnitude_db Samples.one_port_file "S11"
         = Ok ([Q2R 1e9; Q2R 2e9], mag_db)
      /\ length mag_db = 2
      /\ forall k m,
          nth_error [Ideal.Cabs (Q2R 0.5, Q2R 0);
                     Ideal.Cabs (Q2R 0.3, Q2R 0.4)] k = Some m ->
          nth_error mag_db k = Some (Q2R 20 * Ideal.log10 m)%R.
Proof.
  split; [reflexivity|].
  exact (magnitude_db_of_linear Samples.one_port_file "S11" _ _ eq_refl).
Defined.


Section IdealGradient.
Import Ideal.
Local Open Scope R_scope.

(** In exact arithmetic a grid that NumPy finds evenly spaced has all its
    steps equal to the first one. *)
Lemma evenly_spaced_steps :
  forall (x : list R) k,
    evenly_spaced x = true ->
    (k + 1 < length x)%nat ->
    nth (k + 1) x (lit 0) - nth k x (lit 0)
    = nth 1 x (lit 0) - nth 0 x (lit 0).
Proof.
  intros x k He Hk. unfold evenly_spaced in He.
  rewrite forallb_forall in He.
  assert (Hin : In (nth k (np_diff x) (lit 0)) (np_diff x)).
  { apply nth_In. rewrite length_np_diff.
    cbn [float64 RealNumPy] in *. lia. }
  specialize (He _ Hin). rewrite nth_np_diff in He by assumption.
  cbn [feqb fsub RealNumPy] in He. unfold Reqb in He.
  destruct (Req_dec_T _ _) as [E|E] in He; [exact E | discriminate].
Qed.

(** There the centered difference of NumPy is the quotient over the two
    neighbours, and its backward difference at the end uses the last
    step. *)
Lemma centered_difference_even_grid :
  forall (y x : list R) k,
    evenly_spaced x = true ->
    (0 < k)%nat -> (k + 1 < length x)%nat ->
    centered_difference y (nth 1 x (lit 0) - nth 0 x (lit 0)) k
    = (nth (k + 1) y (lit 0) - nth (k - 1) y (lit 0))
      / (nth (k + 1) x (lit 0) - nth (k - 1) x (lit 0)).
Proof.
  intros y x k He H0 Hk. unfold centered_difference.
  cbn [fdiv fsub fmul RealNumPy].
  pose proof (evenly_spaced_steps x k He Hk) as E1.
  pose proof (evenly_spaced_steps x (k - 1) He ltac:(lia)) as E2.
  replace (k - 1 + 1)%nat with k in E2 by lia.
  f_equal. cbn [lit float64 RealNumPy] in *.
  replace (Q2R 2) with 2 by (unfold Q2R; simpl; lra).
  lra.
Qed.
End IdealGradient.

(** ** [np.unwrap] in exact arithmetic *)

Section IdealUnwrap.
Import Ideal.
Local Open Scope R_scope.

Lemma Q2R_2 : Q2R 2 = 2.
Proof. unfold Q2R. simpl. lra. Qed.

Lemma Rmod_spec :
  forall x y, 0 < y ->
    0 <= Rmod x y < y /\ exists k : Z, Rmod x y = x - IZR k * y.
Proof.
  intros x y Hy. unfold Rmod.
  destruct (base_Int_part (x / y)) as [H1 H2].
  set (k := Int_part (x / y)) in *.
  assert (E : x = x / y * y) by (field; lra).
  split; [|exists k; reflexivity].
  split.
  - assert (IZR k * y <= x / y * y) by (apply Rmult_le_compat_r; lra). lra.
  - assert (x / y * y < (IZR k + 1) * y) by (apply Rmult_lt_compat_r; lra). lra.
Qed.

Lemma unwrap_correction_spec :
  forall d,
    (exists turns : Z, unwrap_correction d = IZR turns * (2 * PI))
    /\ Rabs (d + unwrap_correction d) <= PI.
Proof.
  intro d. unfold unwrap_correction. cbn zeta.
  pose proof PI_RGT_0 as Hpi.
  destruct (Rltb (Rabs d) PI) eqn:Es.
  - assert (Hs : Rabs d < PI).
    { unfold Rltb in Es. destruct (Rlt_dec (Rabs d) PI);
        [assumption | discriminate]. }
    split; [exists 0%Z; lra|]. rewrite Rplus_0_r. lra.
  - destruct (Rmod_spec (d - - PI) (2 * PI) ltac:(lra)) as [[L U] [k Hk]].
    set (m := Rmod (d - - PI) (2 * PI) + - PI) in *.
    assert (Hm : m = d - IZR k * (2 * PI)) by (unfold m; lra).
    assert (Hr : - PI <= m < PI) by (unfold m; lra).
    unfold Reqb, Rltb.
    destruct (Req_dec_T m (- PI)) as [E|E];
      destruct (Rlt_dec 0 d) as [P|P]; cbn [andb].
    + split.
      * exists (1 - k)%Z. rewrite minus_IZR. lra.
      * replace (d + (PI - d)) with PI by lra. rewrite Rabs_right; lra.
    + split.
      * exists (- k)%Z. rewrite opp_IZR. lra.
      * replace (d + (m - d)) with m by lra. apply Rabs_le. lra.
    + split.
      * exists (- k)%Z. rewrite opp_IZR. lra.
      * replace (d + (m - d)) with m by lra. apply Rabs_le. lra.
    + split.
      * exists (- k)%Z. rewrite opp_IZR. lra.
      * replace (d + (m - d)) with m by lra. apply Rabs_le. lra.
Qed.

Lemma zip_with_map_l :
  forall {A B D} (g : B -> A -> D) (f : A -> B) l,
    zip_with g (map f l) l = map (fun a => g (f a) a) l.
Proof.
  intros A B D g f. induction l as [|a l IH]; [reflexivity|].
  cbn [map zip_with]. now rewrite IH.
Qed.

Lemma np_unwrap_real :
  forall p : list R,
    np_unwrap p
    = match p with
      | [] => []
      | p0 :: rest =>
          p0 :: zip_with Rplus rest
                  (cumsum_from 0 (map unwrap_correction (np_diff p)))
      end.
Proof.
  intros [|p0 rest]; [reflexivity|].
  unfold np_unwrap. f_equal.
  cbn [fmul fdiv fneg fadd fsub fabs np_mod feqb fltb lit np_pi RealNumPy].
  rewrite Q2R_2. replace (Q2R 0) with 0 by (unfold Q2R; simpl; lra).
  replace (2 * PI / 2) with PI by lra.
  rewrite zip_with_map_l.
  f_equal.
  match goal with
  | |- np_cumsum (map ?f ?l) = _ => change (map f l) with (map unwrap_correction l)
  end.
  destruct (map unwrap_correction _) as [|c cs]; [reflexivity|].
  cbn [np_cumsum cumsum_from fadd RealNumPy]. now rewrite Rplus_0_l.
Qed.

(** The running part of [np.unwrap]: the samples after [prev], each moved
    by the corrections summed so far. *)
Lemma unwrap_tail_spec :
  forall (rest : list R) prev acc (turns : Z),
    acc = IZR turns * (2 * PI) ->
    let u := zip_with Rplus rest
               (cumsum_from acc
                  (map unwrap_correction (@np_diff RealNumPy (prev :: rest)))) in
    same_angles u rest /\ continuous_phase ((prev + acc) :: u).
Proof.
  induction rest as [|x t IH]; intros prev acc turns Hacc u.
  - subst u. cbn [zip_with]. split.
    + split; [reflexivity|]. intros k Hk. cbn [length] in Hk. lia.
    + intros k Hk. cbn [length] in Hk. lia.
  - destruct (unwrap_correction_spec (x - prev)) as [[tc Hc] Hstep].
    set (c := unwrap_correction (x - prev)) in *.
    specialize (IH x (acc + c) (turns + tc)%Z).
    rewrite plus_IZR in IH. specialize (IH ltac:(lra)). cbn zeta in IH.
    destruct IH as [[Hlen Hsame] Hcont].
    assert (Eu : u = (x + (acc + c))
                       :: zip_with Rplus t
                            (cumsum_from (acc + c)
                               (map unwrap_correction
                                    (@np_diff RealNumPy (x :: t))))).
    { subst u. destruct t; reflexivity. }
    rewrite Eu. clear Eu u.
    set (u' := zip_with Rplus t _) in *.
    split.
    + split; [cbn [length]; now rewrite Hlen|].
      intros [|k] Hk; cbn [nth].
      * exists (turns + tc)%Z. rewrite plus_IZR. lra.
      * apply Hsame. cbn [length] in Hk. lia.
    + intros [|k] Hk.
      * cbn [Nat.add nth].
        replace (x + (acc + c) - (prev + acc)) with (x - prev + c) by lra.
        exact Hstep.
      * replace (S k + 1)%nat with (S (k + 1)) by lia.
        cbn [nth]. cbn [length] in Hk.
        apply (Hcont k). cbn [length]. lia.
Qed.

(** In exact arithmetic [np.unwrap] keeps the first angle, moves every
    later one by whole turns only, and leaves no step above half a turn. *)
Lemma np_unwrap_unwraps :
  forall angles : list R,
    nth 0 (np_unwrap angles) 0 = nth 0 angles 0
    /\ same_angles (np_unwrap angles) angles
    /\ continuous_phase (np_unwrap angles).
Proof.
  intro angles. rewrite np_unwrap_real.
  destruct angles as [|p0 rest].
  - split; [reflexivity|]. split.
    + split; [reflexivity|]. intros k Hk. cbn [length] in Hk. lia.
    + intros k Hk. cbn [length] in Hk. lia.
  - destruct (unwrap_tail_spec rest p0 0 0%Z ltac:(lra)) as [[Hlen Hsame] Hcont].
    rewrite Rplus_0_r in Hcont.
    split; [reflexivity|]. split; [|exact Hcont].
    split; [cbn [length]; now rewrite Hlen|].
    intros [|k] Hk; cbn [nth].
    + exists 0%Z. lra.
    + apply Hsame. cbn [length] in Hk. lia.
Qed.
End IdealUnwrap.

(** C4. For a listed parameter of a loaded, well-shaped network the group
    delay is the negated derivative of the unwrapped phase [angle(v)] with
    respect to [omega = 2*pi*f]: a forward difference at the first sample, a
    backward difference at the last, a centered difference at every interior
    sample (NumPy's three-point formula, which on a grid it finds evenly
    spaced is the plain centered quotient over twice the step). A
    single-sample series gives exactly [[0.0]], not an error. This part
    holds for every float kernel.

    The phase that is differentiated is unwrapped: in exact arithmetic
    [np.unwrap] keeps the first angle, moves each later sample by a whole
    number of turns only, and leaves no step between neighbours above
    [pi] in magnitude, whatever the samples are. *)
Theorem group_delay_differences :
  (forall `{NP : NumPy} rf_Network path tf p,
      TouchstoneFile.load_file rf_Network path = Ok tf ->
      Network.wf (TouchstoneFile.network tf) ->
      In p (TouchstoneFile.s_params tf) ->
      exists s_data group_delay,
        let freq := TouchstoneFile.frequency tf in
        let phase := np_unwrap (map (np_angle false) s_data) in
        let omega := map (fmul (fmul (lit 2) np_pi)) freq in
        let n := length s_data in
        let h := fsub (nth 1 omega (lit 0)) (nth 0 omega (lit 0)) in
        TouchstoneFile.get_s_parameter tf p = Ok (freq, s_data)
        /\ TouchstoneFile.get_group_delay tf p = Ok (freq, group_delay)
        /\ length group_delay = n
        /\ (n = 1 -> group_delay = [lit 0])
        /\ (2 <= n ->
            nth 0 group_delay (lit 0)
            = fneg (one_sided_difference phase omega 0)
            /\ nth (n - 1) group_delay (lit 0)
               = fneg (if evenly_spaced omega
                       then fdiv (fsub (nth (n - 1) phase (lit 0))
                                       (nth (n - 2) phase (lit 0))) h
                       else one_sided_difference phase omega (n - 2))
            /\ forall k, 0 < k < n - 1 ->
                         nth k group_delay (lit 0)
                         = fneg (if evenly_spaced omega
                                 then centered_difference phase h k
                                 else centered_difference_uneven phase omega k)))
  /\ (forall s_data : list (R * R),
        let angles := map (@np_angle Ideal.RealNumPy false) s_data in
        let phase := @np_unwrap Ideal.RealNumPy angles in
        nth 0 phase 0%R = nth 0 angles 0%R
        /\ same_angles phase angles
        /\ continuous_phase phase).
Proof.
  split.
  { intros NP rf_Network path tf p Hload Hwf Hin.
    destruct (get_s_parameter_listed _ _ _ _ Hload Hwf Hin)
      as (row & col & s_data & _ & _ & _ & _ & _ & Hlen & Hget).
    set (freq := TouchstoneFile.frequency tf) in *.
    set (phase := np_unwrap (map (np_angle false) s_data)).
    set (omega := map (fmul (fmul (lit 2) np_pi)) freq).
    assert (Hph : length phase = length s_data).
    { unfold phase. now rewrite length_np_unwrap, length_map. }
    assert (Hom : length omega = length phase).
    { unfold omega. rewrite length_map. congruence. }
    unfold TouchstoneFile.get_group_delay. rewrite Hget. cbn [bind].
    fold phase. fold omega.
    destruct (1 <? length phase) eqn:E.
    - apply Nat.ltb_lt in E.
      destruct (np_gradient_differences phase omega Hom E)
        as (g & Hg & Hgl & Hg0 & Hgn & Hgk).
      rewrite Hg. cbn [bind].
      exists s_data, (map fneg g). cbn zeta.
      split; [reflexivity|]. split; [reflexivity|].
      split; [rewrite length_map; congruence|].
      split; [intro H1; lia|].
      intros _. rewrite <- Hph.
      assert (Hnth : forall k, k < length g ->
                               nth k (map fneg g) (lit 0) = fneg (nth k g (lit 0))).
      { intros k Hk.
        rewrite (nth_indep _ (lit 0) (fneg (lit 0)))
          by (rewrite length_map; exact Hk).
        apply map_nth. }
      split; [|split].
      + rewrite Hnth by lia. now rewrite Hg0.
      + rewrite Hnth by lia. now rewrite Hgn.
      + intros k Hk. rewrite Hnth by lia. now rewrite Hgk.
    - apply Nat.ltb_ge in E. cbn [bind].
      exists s_data, (np_zeros_like phase). cbn zeta.
      split; [reflexivity|]. split; [reflexivity|].
      split; [unfold np_zeros_like; rewrite length_map; exact Hph|].
      split; [|intro H2; lia].
      intro H1. unfold np_zeros_like.
      destruct phase as [|x [|y t]]; cbn [length] in *; try lia.
      reflexivity.
  }
  intro s_data. cbn zeta. apply np_unwrap_unwraps.
Qed.

Lemma group_delay_differences_witness :
  (TouchstoneFile.load_file (Samples.parser_of Samples.one_port) "dut.s1p"
   = Ok Samples.one_port_file
   /\ Network.wf Samples.one_port
   /\ In "S11" (TouchstoneFile.s_params Samples.one_port_file)
   /\ exists group_delay,
       let s_data := [(Q2R 0.5, Q2R 0); (Q2R 0.3, Q2R 0.4)] in
       let phase :=
         @np_unwrap Ideal.RealNumPy
                    (map (@np_angle Ideal.RealNumPy false) s_data) in
       let omega := [(Q2R 2 * PI * Q2R 1e9)%R; (Q2R 2 * PI * Q2R 2e9)%R] in
       TouchstoneFile.get_s_parameter Samples.one_port_file "S11"
       = Ok ([Q2R 1e9; Q2R 2e9], s_data)
       /\ TouchstoneFile.get_group_delay Samples.one_port_file "S11"
          = Ok ([Q2R 1e9; Q2R 2e9], group_delay)
       /\ length group_delay = 2
       /\ nth 0 group_delay (Q2R 0)
          = (- @one_sided_difference Ideal.RealNumPy phase omega 0)%R
       /\ nth 1 group_delay (Q2R 0)
          = (- (if @evenly_spaced Ideal.RealNumPy omega
                then (nth 1 phase (Q2R 0) - nth 0 phase (Q2R 0))
                     / (nth 1 omega (Q2R 0) - nth 0 omega (Q2R 0))
                else @one_sided_difference Ideal.RealNumPy phase omega 0))%R)
  /\ (TouchstoneFile.load_file (Samples.parser_of Samples.two_port) "dut.s2p"
      = Ok Samples.two_port_file
      /\ Network.wf Samples.two_port
      /\ In "S21" (TouchstoneFile.s_params Samples.two_port_file)
      /\ exists s_data group_delay,
          TouchstoneFile.get_s_parameter Samples.two_port_file "S21"
          = Ok ([Q2R 1e9], s_data)
          /\ TouchstoneFile.get_group_delay Samples.two_port_file "S21"
             = Ok ([Q2R 1e9], group_delay)
          /\ (length s_data = 1 -> group_delay = [Q2R 0])).
Proof.
  assert (Hwf1 : Network.wf Samples.one_port).
  { split; [reflexivity|]. repeat constructor. }
  assert (Hin1 : In "S11" (TouchstoneFile.s_params Samples.one_port_file)).
  { simpl. tauto. }
  assert (Hwf : Network.wf Samples.two_port).
  { split; [reflexivity|]. repeat constructor. }
  assert (Hin : In "S21" (TouchstoneFile.s_params Samples.two_port_file)).
  { simpl. tauto. }
  split.
  - split; [reflexivity|]. split; [exact Hwf1|]. split; [exact Hin1|].
    destruct (proj1 group_delay_differences Ideal.RealNumPy
                (Samples.parser_of Samples.one_port) "dut.s1p"
                Samples.one_port_file "S11" eq_refl Hwf1 Hin1)
      as (s_data & gd & H1 & H2 & H3 & _ & H5).
    assert (Es : [(Q2R 0.5, Q2R 0); (Q2R 0.3, Q2R 0.4)] = s_data).
    { assert (E : Ok ([Q2R 1e9; Q2R 2e9],
                      [(Q2R 0.5, Q2R 0); (Q2R 0.3, Q2R 0.4)])
                  = Ok (TouchstoneFile.frequency Samples.one_port_file, s_data)).
      { rewrite <- H1. reflexivity. }
      injection E as E. exact E. }
    subst s_data.
    destruct (H5 ltac:(cbn; lia)) as (G0 & Gn & _).
    exists gd. cbn zeta.
    split; [exact H1|]. split; [exact H2|]. split; [exact H3|].
    split; [exact G0 | exact Gn].
  - split; [reflexivity|]. split; [exact Hwf|]. split; [exact Hin|].
    destruct (proj1 group_delay_differences Ideal.RealNumPy
                (Samples.parser_of Samples.two_port) "dut.s2p"
                Samples.two_port_file "S21" eq_refl Hwf Hin)
      as (s_data & gd & H1 & H2 & _ & H4 & _).
    exists s_data, gd. split; [exact H1|]. split; [exact H2|]. exact H4.
Defined.

(** C1, as stated, fails: on a network without any frequency point every
    series has length zero, and every calculator returns (an empty result)
    instead of raising. *)
Lemma empty_series_is_not_an_error :
  TouchstoneFile.load_file (Samples.parser_of Samples.empty_one_port)
                           "empty.s1p" = Ok Samples.empty_file
  /\ TouchstoneFile.get_s_parameter Samples.empty_file "S11" = Ok ([], [])
  /\ TouchstoneFile.get_magnitude_db Samples.empty_file "S11" = Ok ([], [])
  /\ TouchstoneFile.get_magnitude_linear Samples.empty_file "S11" = Ok ([], [])
  /\ TouchstoneFile.get_phase_deg Samples.empty_file "S11" = Ok ([], [])
  /\ TouchstoneFile.get_phase_rad Samples.empty_file "S11" = Ok ([], [])
  /\ TouchstoneFile.get_real_imag Samples.empty_file "S11" = Ok ([], [], [])
  /\ TouchstoneFile.get_vswr Samples.empty_file "S11" = Ok ([], [])
  /\ TouchstoneFile.get_group_delay Samples.empty_file "S11" = Ok ([], [])
  /\ TouchstoneFile.get_complex_data Samples.empty_file "S11" = Ok [].
Proof.
  repeat split.
Qed.

(** C1, amended. No calculator tests the length of the series. On a loaded,
    well-shaped network every calculator raises exactly when the identifier
    is not in the parameter listing (the [ValueError] of
    [get_s_parameter]), whatever the length of the series; for a listed
    identifier every calculator returns, on a series of length zero as well,
    and what it returns is the elementwise image of the samples as NumPy
    computed it, with no clamping other than the gamma clip of the VSWR
    (group delay: one value per sample). *)
Theorem calculators_fail_only_on_unlisted_parameter :
  forall `{NP : NumPy} rf_Network path tf p,
    TouchstoneFile.load_file rf_Network path = Ok tf ->
    Network.wf (TouchstoneFile.network tf) ->
    let freq := TouchstoneFile.frequency tf in
    (In p (TouchstoneFile.s_params tf) ->
     exists s_data,
       TouchstoneFile.get_s_parameter tf p = Ok (freq, s_data)
       /\ length s_data = length freq
       /\ TouchstoneFile.get_magnitude_db tf p
          = Ok (freq, map (fun v => fmul (lit 20) (np_log10 (np_abs v))) s_data)
       /\ TouchstoneFile.get_magnitude_linear tf p
          = Ok (freq, map np_abs s_data)
       /\ TouchstoneFile.get_phase_deg tf p
          = Ok (freq, map (np_angle true) s_data)
       /\ TouchstoneFile.get_phase_rad tf p
          = Ok (freq, map (np_angle false) s_data)
       /\ TouchstoneFile.get_real_imag tf p
          = Ok (freq, map np_real s_data, map np_imag s_data)
       /\ TouchstoneFile.get_vswr tf p
          = Ok (freq,
                map (fun v =>
                       let gamma := np_clip (np_abs v) (lit 0) (lit 0.9999) in
                       fdiv (fadd (lit 1) gamma) (fsub (lit 1) gamma)) s_data)
       /\ (exists group_delay,
              TouchstoneFile.get_group_delay tf p = Ok (freq, group_delay)
              /\ length group_delay = length s_data)
       /\ TouchstoneFile.get_complex_data tf p = Ok s_data)
    /\ (~ In p (TouchstoneFile.s_params tf) ->
        let e := ValueError (p ++ " not available in "
                               ++ TouchstoneFile.filename tf) in
        TouchstoneFile.get_magnitude_db tf p = Raise e
        /\ TouchstoneFile.get_magnitude_linear tf p = Raise e
        /\ TouchstoneFile.get_phase_deg tf p = Raise e
        /\ TouchstoneFile.get_phase_rad tf p = Raise e
        /\ TouchstoneFile.get_real_imag tf p = Raise e
        /\ TouchstoneFile.get_vswr tf p = Raise e
        /\ TouchstoneFile.get_group_delay tf p = Raise e
        /\ TouchstoneFile.get_complex_data tf p = Raise e).
Proof.
  intros NP rf_Network path tf p Hload Hwf freq. split.
  - intro Hin.
    destruct (get_s_parameter_listed _ _ _ _ Hload Hwf Hin)
      as (row & col & s_data & _ & _ & _ & _ & _ & Hlen & Hget).
    fold freq in Hlen, Hget.
    exists s_data.
    unfold TouchstoneFile.get_magnitude_db, TouchstoneFile.get_magnitude_linear,
      TouchstoneFile.get_phase_deg, TouchstoneFile.get_phase_rad,
      TouchstoneFile.get_real_imag, TouchstoneFile.get_vswr,
      TouchstoneFile.get_group_delay, TouchstoneFile.get_complex_data.
    rewrite Hget. cbn [bind].
    split; [reflexivity|]. split; [exact Hlen|].
    do 5 (split; [reflexivity|]).
    split; [rewrite !map_map; reflexivity|].
    split; [|reflexivity].
    set (phase := np_unwrap (map (np_angle false) s_data)).
    set (omega := map (fmul (fmul (lit 2) np_pi)) freq).
    assert (Hph : length phase = length s_data).
    { unfold phase. now rewrite length_np_unwrap, length_map. }
    assert (Hom : length omega = length phase).
    { unfold omega. rewrite length_map. congruence. }
    destruct (1 <? length phase) eqn:E.
    + apply Nat.ltb_lt in E.
      rewrite (np_gradient_ok phase omega Hom E). cbn [bind].
      eexists. split; [reflexivity|].
      rewrite !length_map, length_seq. exact Hph.
    + cbn [bind]. eexists. split; [reflexivity|].
      unfold np_zeros_like. rewrite length_map. exact Hph.
  - intros Hout e.
    pose proof (get_s_parameter_unlisted tf p Hout) as Hget. fold e in Hget.
    unfold TouchstoneFile.get_magnitude_db, TouchstoneFile.get_magnitude_linear,
      TouchstoneFile.get_phase_deg, TouchstoneFile.get_phase_rad,
      TouchstoneFile.get_real_imag, TouchstoneFile.get_vswr,
      TouchstoneFile.get_group_delay, TouchstoneFile.get_complex_data.
    rewrite Hget. cbn [bind]. repeat split.
Qed.

Lemma calculators_fail_only_on_unlisted_parameter_witness :
  TouchstoneFile.load_file (Samples.parser_of Samples.empty_one_port)
                           "empty.s1p" = Ok Samples.empty_file
  /\ Network.wf Samples.empty_one_port
  /\ In "S11" (TouchstoneFile.s_params Samples.empty_file)
  /\ ~ In "S12" (TouchstoneFile.s_params Samples.empty_file)
  /\ TouchstoneFile.get_vswr Samples.empty_file "S11" = Ok ([], [])
  /\ TouchstoneFile.get_vswr Samples.empty_file "S12"
     = Raise (ValueError "S12 not available in empty.s1p").
Proof.
  assert (Hwf : Network.wf Samples.empty_one_port).
  { split; [reflexivity | constructor]. }
  assert (Hin : In "S11" (TouchstoneFile.s_params Samples.empty_file)).
  { simpl. tauto. }
  assert (Hout : ~ In "S12" (TouchstoneFile.s_params Samples.empty_file)).
  { simpl. intros [H|[]]. discriminate. }
  pose proof (calculators_fail_only_on_unlisted_parameter
                (Samples.parser_of Samples.empty_one_port) "empty.s1p"
                Samples.empty_file "S11" eq_refl Hwf) as [H11 _].
  pose proof (calculators_fail_only_on_unlisted_parameter
                (Samples.parser_of Samples.empty_one_port) "empty.s1p"
                Samples.empty_file "S12" eq_refl Hwf) as [_ H12].
  split; [reflexivity|]. split; [exact Hwf|]. split; [exact Hin|].
  split; [exact Hout|]. split.
  - destruct (H11 Hin) as (s_data & Hget & _ & _ & _ & _ & _ & _ & Hv & _).
    injection Hget as <-. exact Hv.
  - exact (proj1 (proj2 (proj2 (proj2 (proj2 (proj2 (H12 Hout))))))).
Defined.

Section IdealVSWR.
Import Ideal.
Local Open Scope R_scope.

Lemma Q2R_0 : Q2R 0 = 0.
Proof. unfold Q2R. simpl. lra. Qed.

Lemma Q2R_1 : Q2R 1 = 1.
Proof. unfold Q2R. simpl. lra. Qed.

Lemma Q2R_9999 : Q2R 0.9999 = 9999 / 10000.
Proof. unfold Q2R. simpl. lra. Qed.

Lemma np_clip_is_clip :
  forall g, np_clip g (lit 0) (lit 0.9999) = clip g 0 (9999 / 10000).
Proof.
  intro g. unfold np_clip. cbn [np_minimum np_maximum lit RealNumPy].
  rewrite Q2R_0, Q2R_9999. unfold clip, Rmin, Rmax.
  destruct (Rlt_dec g 0); destruct (Rle_dec g 0);
    repeat match goal with
           | |- context [Rle_dec ?a ?b] => destruct (Rle_dec a b)
           | |- context [Rlt_dec ?a ?b] => destruct (Rlt_dec a b)
           end; lra.
Qed.

Lemma clip_range :
  forall g, 0 <= clip g 0 (9999 / 10000) <= 9999 / 10000.
Proof.
  intro g. unfold clip.
  destruct (Rlt_dec g 0); [lra|].
  destruct (Rlt_dec (9999 / 10000) g); lra.
Qed.

Lemma clip_monotone :
  forall g1 g2,
    g1 <= g2 -> clip g1 0 (9999 / 10000) <= clip g2 0 (9999 / 10000).
Proof.
  intros g1 g2 H. unfold clip.
  destruct (Rlt_dec g1 0); destruct (Rlt_dec g2 0);
    destruct (Rlt_dec (9999 / 10000) g1);
    destruct (Rlt_dec (9999 / 10000) g2); lra.
Qed.

Lemma vswr_of_zero : vswr_of 0 = 1.
Proof.
  unfold vswr_of, clip.
  destruct (Rlt_dec 0 0); [lra|].
  destruct (Rlt_dec (9999 / 10000) 0); [lra|].
  field.
Qed.

Lemma vswr_of_monotone :
  forall g1 g2, g1 <= g2 -> vswr_of g1 <= vswr_of g2.
Proof.
  intros g1 g2 H. unfold vswr_of. cbn zeta.
  pose proof (clip_range g1) as R1. pose proof (clip_range g2) as R2.
  pose proof (clip_monotone g1 g2 H) as M.
  set (a := clip g1 0 (9999 / 10000)) in *.
  set (b := clip g2 0 (9999 / 10000)) in *.
  apply Rmult_le_reg_r with (r := (1 - a) * (1 - b)).
  - apply Rmult_lt_0_compat; lra.
  - replace ((1 + a) / (1 - a) * ((1 - a) * (1 - b)))
      with ((1 + a) * (1 - b)) by (field; lra).
    replace ((1 + b) / (1 - b) * ((1 - a) * (1 - b)))
      with ((1 + b) * (1 - a)) by (field; lra).
    lra.
Qed.

Lemma get_vswr_formula :
  forall (tf : TouchstoneFile.t) p freq s_data,
    TouchstoneFile.get_s_parameter tf p = Ok (freq, s_data) ->
    TouchstoneFile.get_vswr tf p
    = Ok (freq, map (fun v => vswr_of (Cabs v)) s_data).
Proof.
  intros tf p freq s_data Hget. unfold TouchstoneFile.get_vswr.
  rewrite Hget. cbn [bind]. rewrite !map_map. do 2 f_equal.
  apply map_ext. intro v. rewrite np_clip_is_clip.
  cbn [lit fadd fsub fdiv np_abs RealNumPy]. rewrite Q2R_1. reflexivity.
Qed.
End IdealVSWR.

Lemma nth_error_map_some :
  forall {A B} (g : A -> B) (l : list A) k a b,
    nth_error l k = Some a -> nth_error (map g l) k = Some b -> b = g a.
Proof.
  intros A B g l k a b Ha Hb.
  rewrite (map_nth_error g k l Ha) in Hb. now injection Hb.
Qed.

(** C5. In exact arithmetic, [get_vswr] returns elementwise
    [(1+G)/(1-G)] with [G = clip(|v|, 0, 0.9999)]; the value is 1 where
    [|v| = 0], and of any two samples the one with the larger [|v|] has the
    larger or equal VSWR (over [0, 0.9999] and beyond, where the clip makes
    it constant). *)
Theorem vswr_formula_monotone :
  forall (tf : @TouchstoneFile.t Ideal.RealNumPy) p freq s_data,
    TouchstoneFile.get_s_parameter tf p = Ok (freq, s_data) ->
    exists vswr,
      TouchstoneFile.get_vswr tf p = Ok (freq, vswr)
      /\ vswr = map (fun v => Ideal.vswr_of (Ideal.Cabs v)) s_data
      /\ (forall k v y,
             nth_error s_data k = Some v -> nth_error vswr k = Some y ->
             Ideal.Cabs v = 0%R -> y = 1%R)
      /\ (forall k1 k2 v1 v2 y1 y2,
             nth_error s_data k1 = Some v1 -> nth_error vswr k1 = Some y1 ->
             nth_error s_data k2 = Some v2 -> nth_error vswr k2 = Some y2 ->
             (Ideal.Cabs v1 <= Ideal.Cabs v2)%R -> (y1 <= y2)%R).
Proof.
  intros tf p freq s_data Hget.
  exists (map (fun v => Ideal.vswr_of (Ideal.Cabs v)) s_data).
  split; [exact (get_vswr_formula tf p freq s_data Hget)|].
  split; [reflexivity|]. split.
  - intros k v y Hv Hy H0.
    rewrite (nth_error_map_some _ _ _ _ _ Hv Hy), H0. apply vswr_of_zero.
  - intros k1 k2 v1 v2 y1 y2 Hv1 Hy1 Hv2 Hy2 Hle.
    rewrite (nth_error_map_some _ _ _ _ _ Hv1 Hy1),
      (nth_error_map_some _ _ _ _ _ Hv2 Hy2).
    apply vswr_of_monotone. exact Hle.
Qed.

Lemma vswr_formula_monotone_witness :
  TouchstoneFile.get_s_parameter Samples.one_port_file "S11"
  = Ok ([Q2R 1e9; Q2R 2e9], [(Q2R 0.5, Q2R 0); (Q2R 0.3, Q2R 0.4)])
  /\ TouchstoneFile.get_vswr Samples.one_port_file "S11"
     = Ok ([Q2R 1e9; Q2R 2e9],
           [Ideal.vswr_of (Ideal.Cabs (Q2R 0.5, Q2R 0));
            Ideal.vswr_of (Ideal.Cabs (Q2R 0.3, Q2R 0.4))]).
Proof.
  split; [reflexivity|].
  destruct (vswr_formula_monotone Samples.one_port_file "S11" _ _ eq_refl)
    as (vswr & Hv & -> & _).
  exact Hv.
Defined.

(* ================================================================== *)
(** * The claims on the render dispatch *)

(** C9. Whatever the plot type, rendering an empty trace list returns
    normally and leaves the placeholder: fresh axes holding the one text
    "No data to plot", drawn once; no calculator is invoked and nothing is
    reported. *)
Theorem empty_trace_list_placeholder :
  forall `{NP : NumPy} plot_type e,
    PlotEngine.plot plot_type [] e
    = (Ok tt,
       PlotEngine.mk
         (Some (PlotEngine.mkAxes
                  "rectilinear"
                  [PlotEngine.Text (lit 0.5) (lit 0.5) "No data to plot"]
                  None None None false None None None))
         (PlotEngine.plot_config e) [] (S (PlotEngine.draws e))
         (PlotEngine.stdout e) (PlotEngine.calls e)).
Proof.
  intros NP plot_type e. reflexivity.
Qed.

Section StandardLoop.
Context `{NP : NumPy}.

(** A trace whose calculator raises is reported and skipped: the axes and
    the local [ylabel] are as before. *)
Lemma standard_iter_failing :
  forall plot_type method calculator yl ylabel trace e,
    PlotEngine.standard_calculator plot_type = Some (method, calculator, yl) ->
    is_ok (calculator (PlotEngine.touchstone_file trace)
                      (PlotEngine.param_name trace)) = false ->
    exists e',
      PlotEngine.standard_iter plot_type ylabel trace e = (Ok ylabel, e')
      /\ PlotEngine.ax e' = PlotEngine.ax e
      /\ PlotEngine.plot_config e' = PlotEngine.plot_config e
      /\ PlotEngine.draws e' = PlotEngine.draws e.
Proof.
  intros plot_type method calculator yl ylabel trace e Hcalc Hfail.
  unfold PlotEngine.standard_iter. rewrite Hcalc.
  destruct (calculator (PlotEngine.touchstone_file trace)
                       (PlotEngine.param_name trace)) as [r|x] eqn:E;
    [discriminate|].
  cbn beta iota zeta.
  unfold PlotEngine.mbind, PlotEngine.catch, PlotEngine.call.
  eexists. split; [reflexivity|]. repeat split.
Qed.

Lemma standard_loop_all_failing :
  forall plot_type method calculator yl traces ylabel e,
    PlotEngine.standard_calculator plot_type = Some (method, calculator, yl) ->
    Forall (fun trace =>
              is_ok (calculator (PlotEngine.touchstone_file trace)
                                (PlotEngine.param_name trace)) = false)
           traces ->
    exists e',
      PlotEngine.standard_loop plot_type ylabel traces e = (Ok ylabel, e')
      /\ PlotEngine.ax e' = PlotEngine.ax e
      /\ PlotEngine.plot_config e' = PlotEngine.plot_config e
      /\ PlotEngine.draws e' = PlotEngine.draws e.
Proof.
  intros plot_type method calculator yl traces ylabel e Hcalc HF.
  revert e. induction HF as [|trace traces Hfail _ IH]; intro e.
  - exists e. repeat split.
  - destruct (standard_iter_failing _ _ _ _ ylabel trace e Hcalc Hfail)
      as (e1 & H1 & A1 & C1 & D1).
    destruct (IH e1) as (e2 & H2 & A2 & C2 & D2).
    exists e2. cbn [PlotEngine.standard_loop].
    unfold PlotEngine.mbind at 1. rewrite H1, H2.
    repeat split; congruence.
Qed.

Lemma mbind_ok :
  forall {A B} (m : PlotEngine.M A) (k : A -> PlotEngine.M B) e a e',
    m e = (Ok a, e') -> PlotEngine.mbind m k e = k a e'.
Proof.
  intros A B m k e a e' H. unfold PlotEngine.mbind. now rewrite H.
Qed.

Lemma mbind_raise :
  forall {A B} (m : PlotEngine.M A) (k : A -> PlotEngine.M B) e x e',
    m e = (Raise x, e') -> PlotEngine.mbind m k e = (Raise x, e').
Proof.
  intros A B m k e x e' H. unfold PlotEngine.mbind. now rewrite H.
Qed.

Lemma on_ax_ok :
  forall g e a a',
    PlotEngine.ax e = Some a -> g a = Ok a' ->
    PlotEngine.on_ax g e
    = (Ok tt, PlotEngine.mk (Some a') (PlotEngine.plot_config e)
                            (PlotEngine.last_traces e) (PlotEngine.draws e)
                            (PlotEngine.stdout e) (PlotEngine.calls e)).
Proof.
  intros g e a a' Ha Hg. unfold PlotEngine.on_ax. now rewrite Ha, Hg.
Qed.

Lemma plot_standard_all_failing :
  forall plot_type method calculator yl traces e,
    PlotEngine.standard_calculator plot_type = Some (method, calculator, yl) ->
    Forall (fun trace =>
              is_ok (calculator (PlotEngine.touchstone_file trace)
                                (PlotEngine.param_name trace)) = false)
           traces ->
    exists e',
      PlotEngine._plot_standard plot_type traces e
      = (Raise (UnboundLocalError "ylabel"), e')
      /\ PlotEngine.draws e' = PlotEngine.draws e.
Proof.
  intros plot_type method calculator yl traces e Hcalc HF.
  unfold PlotEngine._plot_standard.
  erewrite mbind_ok by reflexivity.
  match goal with
  | |- context [PlotEngine.mbind (PlotEngine.standard_loop _ _ _) _ ?e0] =>
      destruct (standard_loop_all_failing _ _ _ _ traces None e0 Hcalc HF)
      as (e1 & H1 & A1 & C1 & D1)
  end.
  erewrite mbind_ok by exact H1.
  erewrite mbind_ok by reflexivity.
  erewrite mbind_ok by (eapply on_ax_ok; [exact A1 | reflexivity]).
  eexists. split; [reflexivity|]. exact D1.
Qed.

Lemma standard_calculator_not_special :
  forall plot_type c,
    PlotEngine.standard_calculator plot_type = Some c ->
    (plot_type =? "Smith Chart")%string = false
    /\ (plot_type =? "Real vs Imaginary")%string = false.
Proof.
  intros plot_type c. unfold PlotEngine.standard_calculator.
  repeat match goal with
         | |- context [(plot_type =? ?s)%string] =>
             let E := fresh "E" in
             destruct (plot_type =? s)%string eqn:E;
             [apply String.eqb_eq in E; subst plot_type;
              intros _; split; reflexivity|]
         end.
  discriminate.
Qed.
End StandardLoop.

(** C2 does not hold for the XY plot types (magnitude, phase, VSWR, group
    delay): when the calculator of every trace of a non-empty list raises,
    each failure is caught and reported, but the local [ylabel] was never
    bound, and [plot] itself raises [UnboundLocalError] while labelling the
    axes, before the canvas is drawn. *)
Theorem all_traces_failing_aborts_plot :
  forall `{NP : NumPy} plot_type method calculator yl traces e,
    PlotEngine.standard_calculator plot_type = Some (method, calculator, yl) ->
    traces <> [] ->
    Forall (fun trace =>
              is_ok (calculator (PlotEngine.touchstone_file trace)
                                (PlotEngine.param_name trace)) = false)
           traces ->
    fst (PlotEngine.plot plot_type traces e) = Raise (UnboundLocalError "ylabel")
    /\ PlotEngine.draws (snd (PlotEngine.plot plot_type traces e))
       = PlotEngine.draws e.
Proof.
  intros NP plot_type method calculator yl traces e Hcalc Hne HF.
  destruct (standard_calculator_not_special _ _ Hcalc) as [Hs Hr].
  destruct traces as [|trace rest]; [congruence|].
  unfold PlotEngine.plot. rewrite Hs, Hr.
  erewrite mbind_ok by reflexivity.
  erewrite mbind_ok by reflexivity.
  destruct (plot_standard_all_failing _ _ _ _ (trace :: rest)
              (PlotEngine.mk None (PlotEngine.plot_config e) (trace :: rest)
                             (PlotEngine.draws e) (PlotEngine.stdout e)
                             (PlotEngine.calls e)) Hcalc HF)
    as (e' & H & D).
  erewrite mbind_raise by exact H.
  split; [reflexivity | exact D].
Qed.

Lemma all_traces_failing_aborts_plot_witness :
  @PlotEngine.standard_calculator Ideal.RealNumPy "Magnitude (dB)"
  = Some ("get_magnitude_db", TouchstoneFile.get_magnitude_db,
          "Magnitude (dB)")
  /\ [Samples.s33_trace] <> []
  /\ TouchstoneFile.get_magnitude_db Samples.two_port_file "S33"
     = Raise (ValueError "S33 not available in dut.s2p")
  /\ fst (PlotEngine.plot "Magnitude (dB)" [Samples.s33_trace] init_engine)
     = Raise (UnboundLocalError "ylabel").
Proof.
  split; [reflexivity|]. split; [discriminate|]. split; [reflexivity|].
  apply (all_traces_failing_aborts_plot
           "Magnitude (dB)" "get_magnitude_db" TouchstoneFile.get_magnitude_db
           "Magnitude (dB)" [Samples.s33_trace] init_engine eq_refl).
  - discriminate.
  - constructor; [reflexivity | constructor].
Defined.

Section SmithChart.
Context `{NP : NumPy}.

Lemma keeps_lift : forall {A} (r : result A), keeps_axes (PlotEngine.lift r).
Proof. intros A r e H. exact H. Qed.

Lemma keeps_call :
  forall {A} method param (r : result A),
    keeps_axes (PlotEngine.call method param r).
Proof. intros A method param r e H. exact H. Qed.

Lemma keeps_mbind :
  forall {A B} (m : PlotEngine.M A) (k : A -> PlotEngine.M B),
    keeps_axes m -> (forall a, keeps_axes (k a)) ->
    keeps_axes (PlotEngine.mbind m k).
Proof.
  intros A B m k Hm Hk e H. unfold PlotEngine.mbind.
  specialize (Hm e H). destruct (m e) as [[a|x] e1]; cbn [snd] in *.
  - apply Hk. exact Hm.
  - exact Hm.
Qed.

Lemma keeps_on_ax :
  forall g,
    (forall a a', g a = Ok a' -> polar_grid_without_circles (Some a) -> polar_grid_without_circles (Some a')) ->
    keeps_axes (PlotEngine.on_ax g).
Proof.
  intros g Hg e H. unfold PlotEngine.on_ax.
  destruct (PlotEngine.ax e) as [a|] eqn:Ea.
  - destruct (g a) as [a'|x] eqn:Eg; cbn [snd PlotEngine.ax].
    + eapply Hg; eassumption.
    + rewrite Ea. exact H.
  - cbn [snd]. rewrite Ea. exact H.
Qed.

Lemma add_artist_keeps :
  forall x a,
    is_patch x = false -> polar_grid_without_circles (Some a) -> polar_grid_without_circles (Some (PlotEngine.add_artist x a)).
Proof.
  intros x a Hx (a0 & E & Hp & Hg & HF). injection E as <-.
  eexists. split; [reflexivity|]. cbn. repeat split; try assumption.
  apply Forall_app. split; [assumption | constructor; [assumption | constructor]].
Qed.

Lemma keeps_ax_plot :
  forall xs ys label colour linestyle,
    keeps_axes (PlotEngine.ax_plot xs ys label colour linestyle).
Proof.
  intros. apply keeps_on_ax. intros a a' Hg Ha.
  destruct (length xs =? length ys); [|discriminate].
  injection Hg as <-. now apply add_artist_keeps.
Qed.

Lemma keeps_ax_plot_point :
  forall x y fmt colour, keeps_axes (PlotEngine.ax_plot_point x y fmt colour).
Proof.
  intros. apply keeps_on_ax. intros a a' Hg Ha.
  injection Hg as <-. now apply add_artist_keeps.
Qed.

Lemma keeps_smith_body : forall trace, keeps_axes (PlotEngine.smith_body trace).
Proof.
  intro trace. unfold PlotEngine.smith_body. cbn zeta.
  repeat first
         [ apply keeps_mbind; [|intro]
         | apply keeps_call | apply keeps_lift
         | apply keeps_ax_plot | apply keeps_ax_plot_point ].
Qed.

Lemma runs_smith_iter : forall trace, runs_on_axes (PlotEngine.smith_iter trace).
Proof.
  intros trace e H.
  pose proof (keeps_smith_body trace e H) as Hk.
  unfold PlotEngine.smith_iter, PlotEngine.mbind, PlotEngine.catch.
  destruct (PlotEngine.smith_body trace e) as [[[]|x] e1]; cbn [snd] in Hk.
  - exists e1. split; [reflexivity | exact Hk].
  - eexists. split; [reflexivity | exact Hk].
Qed.

Lemma runs_mbind :
  forall (m k : PlotEngine.M unit),
    runs_on_axes m -> runs_on_axes k ->
    runs_on_axes (PlotEngine.mbind m (fun _ => k)).
Proof.
  intros m k Hm Hk e H.
  destruct (Hm e H) as (e1 & E1 & H1).
  destruct (Hk e1 H1) as (e2 & E2 & H2).
  exists e2. split; [|exact H2].
  unfold PlotEngine.mbind. now rewrite E1.
Qed.

Lemma runs_for_each :
  forall traces, runs_on_axes (PlotEngine.for_each PlotEngine.smith_iter traces).
Proof.
  induction traces as [|trace rest IH].
  - intros e H. exists e. split; [reflexivity | exact H].
  - cbn [PlotEngine.for_each]. apply runs_mbind; [apply runs_smith_iter | exact IH].
Qed.

(** [_draw_smith_grid] switches the grid on and adds no artist. *)
Lemma draw_smith_grid_adds_nothing :
  forall e a,
    PlotEngine.ax e = Some a ->
    PlotEngine._draw_smith_grid e
    = (Ok tt,
       PlotEngine.mk
         (Some (PlotEngine.mkAxes
                  (PlotEngine.projection a) (PlotEngine.artists a)
                  (PlotEngine.ax_xlabel a) (PlotEngine.ax_ylabel a)
                  (PlotEngine.ax_title a) true (PlotEngine.ax_legend a)
                  (PlotEngine.ax_xlim a) (PlotEngine.ax_ylim a)))
         (PlotEngine.plot_config e) (PlotEngine.last_traces e)
         (PlotEngine.draws e) (PlotEngine.stdout e) (PlotEngine.calls e)).
Proof.
  intros e a Ha. unfold PlotEngine._draw_smith_grid. cbn zeta.
  unfold PlotEngine.ax_grid_on.
  exact (on_ax_ok _ e a _ Ha eq_refl).
Qed.

Lemma plot_smith_chart_without_circles :
  forall traces e,
    exists e' a,
      PlotEngine._plot_smith_chart traces e = (Ok tt, e')
      /\ PlotEngine.ax e' = Some a
      /\ PlotEngine.projection a = "polar"
      /\ PlotEngine.ax_grid a = true
      /\ Forall (fun x => is_patch x = false) (PlotEngine.artists a).
Proof.
  intros traces e. unfold PlotEngine._plot_smith_chart.
  erewrite mbind_ok by reflexivity.
  erewrite mbind_ok by (apply draw_smith_grid_adds_nothing; reflexivity).
  match goal with
  | |- context [PlotEngine.mbind (PlotEngine.for_each _ _) _ ?e0] =>
      assert (H0 : polar_grid_without_circles (PlotEngine.ax e0))
        by (eexists; split; [reflexivity|]; cbn; repeat split; constructor);
      destruct (runs_for_each traces e0 H0)
        as (e1 & E1 & (a1 & Ea1 & P1 & G1 & F1))
  end.
  erewrite mbind_ok by exact E1.
  erewrite mbind_ok
    by (unfold PlotEngine.set_ylim; eapply on_ax_ok; [exact Ea1 | reflexivity]).
  erewrite mbind_ok by reflexivity.
  erewrite mbind_ok
    by (unfold PlotEngine.set_title; eapply on_ax_ok; reflexivity).
  unfold PlotEngine.ax_legend_at.
  erewrite on_ax_ok by reflexivity.
  eexists. eexists. split; [reflexivity|]. split; [reflexivity|].
  cbn. repeat split; assumption.
Qed.
End SmithChart.

(** C3 does not hold: rendering a non-empty trace list as a Smith chart
    returns normally with polar axes whose grid is switched on, before any
    trace is drawn, but [_draw_smith_grid] adds no artist at all, so no
    constant-resistance or constant-reactance circle is ever on the chart:
    no patch is among the artists of the rendered axes. *)
Theorem smith_chart_has_no_reference_circles :
  forall `{NP : NumPy} traces e,
    traces <> [] ->
    (exists e' a,
        PlotEngine.plot "Smith Chart" traces e = (Ok tt, e')
        /\ PlotEngine.ax e' = Some a
        /\ PlotEngine.projection a = "polar"
        /\ PlotEngine.ax_grid a = true
        /\ Forall (fun x => is_patch x = false) (PlotEngine.artists a))
    /\ (forall e0 a0,
           PlotEngine.ax e0 = Some a0 ->
           exists a1,
             PlotEngine.ax (snd (PlotEngine._draw_smith_grid e0)) = Some a1
             /\ PlotEngine.artists a1 = PlotEngine.artists a0
             /\ PlotEngine.ax_grid a1 = true).
Proof.
  intros NP traces e Hne. split.
  - destruct traces as [|trace rest]; [congruence|].
    unfold PlotEngine.plot.
    erewrite mbind_ok by reflexivity.
    erewrite mbind_ok by reflexivity.
    cbn [String.eqb Ascii.eqb Bool.eqb].
    match goal with
    | |- context [PlotEngine.mbind (PlotEngine._plot_smith_chart _) _ ?e0] =>
        destruct (plot_smith_chart_without_circles (trace :: rest) e0)
        as (e1 & a & E1 & Ea & Hp & Hg & HF)
    end.
    erewrite mbind_ok by exact E1.
    eexists. exists a. split; [reflexivity|].
    cbn [PlotEngine.ax]. repeat split; assumption.
  - intros e0 a0 Ha.
    rewrite (draw_smith_grid_adds_nothing e0 a0 Ha).
    eexists. split; [reflexivity|]. split; reflexivity.
Qed.

Lemma smith_chart_has_no_reference_circles_witness :
  [Samples.s21_trace] <> []
  /\ exists e' a,
      PlotEngine.plot "Smith Chart" [Samples.s21_trace] init_engine = (Ok tt, e')
      /\ PlotEngine.ax e' = Some a
      /\ PlotEngine.projection a = "polar"
      /\ PlotEngine.ax_grid a = true
      /\ Forall (fun x => is_patch x = false) (PlotEngine.artists a).
Proof.
  split; [discriminate|].
  apply (smith_chart_has_no_reference_circles [Samples.s21_trace] init_engine).
  discriminate.
Defined.

(** What C2 describes does happen as soon as one trace succeeds: the failing
    trace is reported and skipped, the other one is drawn, and [plot]
    returns. *)
Example one_failing_trace_is_skipped :
  let r := PlotEngine.plot "Magnitude (dB)"
                           [Samples.s33_trace; Samples.s21_trace] init_engine in
  fst r = Ok tt
  /\ PlotEngine.stdout (snd r)
     = ["Error plotting S33: S33 not available in dut.s2p"]
  /\ PlotEngine.calls (snd r)
     = [("get_magnitude_db", "S33"); ("get_magnitude_db", "S21")]
  /\ option_map (fun a => length (PlotEngine.artists a)) (PlotEngine.ax (snd r))
     = Some 1
  /\ PlotEngine.draws (snd r) = 1.
Proof.
  cbv zeta. repeat split.
Qed.

(* ================================================================== *)
(** * Further properties of the network accessor *)

Section Accessor.
Context `{NP : NumPy}.

Lemma np_norm_index_nonneg :
  forall dim axis r,
    r < dim -> np_norm_index dim axis (Z.of_nat r) = Ok r.
Proof.
  intros dim axis r H. unfold np_norm_index.
  destruct ((0 <=? Z.of_nat r)%Z && (Z.of_nat r <? Z.of_nat dim)%Z) eqn:E.
  - now rewrite Nat2Z.id.
  - apply andb_false_iff in E. rewrite Z.leb_gt, Z.ltb_ge in E. lia.
Qed.

Lemma mapM_cell_nth :
  forall P r c (mats : list (list (list complex128))) l,
    r < P -> c < P ->
    Forall (fun m => length m = P /\ Forall (fun row => length row = P) m)
           mats ->
    mapM (fun m =>
            match nth_error m r with
            | Some line =>
                match nth_error line c with
                | Some v => Ok v
                | None => Raise (IndexError "index out of bounds")
                end
            | None => Raise (IndexError "index out of bounds")
            end) mats = Ok l ->
    forall k m,
      nth_error mats k = Some m ->
      exists line v,
        nth_error m r = Some line /\ nth_error line c = Some v
        /\ nth_error l k = Some v.
Proof.
  intros P r c mats l Hr Hc HF. revert l.
  induction HF as [|m0 mats [Hm Hrows] _ IH]; intros l Hl k m Hk.
  - destruct k; discriminate.
  - cbn [mapM] in Hl.
    destruct (nth_error m0 r) as [line|] eqn:Em; [|discriminate].
    destruct (nth_error line c) as [v|] eqn:Ev; [|discriminate].
    cbn [bind] in Hl.
    destruct (mapM _ mats) as [l'|] eqn:El; [|discriminate].
    cbn [bind] in Hl. injection Hl as <-.
    destruct k as [|k].
    + injection Hk as <-. exists line, v. repeat split; assumption.
    + cbn [nth_error] in Hk |- *. exact (IH l' eq_refl k m Hk).
Qed.
End Accessor.

(** With at most nine ports, [get_s_parameter] on the identifier
    [S{i}{j}] returns, at every frequency index k, the entry
    [s[k][i-1][j-1]] of the sample array, and one value per matrix. *)
Theorem get_s_parameter_reads_entry :
  forall `{NP : NumPy} rf_Network path tf i j,
    TouchstoneFile.load_file rf_Network path = Ok tf ->
    Network.wf (TouchstoneFile.network tf) ->
    Network.nports (TouchstoneFile.network tf) <= 9 ->
    1 <= i <= Network.nports (TouchstoneFile.network tf) ->
    1 <= j <= Network.nports (TouchstoneFile.network tf) ->
    exists s_data,
      TouchstoneFile.get_s_parameter tf (param_id i j)
      = Ok (Network.f (TouchstoneFile.network tf), s_data)
      /\ length s_data = length (Network.s (TouchstoneFile.network tf))
      /\ forall k m,
          nth_error (Network.s (TouchstoneFile.network tf)) k = Some m ->
          exists row v,
            nth_error m (i - 1) = Some row
            /\ nth_error row (j - 1) = Some v
            /\ nth_error s_data k = Some v.
Proof.
  intros NP rf_Network path tf i j Hload Hwf H9 Hi Hj.
  destruct (load_file_inv _ _ _ Hload) as (nw & _ & ->).
  cbn [TouchstoneFile.network] in *.
  destruct (param_id_digits (Network.nports nw) i j Hi Hj)
    as (d1 & d2 & G1 & G2 & H1 & H2 & _ & _ & Hsmall).
  destruct (Hsmall H9) as [-> ->].
  pose proof (parse_row_col_digits _ _ _ G1 G2 (proj2 H1) H2) as Hparse.
  assert (Hin : In (param_id i j)
                   (TouchstoneFile.gen_s_params (Network.nports nw))).
  { apply In_gen_s_params. exists (i - 1), (j - 1).
    repeat split; try lia. f_equal; [f_equal; lia | f_equal; lia]. }
  unfold TouchstoneFile.get_s_parameter.
  cbn [TouchstoneFile.s_params TouchstoneFile.network TouchstoneFile.frequency].
  apply str_in_true in Hin. rewrite Hin. cbn [negb].
  rewrite Hparse. cbn [bind]. unfold Network.s_slice.
  replace (Z.of_nat i - 1)%Z with (Z.of_nat (i - 1)) by lia.
  replace (Z.of_nat j - 1)%Z with (Z.of_nat (j - 1)) by lia.
  rewrite !np_norm_index_nonneg by lia. cbn [bind].
  destruct Hwf as [Hlen Hshape].
  destruct (mapM_cell_ok (Network.nports nw) (i - 1) (j - 1) _
                         ltac:(lia) ltac:(lia) Hshape)
    as (l & El & Hl).
  rewrite El. cbn [bind]. exists l.
  split; [reflexivity|]. split; [exact Hl|].
  intros k m Hk.
  exact (mapM_cell_nth (Network.nports nw) (i - 1) (j - 1) _ l
                       ltac:(lia) ltac:(lia) Hshape El k m Hk).
Qed.

Lemma get_s_parameter_reads_entry_witness :
  TouchstoneFile.load_file (Samples.parser_of Samples.two_port) "dut.s2p"
  = Ok Samples.two_port_file
  /\ Network.wf Samples.two_port
  /\ TouchstoneFile.get_s_parameter Samples.two_port_file (param_id 2 1)
     = Ok ([Q2R 1e9], [(Q2R 0.1, Q2R 0)]).
Proof.
  assert (Hwf : Network.wf Samples.two_port).
  { split; [reflexivity|]. repeat constructor. }
  split; [reflexivity|]. split; [exact Hwf|].
  destruct (get_s_parameter_reads_entry
              (Samples.parser_of Samples.two_port) "dut.s2p"
              Samples.two_port_file 2 1 eq_refl Hwf)
    as (s_data & Hget & Hlen & Hnth); cbn; try lia.
  destruct (Hnth 0 _ eq_refl) as (row & v & Hrow & Hv & Hs).
  injection Hrow as <-. injection Hv as <-.
  destruct s_data as [|x [|y t]]; try discriminate.
  injection Hs as ->. exact Hget.
Defined.

Lemma distinct_NoDup : forall l, distinct l = true -> NoDup l.
Proof.
  induction l as [|x l IH]; intro H; [constructor|].
  cbn [distinct] in H. apply andb_true_iff in H. destruct H as [Hx Hl].
  constructor; [|apply IH; exact Hl].
  apply negb_true_iff in Hx. now apply str_in_false.
Qed.

(** The listing of a loaded network names every parameter once exactly
    when the network has at most ten ports: from eleven ports on, [S111]
    stands both for ports (1, 11) and for ports (11, 1). *)
Theorem parameter_listing_distinct :
  forall `{NP : NumPy} rf_Network path tf,
    TouchstoneFile.load_file rf_Network path = Ok tf ->
    NoDup (TouchstoneFile.s_params tf)
    <-> Network.nports (TouchstoneFile.network tf) <= 10.
Proof.
  intros NP rf_Network path tf Hload.
  destruct (load_file_inv _ _ _ Hload) as (nw & _ & ->).
  cbn [TouchstoneFile.network TouchstoneFile.s_params].
  generalize (Network.nports nw) as P. clear. intro P. split.
  - intro Hnd. destruct (Nat.le_gt_cases P 10) as [H|H]; [exact H|].
    exfalso. rewrite gen_s_params_flat_map in Hnd.
    rewrite NoDup_nth_error in Hnd.
    assert (E : 0 * P + 10 = 10 * P + 0).
    { apply Hnd.
      - rewrite length_flat_map_blocks. nia.
      - rewrite (nth_error_flat_map_blocks
                   (fun i j => param_id (i + 1) (j + 1)) P P 0 0 10) by lia.
        rewrite (nth_error_flat_map_blocks
                   (fun i j => param_id (i + 1) (j + 1)) P P 0 10 0) by lia.
        reflexivity. }
    lia.
  - intro H.
    do 11 (destruct P as [|P];
           [apply distinct_NoDup; vm_compute; reflexivity|]).
    lia.
Qed.

Lemma parameter_listing_distinct_witness :
  TouchstoneFile.load_file (Samples.parser_of Samples.two_port) "dut.s2p"
  = Ok Samples.two_port_file
  /\ NoDup (TouchstoneFile.s_params Samples.two_port_file).
Proof.
  split; [reflexivity|].
  apply (parameter_listing_distinct (Samples.parser_of Samples.two_port)
                                    "dut.s2p" Samples.two_port_file eq_refl).
  cbn. lia.
Defined.

(* ================================================================== *)
(** * The file manager *)

Section DictFacts.
Context {V : Type}.

Lemma dict_get_set_same :
  forall k (v : V) d, Dict.get k (Dict.set k v d) = Some v.
Proof.
  intros k v d. induction d as [|[k' v'] d IH]; cbn [Dict.set Dict.get].
  - now rewrite Z.eqb_refl.
  - destruct (k =? k')%Z eqn:E; cbn [Dict.get].
    + now rewrite Z.eqb_refl.
    + rewrite E. exact IH.
Qed.

Lemma dict_get_set_other :
  forall k k' (v : V) d, k' <> k -> Dict.get k' (Dict.set k v d) = Dict.get k' d.
Proof.
  intros k k' v d Hne. induction d as [|[k0 v0] d IH]; cbn [Dict.set Dict.get].
  - destruct (k' =? k)%Z eqn:E; [apply Z.eqb_eq in E; congruence | reflexivity].
  - destruct (k =? k0)%Z eqn:E; cbn [Dict.get].
    + apply Z.eqb_eq in E. subst k0.
      destruct (k' =? k)%Z eqn:E'; [apply Z.eqb_eq in E'; congruence|].
      reflexivity.
    + destruct (k' =? k0)%Z; [reflexivity | exact IH].
Qed.

Lemma dict_get_del_same : forall k (d : Dict.t V), Dict.get k (Dict.del k d) = None.
Proof.
  intros k d. induction d as [|[k' v'] d IH]; cbn [Dict.del Dict.get];
    [reflexivity|].
  destruct (k =? k')%Z eqn:E; [exact IH|].
  cbn [Dict.get]. rewrite E. exact IH.
Qed.

Lemma dict_get_del_other :
  forall k k' (d : Dict.t V),
    k' <> k -> Dict.get k' (Dict.del k d) = Dict.get k' d.
Proof.
  intros k k' d Hne. induction d as [|[k0 v0] d IH]; cbn [Dict.del Dict.get];
    [reflexivity|].
  destruct (k =? k0)%Z eqn:E.
  - apply Z.eqb_eq in E. subst k0.
    destruct (k' =? k)%Z eqn:E'; [apply Z.eqb_eq in E'; congruence | exact IH].
  - cbn [Dict.get]. destruct (k' =? k0)%Z; [reflexivity | exact IH].
Qed.
End DictFacts.

(** [FileManager.load_file]: when the parser answers with a network, the
    call returns and stores in the slot the file object the constructor
    built, which holds the path as given, its [Path(...).name], the
    network, the P*P identifiers of [load_file] and the network's
    frequencies; [get_file] finds exactly that object afterwards, replacing
    what the slot held, and every other slot is as before. When the parser
    raises, the call raises the constructor's [ValueError]
    "Error loading <name>: <cause>" and changes no slot at all, the target
    slot keeping its previous file. *)
Theorem file_manager_load_file :
  forall `{NP : NumPy} rf_Network slot_id path fm,
    match rf_Network path with
    | Ok nw =>
        let tf :=
          TouchstoneFile.mk path (path_name path) nw
            (TouchstoneFile.gen_s_params (Network.nports nw)) (Network.f nw) in
        FileManager.load_file rf_Network slot_id path fm
        = (Ok tf, FileManager.mk (Dict.set slot_id tf (FileManager.files fm)))
        /\ FileManager.get_file
             slot_id (snd (FileManager.load_file rf_Network slot_id path fm))
           = Some tf
        /\ forall other,
            other <> slot_id ->
            FileManager.get_file
              other (snd (FileManager.load_file rf_Network slot_id path fm))
            = FileManager.get_file other fm
    | Raise e =>
        FileManager.load_file rf_Network slot_id path fm
        = (Raise (ValueError ("Error loading " ++ path_name path ++ ": "
                                ++ exn_str e)), fm)
        /\ forall any,
            FileManager.get_file
              any (snd (FileManager.load_file rf_Network slot_id path fm))
            = FileManager.get_file any fm
    end.
Proof.
  intros NP rf_Network slot_id path fm.
  unfold FileManager.load_file, TouchstoneFile.load_file.
  destruct (rf_Network path) as [nw|e]; [|split; reflexivity].
  cbn zeta. split; [reflexivity|].
  cbn [snd]. unfold FileManager.get_file. cbn [FileManager.files]. split.
  - apply dict_get_set_same.
  - intros other Hne. now apply dict_get_set_other.
Qed.

(** [FileManager.remove_file] never raises: on an empty slot it changes
    nothing; afterwards [get_file] finds nothing in that slot and what it
    found in every other slot before. *)
Theorem file_manager_remove_file :
  forall `{NP : NumPy} slot_id fm,
    FileManager.get_file slot_id (FileManager.remove_file slot_id fm) = None
    /\ (forall other,
           other <> slot_id ->
           FileManager.get_file other (FileManager.remove_file slot_id fm)
           = FileManager.get_file other fm)
    /\ (FileManager.get_file slot_id fm = None ->
        FileManager.remove_file slot_id fm = fm).
Proof.
  intros NP slot_id fm. unfold FileManager.remove_file, FileManager.get_file,
    Dict.mem.
  destruct (Dict.get slot_id (FileManager.files fm)) as [tf|] eqn:E.
  - cbn [FileManager.files]. split; [apply dict_get_del_same|].
    split; [|discriminate].
    intros other Hne. now apply dict_get_del_other.
  - split; [exact E|]. split; [reflexivity|]. reflexivity.
Qed.

(* ================================================================== *)
(** * What a render draws *)

Section Runs.
Context `{NP : NumPy}.

Lemma add_artists_nil : forall a, add_artists [] a = a.
Proof.
  intros [p l x y t g lg xl yl]. unfold add_artists.
  cbn. now rewrite app_nil_r.
Qed.

Lemma add_artists_app :
  forall l1 l2 a, add_artists l2 (add_artists l1 a) = add_artists (l1 ++ l2) a.
Proof.
  intros l1 l2 a. unfold add_artists. cbn. now rewrite app_assoc.
Qed.

Lemma after_drawing_ax :
  forall e a l r c, PlotEngine.ax (after_drawing e a l r c) = Some (add_artists l a).
Proof. reflexivity. Qed.

Lemma after_drawing_again :
  forall e a l1 r1 c1 l2 r2 c2,
    after_drawing (after_drawing e a l1 r1 c1) (add_artists l1 a) l2 r2 c2
    = after_drawing e a (l1 ++ l2) (r1 ++ r2) (c1 ++ c2).
Proof.
  intros. unfold after_drawing. cbn.
  now rewrite add_artists_app, !app_assoc.
Qed.

Lemma after_drawing_nothing :
  forall e a,
    PlotEngine.ax e = Some a -> after_drawing e a [] [] [] = e.
Proof.
  intros [ax cfg lt d so cl] a H. cbn in H. subst ax.
  unfold after_drawing. cbn. now rewrite add_artists_nil, !app_nil_r.
Qed.

Lemma ax_plot_ok :
  forall xs ys label colour linestyle e a,
    PlotEngine.ax e = Some a ->
    length xs = length ys ->
    PlotEngine.ax_plot xs ys label colour linestyle e
    = (Ok tt,
       after_drawing e a [PlotEngine.Line xs ys label colour linestyle] [] []).
Proof.
  intros xs ys label colour linestyle e a Ha Hlen.
  unfold PlotEngine.ax_plot, PlotEngine.on_ax. rewrite Ha.
  apply Nat.eqb_eq in Hlen. rewrite Hlen.
  unfold after_drawing. now rewrite !app_nil_r.
Qed.

Lemma ax_plot_mismatch :
  forall xs ys label colour linestyle e a,
    PlotEngine.ax e = Some a ->
    (length xs =? length ys) = false ->
    PlotEngine.ax_plot xs ys label colour linestyle e
    = (Raise (ValueError "x and y must have same first dimension"), e).
Proof.
  intros xs ys label colour linestyle e a Ha Hlen.
  unfold PlotEngine.ax_plot, PlotEngine.on_ax. now rewrite Ha, Hlen.
Qed.

Lemma ax_plot_point_ok :
  forall x y fmt colour e a,
    PlotEngine.ax e = Some a ->
    PlotEngine.ax_plot_point x y fmt colour e
    = (Ok tt, after_drawing e a [PlotEngine.Marker x y fmt colour] [] []).
Proof.
  intros x y fmt colour e a Ha.
  unfold PlotEngine.ax_plot_point, PlotEngine.on_ax. rewrite Ha.
  unfold after_drawing. now rewrite !app_nil_r.
Qed.

Lemma print_run :
  forall line e a,
    PlotEngine.ax e = Some a ->
    PlotEngine.print line e = (Ok tt, after_drawing e a [] [line] []).
Proof.
  intros line e a Ha. unfold PlotEngine.print, after_drawing.
  now rewrite add_artists_nil, app_nil_r, Ha.
Qed.

Lemma call_run :
  forall {A} method param (r : result A) e a,
    PlotEngine.ax e = Some a ->
    PlotEngine.call method param r e
    = (r, after_drawing e a [] [] [(method, param)]).
Proof.
  intros A method param r e a Ha. unfold PlotEngine.call, after_drawing.
  now rewrite add_artists_nil, app_nil_r, Ha.
Qed.

(** One iteration of the XY loop. *)
Lemma standard_iter_run :
  forall plot_type method calculator yl ylabel trace e a,
    PlotEngine.standard_calculator plot_type = Some (method, calculator, yl) ->
    PlotEngine.ax e = Some a ->
    PlotEngine.standard_iter plot_type ylabel trace e
    = (Ok (if computes calculator trace then Some yl else ylabel),
       after_drawing e a (standard_artists calculator trace)
                     (standard_reports calculator trace)
                     [(method, PlotEngine.param_name trace)]).
Proof.
  intros plot_type method calculator yl ylabel trace e a Hcalc Ha.
  unfold PlotEngine.standard_iter, computes, standard_artists,
    standard_reports.
  rewrite Hcalc. cbn beta iota zeta.
  unfold PlotEngine.catch at 1.
  erewrite mbind_ok
    by (rewrite (call_run _ _ _ e a Ha); reflexivity).
  destruct (calculator (PlotEngine.touchstone_file trace)
                       (PlotEngine.param_name trace)) as [[freq data]|x].
  - cbn [is_ok]. fold (ghz freq).
    destruct (length (ghz freq) =? length data) eqn:E.
    + unfold PlotEngine.catch.
      erewrite mbind_ok
        by (erewrite ax_plot_ok;
            [reflexivity | apply after_drawing_ax | now apply Nat.eqb_eq]).
      cbn beta iota.
      unfold PlotEngine.ret. now rewrite after_drawing_again.
    + unfold PlotEngine.catch.
      erewrite mbind_ok
        by (erewrite ax_plot_mismatch;
            [reflexivity | apply after_drawing_ax | exact E]).
      cbn beta iota.
      erewrite mbind_ok by (apply print_run; apply after_drawing_ax).
      unfold PlotEngine.ret. now rewrite after_drawing_again.
  - cbn [is_ok]. cbn beta iota.
    erewrite mbind_ok by (apply print_run; apply after_drawing_ax).
    unfold PlotEngine.ret. now rewrite after_drawing_again.
Qed.

Lemma standard_loop_run :
  forall plot_type method calculator yl traces ylabel e a,
    PlotEngine.standard_calculator plot_type = Some (method, calculator, yl) ->
    PlotEngine.ax e = Some a ->
    PlotEngine.standard_loop plot_type ylabel traces e
    = (Ok (if existsb (computes calculator) traces then Some yl else ylabel),
       after_drawing e a (flat_map (standard_artists calculator) traces)
                     (flat_map (standard_reports calculator) traces)
                     (map (fun trace => (method, PlotEngine.param_name trace))
                          traces)).
Proof.
  intros plot_type method calculator yl traces.
  induction traces as [|trace rest IH]; intros ylabel e a Hcalc Ha.
  - cbn. unfold PlotEngine.ret. now rewrite after_drawing_nothing.
  - cbn [PlotEngine.standard_loop].
    erewrite mbind_ok by (eapply standard_iter_run; eassumption).
    erewrite IH by (try eassumption; apply after_drawing_ax).
    rewrite after_drawing_again. cbn [existsb flat_map map].
    destruct (computes calculator trace); cbn [orb]; [|reflexivity].
    now destruct (existsb (computes calculator) rest).
Qed.

Lemma plot_standard_run :
  forall plot_type method calculator yl traces e,
    PlotEngine.standard_calculator plot_type = Some (method, calculator, yl) ->
    PlotEngine._plot_standard plot_type traces e
    = let cfg := PlotEngine.plot_config e in
      let arts := flat_map (standard_artists calculator) traces in
      let out := (PlotEngine.stdout e
                  ++ flat_map (standard_reports calculator) traces)%list in
      let inv := (PlotEngine.calls e
                  ++ map (fun trace => (method, PlotEngine.param_name trace))
                         traces)%list in
      if existsb (computes calculator) traces
      then (Ok tt,
            PlotEngine.mk (Some (xy_axes cfg arts)) cfg
                          (PlotEngine.last_traces e) (PlotEngine.draws e)
                          out inv)
      else (Raise (UnboundLocalError "ylabel"),
            PlotEngine.mk (Some (xy_axes_aborted cfg arts)) cfg
                          (PlotEngine.last_traces e) (PlotEngine.draws e)
                          out inv).
Proof.
  intros plot_type method calculator yl traces e Hcalc.
  unfold PlotEngine._plot_standard.
  erewrite mbind_ok by reflexivity.
  erewrite mbind_ok by (eapply standard_loop_run; [exact Hcalc | reflexivity]).
  cbn zeta.
  destruct (existsb (computes calculator) traces);
    destruct e as [ax0 [t xl yl0 g lg xa ya [[x0|] [x1|]] [[y0|] [y1|]]] lt d so cl];
    destruct g, xa, ya; reflexivity.
Qed.

Lemma standard_loop_unknown :
  forall plot_type traces ylabel e,
    PlotEngine.standard_calculator plot_type = None ->
    PlotEngine.standard_loop plot_type ylabel traces e = (Ok ylabel, e).
Proof.
  intros plot_type traces ylabel e Hnone.
  induction traces as [|trace rest IH]; [reflexivity|].
  cbn [PlotEngine.standard_loop]. unfold PlotEngine.standard_iter.
  rewrite Hnone. cbn beta iota zeta.
  erewrite mbind_ok by reflexivity. exact IH.
Qed.

Lemma plot_nonempty :
  forall plot_type trace rest e,
    PlotEngine.plot plot_type (trace :: rest) e
    = PlotEngine.mbind
        (if (plot_type =? "Smith Chart")%string
         then PlotEngine._plot_smith_chart (trace :: rest)
         else if (plot_type =? "Real vs Imaginary")%string
              then PlotEngine._plot_real_imag (trace :: rest)
              else PlotEngine._plot_standard plot_type (trace :: rest))
        (fun _ => PlotEngine.canvas_draw)
        (PlotEngine.mk None (PlotEngine.plot_config e) (trace :: rest)
                       (PlotEngine.draws e) (PlotEngine.stdout e)
                       (PlotEngine.calls e)).
Proof. reflexivity. Qed.
End Runs.

Section XYPlots.
Context `{NP : NumPy}.

(** The whole of [plot] on an XY plot type and a non-empty list. *)
Lemma plot_xy_run :
  forall plot_type method calculator yl traces e,
    PlotEngine.standard_calculator plot_type = Some (method, calculator, yl) ->
    traces <> [] ->
    PlotEngine.plot plot_type traces e
    = let cfg := PlotEngine.plot_config e in
      let arts := flat_map (standard_artists calculator) traces in
      let out := (PlotEngine.stdout e
                  ++ flat_map (standard_reports calculator) traces)%list in
      let inv := (PlotEngine.calls e
                  ++ map (fun trace => (method, PlotEngine.param_name trace))
                         traces)%list in
      if existsb (computes calculator) traces
      then (Ok tt,
            PlotEngine.mk (Some (xy_axes cfg arts)) cfg traces
                          (S (PlotEngine.draws e)) out inv)
      else (Raise (UnboundLocalError "ylabel"),
            PlotEngine.mk (Some (xy_axes_aborted cfg arts)) cfg traces
                          (PlotEngine.draws e) out inv).
Proof.
  intros plot_type method calculator yl traces e Hcalc Hne.
  destruct (standard_calculator_not_special _ _ Hcalc) as [Hs Hr].
  destruct traces as [|trace rest]; [congruence|].
  rewrite plot_nonempty, Hs, Hr.
  unfold PlotEngine.mbind.
  rewrite (plot_standard_run _ _ _ _ (trace :: rest) _ Hcalc). cbn zeta.
  destruct (existsb (computes calculator) (trace :: rest)); reflexivity.
Qed.
End XYPlots.

(** On an XY plot type (magnitude, phase, VSWR, group delay) and a
    non-empty trace list, [plot] returns normally exactly when the
    calculator of at least one trace returns; when none does it raises
    [UnboundLocalError]. *)
Theorem xy_plot_returns_iff_a_trace_computes :
  forall `{NP : NumPy} plot_type method calculator yl traces e,
    PlotEngine.standard_calculator plot_type = Some (method, calculator, yl) ->
    traces <> [] ->
    (fst (PlotEngine.plot plot_type traces e) = Ok tt
     <-> exists trace, In trace traces /\ computes calculator trace = true)
    /\ ((forall trace, In trace traces -> computes calculator trace = false) ->
        fst (PlotEngine.plot plot_type traces e)
        = Raise (UnboundLocalError "ylabel")).
Proof.
  intros NP plot_type method calculator yl traces e Hcalc Hne.
  rewrite (plot_xy_run _ _ _ _ _ e Hcalc Hne). cbn zeta.
  destruct (existsb (computes calculator) traces) eqn:E; cbn [fst].
  - apply existsb_exists in E. split.
    + split; [intros _; exact E | reflexivity].
    + intros Hall. destruct E as (trace & Hin & Hc).
      rewrite (Hall trace Hin) in Hc. discriminate.
  - split; [|reflexivity]. split; [discriminate|].
    intros (trace & Hin & Hc).
    assert (existsb (computes calculator) traces = true)
      by (apply existsb_exists; exists trace; split; assumption).
    congruence.
Qed.

Lemma xy_plot_returns_iff_a_trace_computes_witness :
  @PlotEngine.standard_calculator Ideal.RealNumPy "VSWR"
  = Some ("get_vswr", TouchstoneFile.get_vswr, "VSWR")
  /\ [Samples.s33_trace; Samples.s21_trace] <> []
  /\ fst (PlotEngine.plot "VSWR" [Samples.s33_trace; Samples.s21_trace]
                          init_engine) = Ok tt.
Proof.
  split; [reflexivity|]. split; [discriminate|].
  apply (proj1 (xy_plot_returns_iff_a_trace_computes
                  "VSWR" "get_vswr" TouchstoneFile.get_vswr "VSWR"
                  [Samples.s33_trace; Samples.s21_trace] init_engine
                  eq_refl ltac:(discriminate))).
  exists Samples.s21_trace. split; [simpl; tauto | reflexivity].
Defined.

(** When an XY plot returns, the axes hold exactly one line per trace whose
    calculator returned, in the order of the trace list, with the
    frequencies divided by 1e9 on the x axis; the axis labels, title, grid
    and legend position are those of the configuration whatever the plot
    type, and explicit limits are set only where "auto" is off and both
    bounds are given. The canvas is drawn once and the traces are kept as
    [last_traces]. *)
Theorem xy_plot_draws_computing_traces :
  forall `{NP : NumPy} plot_type method calculator yl traces e,
    PlotEngine.standard_calculator plot_type = Some (method, calculator, yl) ->
    (exists trace, In trace traces /\ computes calculator trace = true) ->
    let e' := snd (PlotEngine.plot plot_type traces e) in
    PlotEngine.ax e'
    = Some (xy_axes (PlotEngine.plot_config e)
                    (flat_map (standard_artists calculator) traces))
    /\ PlotEngine.draws e' = S (PlotEngine.draws e)
    /\ PlotEngine.last_traces e' = traces
    /\ PlotEngine.plot_config e' = PlotEngine.plot_config e.
Proof.
  intros NP plot_type method calculator yl traces e Hcalc Hex e'.
  assert (Hne : traces <> []).
  { destruct Hex as (trace & Hin & _). intros ->. exact Hin. }
  assert (E : existsb (computes calculator) traces = true)
    by (apply existsb_exists; exact Hex).
  subst e'. rewrite (plot_xy_run _ _ _ _ _ e Hcalc Hne). cbn zeta.
  rewrite E. repeat split.
Qed.

Lemma xy_plot_draws_computing_traces_witness :
  @PlotEngine.standard_calculator Ideal.RealNumPy "Magnitude (dB)"
  = Some ("get_magnitude_db", TouchstoneFile.get_magnitude_db,
          "Magnitude (dB)")
  /\ (exists trace,
         In trace [Samples.s33_trace; Samples.s21_trace]
         /\ computes TouchstoneFile.get_magnitude_db trace = true)
  /\ PlotEngine.ax
       (snd (PlotEngine.plot "Magnitude (dB)"
                             [Samples.s33_trace; Samples.s21_trace]
                             init_engine))
     = Some (xy_axes (PlotEngine.plot_config init_engine)
                     (flat_map (standard_artists TouchstoneFile.get_magnitude_db)
                               [Samples.s33_trace; Samples.s21_trace])).
Proof.
  assert (Hex : exists trace,
             In trace [Samples.s33_trace; Samples.s21_trace]
             /\ computes TouchstoneFile.get_magnitude_db trace = true).
  { exists Samples.s21_trace. split; [simpl; tauto | reflexivity]. }
  split; [reflexivity|]. split; [exact Hex|].
  exact (proj1 (xy_plot_draws_computing_traces
                  "Magnitude (dB)" "get_magnitude_db"
                  TouchstoneFile.get_magnitude_db "Magnitude (dB)"
                  [Samples.s33_trace; Samples.s21_trace] init_engine
                  eq_refl Hex)).
Defined.

(** Whether or not an XY plot returns, it invokes the calculator of every
    trace exactly once, in the order of the list, and prints one line for
    every trace that was not drawn, in that order. *)
Theorem xy_plot_invokes_every_calculator_once :
  forall `{NP : NumPy} plot_type method calculator yl traces e,
    PlotEngine.standard_calculator plot_type = Some (method, calculator, yl) ->
    traces <> [] ->
    let e' := snd (PlotEngine.plot plot_type traces e) in
    PlotEngine.calls e'
    = (PlotEngine.calls e
       ++ map (fun trace => (method, PlotEngine.param_name trace)) traces)%list
    /\ PlotEngine.stdout e'
       = (PlotEngine.stdout e
          ++ flat_map (standard_reports calculator) traces)%list.
Proof.
  intros NP plot_type method calculator yl traces e Hcalc Hne e'.
  subst e'. rewrite (plot_xy_run _ _ _ _ _ e Hcalc Hne). cbn zeta.
  destruct (existsb (computes calculator) traces); split; reflexivity.
Qed.

Lemma xy_plot_invokes_every_calculator_once_witness :
  @PlotEngine.standard_calculator Ideal.RealNumPy "Magnitude (dB)"
  = Some ("get_magnitude_db", TouchstoneFile.get_magnitude_db,
          "Magnitude (dB)")
  /\ [Samples.s33_trace; Samples.s21_trace] <> []
  /\ PlotEngine.calls
       (snd (PlotEngine.plot "Magnitude (dB)"
                             [Samples.s33_trace; Samples.s21_trace]
                             init_engine))
     = [("get_magnitude_db", "S33"); ("get_magnitude_db", "S21")].
Proof.
  split; [reflexivity|]. split; [discriminate|].
  exact (proj1 (xy_plot_invokes_every_calculator_once
                  "Magnitude (dB)" "get_magnitude_db"
                  TouchstoneFile.get_magnitude_db "Magnitude (dB)"
                  [Samples.s33_trace; Samples.s21_trace] init_engine
                  eq_refl ltac:(discriminate))).
Defined.

Lemma plot_unknown_run :
  forall `{NP : NumPy} plot_type traces e,
    PlotEngine.standard_calculator plot_type = None ->
    plot_type <> "Smith Chart" ->
    plot_type <> "Real vs Imaginary" ->
    traces <> [] ->
    PlotEngine.plot plot_type traces e
    = (Raise (UnboundLocalError "ylabel"),
       PlotEngine.mk (Some (xy_axes_aborted (PlotEngine.plot_config e) []))
                     (PlotEngine.plot_config e) traces (PlotEngine.draws e)
                     (PlotEngine.stdout e) (PlotEngine.calls e)).
Proof.
  intros NP plot_type traces e Hnone Hs Hr Hne.
  destruct traces as [|trace rest]; [congruence|].
  rewrite plot_nonempty.
  apply String.eqb_neq in Hs. apply String.eqb_neq in Hr. rewrite Hs, Hr.
  unfold PlotEngine.mbind at 1. unfold PlotEngine._plot_standard.
  erewrite mbind_ok by reflexivity.
  erewrite mbind_ok by (apply standard_loop_unknown; exact Hnone).
  reflexivity.
Qed.

(** A plot type that is none of the eight known ones takes the XY path,
    skips every trace without invoking or printing anything, and so always
    raises [UnboundLocalError] on a non-empty list. *)
Theorem unknown_plot_type_raises :
  forall `{NP : NumPy} plot_type traces e,
    PlotEngine.standard_calculator plot_type = None ->
    plot_type <> "Smith Chart" ->
    plot_type <> "Real vs Imaginary" ->
    traces <> [] ->
    PlotEngine.plot plot_type traces e
    = (Raise (UnboundLocalError "ylabel"),
       PlotEngine.mk (Some (xy_axes_aborted (PlotEngine.plot_config e) []))
                     (PlotEngine.plot_config e) traces (PlotEngine.draws e)
                     (PlotEngine.stdout e) (PlotEngine.calls e)).
Proof.
  intros NP plot_type traces e Hnone Hs Hr Hne.
  exact (plot_unknown_run plot_type traces e Hnone Hs Hr Hne).
Qed.

Lemma unknown_plot_type_raises_witness :
  @PlotEngine.standard_calculator Ideal.RealNumPy "Magnitude" = None
  /\ fst (PlotEngine.plot "Magnitude" [Samples.s21_trace] init_engine)
     = Raise (UnboundLocalError "ylabel").
Proof.
  split; [reflexivity|].
  rewrite (unknown_plot_type_raises "Magnitude" [Samples.s21_trace] init_engine
                                    eq_refl);
    try discriminate.
  reflexivity.
Defined.

Section SmithAndRealImag.
Context `{NP : NumPy}.

Lemma np_last_map :
  forall {A} (g : A -> float64) (first : A) (rest : list A),
    PlotEngine.np_last (map g (first :: rest))
    = Ok (g (last (first :: rest) first)).
Proof.
  intros A g first rest. unfold PlotEngine.np_last.
  destruct (exists_last (l := first :: rest) ltac:(discriminate))
    as (l' & x & E).
  rewrite E, last_last, map_app, rev_app_distr. reflexivity.
Qed.

Ltac run_step tac :=
  erewrite mbind_ok by tac; cbn beta iota; rewrite ?after_drawing_again.

Lemma smith_body_run :
  forall trace e a,
    PlotEngine.ax e = Some a ->
    PlotEngine.smith_body trace e
    = (match TouchstoneFile.get_complex_data
               (PlotEngine.touchstone_file trace)
               (PlotEngine.param_name trace) with
       | Raise x => Raise x
       | Ok [] =>
           Raise (IndexError "index 0 is out of bounds for axis 0 with size 0")
       | Ok (_ :: _) => Ok tt
       end,
       after_drawing e a (smith_artists trace) []
                     [("get_complex_data", PlotEngine.param_name trace)]).
Proof.
  intros trace e a Ha. unfold PlotEngine.smith_body, smith_artists.
  cbn zeta.
  destruct (TouchstoneFile.get_complex_data
              (PlotEngine.touchstone_file trace)
              (PlotEngine.param_name trace)) as [s_data|x].
  - run_step ltac:(apply call_run; exact Ha).
    run_step ltac:(erewrite ax_plot_ok;
                   [reflexivity | apply after_drawing_ax
                    | now rewrite !length_map]).
    destruct s_data as [|first rest].
    + erewrite mbind_raise by reflexivity. reflexivity.
    + run_step ltac:(reflexivity).
      run_step ltac:(reflexivity).
      run_step ltac:(apply ax_plot_point_ok; apply after_drawing_ax).
      run_step ltac:(unfold PlotEngine.lift; rewrite np_last_map; reflexivity).
      run_step ltac:(unfold PlotEngine.lift; rewrite np_last_map; reflexivity).
      erewrite ax_plot_point_ok by apply after_drawing_ax.
      rewrite after_drawing_again. reflexivity.
  - erewrite mbind_raise by (apply call_run; exact Ha). reflexivity.
Qed.

Lemma smith_iter_run :
  forall trace e a,
    PlotEngine.ax e = Some a ->
    PlotEngine.smith_iter trace e
    = (Ok tt,
       after_drawing e a (smith_artists trace) (smith_reports trace)
                     [("get_complex_data", PlotEngine.param_name trace)]).
Proof.
  intros trace e a Ha. unfold PlotEngine.smith_iter.
  unfold PlotEngine.mbind, PlotEngine.catch.
  rewrite (smith_body_run trace e a Ha). unfold smith_reports.
  destruct (TouchstoneFile.get_complex_data
              (PlotEngine.touchstone_file trace)
              (PlotEngine.param_name trace)) as [[|first rest]|x].
  - erewrite print_run by apply after_drawing_ax.
    rewrite after_drawing_again, ?app_nil_r. reflexivity.
  - reflexivity.
  - erewrite print_run by apply after_drawing_ax.
    rewrite after_drawing_again, ?app_nil_r. reflexivity.
Qed.

Lemma for_each_run :
  forall (iter : PlotEngine.Trace -> PlotEngine.M unit)
         (arts : PlotEngine.Trace -> list PlotEngine.artist)
         (reports : PlotEngine.Trace -> list string) method,
    (forall trace e a,
        PlotEngine.ax e = Some a ->
        iter trace e
        = (Ok tt, after_drawing e a (arts trace) (reports trace)
                                [(method, PlotEngine.param_name trace)])) ->
    forall traces e a,
      PlotEngine.ax e = Some a ->
      PlotEngine.for_each iter traces e
      = (Ok tt,
         after_drawing e a (flat_map arts traces) (flat_map reports traces)
                       (map (fun trace => (method, PlotEngine.param_name trace))
                            traces)).
Proof.
  intros iter arts reports method Hiter traces.
  induction traces as [|trace rest IH]; intros e a Ha.
  - cbn. unfold PlotEngine.ret. now rewrite after_drawing_nothing.
  - cbn [PlotEngine.for_each].
    erewrite mbind_ok by (apply Hiter; exact Ha).
    erewrite IH by apply after_drawing_ax.
    now rewrite after_drawing_again.
Qed.

Lemma get_real_imag_lengths :
  forall tf p freq real imag,
    TouchstoneFile.get_real_imag tf p = Ok (freq, real, imag) ->
    length real = length imag.
Proof.
  intros tf p freq real imag. unfold TouchstoneFile.get_real_imag.
  destruct (TouchstoneFile.get_s_parameter tf p) as [[fq s_data]|x];
    [|discriminate].
  cbn [bind]. intro H. injection H as _ <- <-. now rewrite !length_map.
Qed.

Lemma real_imag_iter_run :
  forall trace e a,
    PlotEngine.ax e = Some a ->
    PlotEngine.real_imag_iter trace e
    = (Ok tt,
       after_drawing e a (real_imag_artists trace) (real_imag_reports trace)
                     [("get_real_imag", PlotEngine.param_name trace)]).
Proof.
  intros trace e a Ha.
  unfold PlotEngine.real_imag_iter, PlotEngine.real_imag_body,
    real_imag_artists, real_imag_reports.
  cbn zeta. unfold PlotEngine.mbind at 1. unfold PlotEngine.catch.
  destruct (TouchstoneFile.get_real_imag
              (PlotEngine.touchstone_file trace)
              (PlotEngine.param_name trace)) as [[[freq real] imag]|x] eqn:E.
  - run_step ltac:(apply call_run; exact Ha).
    fold (ghz freq).
    destruct (length (ghz freq) =? length real) eqn:El.
    + run_step ltac:(erewrite ax_plot_ok;
                     [reflexivity | apply after_drawing_ax
                      | now apply Nat.eqb_eq]).
      erewrite ax_plot_ok;
        [| apply after_drawing_ax
         | apply Nat.eqb_eq in El; rewrite El;
           exact (get_real_imag_lengths _ _ _ _ _ E)].
      rewrite after_drawing_again. unfold PlotEngine.ret.
      now rewrite !app_nil_r.
    + erewrite mbind_raise
        by (erewrite ax_plot_mismatch;
            [reflexivity | apply after_drawing_ax | exact El]).
      erewrite print_run by apply after_drawing_ax.
      now rewrite after_drawing_again, !app_nil_r.
  - erewrite mbind_raise by (apply call_run; exact Ha).
    erewrite print_run by apply after_drawing_ax.
    now rewrite after_drawing_again, !app_nil_r.
Qed.
End SmithAndRealImag.

Section OtherPlots.
Context `{NP : NumPy}.

Lemma plot_smith_run :
  forall traces e,
    traces <> [] ->
    PlotEngine.plot "Smith Chart" traces e
    = (Ok tt,
       PlotEngine.mk
         (Some (smith_axes (PlotEngine.plot_config e)
                           (flat_map smith_artists traces)))
         (PlotEngine.plot_config e) traces (S (PlotEngine.draws e))
         (PlotEngine.stdout e ++ flat_map smith_reports traces)
         (PlotEngine.calls e
          ++ map (fun trace => ("get_complex_data", PlotEngine.param_name trace))
                 traces)).
Proof.
  intros traces e Hne. destruct traces as [|trace rest]; [congruence|].
  rewrite plot_nonempty. cbn [String.eqb Ascii.eqb Bool.eqb].
  unfold PlotEngine.mbind at 1. unfold PlotEngine._plot_smith_chart.
  erewrite mbind_ok by reflexivity.
  erewrite mbind_ok by (apply draw_smith_grid_adds_nothing; reflexivity).
  erewrite mbind_ok
    by (apply (for_each_run PlotEngine.smith_iter smith_artists smith_reports
                            "get_complex_data" smith_iter_run);
        reflexivity).
  reflexivity.
Qed.

Lemma plot_real_imag_run :
  forall traces e,
    traces <> [] ->
    PlotEngine.plot "Real vs Imaginary" traces e
    = (Ok tt,
       PlotEngine.mk
         (Some (real_imag_axes (PlotEngine.plot_config e)
                               (flat_map real_imag_artists traces)))
         (PlotEngine.plot_config e) traces (S (PlotEngine.draws e))
         (PlotEngine.stdout e ++ flat_map real_imag_reports traces)
         (PlotEngine.calls e
          ++ map (fun trace => ("get_real_imag", PlotEngine.param_name trace))
                 traces)).
Proof.
  intros traces e Hne. destruct traces as [|trace rest]; [congruence|].
  rewrite plot_nonempty. cbn [String.eqb Ascii.eqb Bool.eqb].
  unfold PlotEngine.mbind at 1. unfold PlotEngine._plot_real_imag.
  erewrite mbind_ok by reflexivity.
  erewrite mbind_ok
    by (apply (for_each_run PlotEngine.real_imag_iter real_imag_artists
                            real_imag_reports "get_real_imag"
                            real_imag_iter_run);
        reflexivity).
  destruct e as [ax0 [t xl yl0 g lg xa ya [[x0|] [x1|]] [[y0|] [y1|]]] lt d so cl];
    destruct g, xa, ya; reflexivity.
Qed.
End OtherPlots.

(** A Smith chart render of a non-empty list never raises, whatever the
    traces. It draws, per trace in list order, the curve of the raw samples
    in polar coordinates (angle, magnitude) followed by a marker on the
    first and on the last sample; a failing trace draws nothing and is
    reported, and a trace with a zero-length series leaves its empty curve
    and is reported as an index error. The grid is on, the legend sits at
    "upper left" and the radial limits are (0, 1) whatever the
    configuration says; only its title is used. *)
Theorem smith_chart_render :
  forall `{NP : NumPy} traces e,
    traces <> [] ->
    PlotEngine.plot "Smith Chart" traces e
    = (Ok tt,
       PlotEngine.mk
         (Some (smith_axes (PlotEngine.plot_config e)
                           (flat_map smith_artists traces)))
         (PlotEngine.plot_config e) traces (S (PlotEngine.draws e))
         (PlotEngine.stdout e ++ flat_map smith_reports traces)
         (PlotEngine.calls e
          ++ map (fun trace => ("get_complex_data", PlotEngine.param_name trace))
                 traces)).
Proof.
  intros NP traces e Hne. exact (plot_smith_run traces e Hne).
Qed.

Lemma smith_chart_render_witness :
  [Samples.s33_trace; Samples.s21_trace] <> []
  /\ fst (PlotEngine.plot "Smith Chart" [Samples.s33_trace; Samples.s21_trace]
                          init_engine) = Ok tt
  /\ PlotEngine.stdout
       (snd (PlotEngine.plot "Smith Chart"
                             [Samples.s33_trace; Samples.s21_trace]
                             init_engine))
     = ["Error plotting S33 on Smith chart: S33 not available in dut.s2p"].
Proof.
  split; [discriminate|].
  rewrite (smith_chart_render [Samples.s33_trace; Samples.s21_trace]
                              init_engine ltac:(discriminate)).
  split; reflexivity.
Defined.

(** A real/imaginary render of a non-empty list never raises, not even
    when every trace fails. It draws, per computing trace in list order, the
    real part as a solid line labelled "<legend> (Real)" and the imaginary
    part as a dashed line labelled "<legend> (Imag)", both over the
    frequency in GHz; the y label is always "Real / Imaginary", the other
    decorations follow the configuration. *)
Theorem real_imag_render :
  forall `{NP : NumPy} traces e,
    traces <> [] ->
    PlotEngine.plot "Real vs Imaginary" traces e
    = (Ok tt,
       PlotEngine.mk
         (Some (real_imag_axes (PlotEngine.plot_config e)
                               (flat_map real_imag_artists traces)))
         (PlotEngine.plot_config e) traces (S (PlotEngine.draws e))
         (PlotEngine.stdout e ++ flat_map real_imag_reports traces)
         (PlotEngine.calls e
          ++ map (fun trace => ("get_real_imag", PlotEngine.param_name trace))
                 traces)).
Proof.
  intros NP traces e Hne. exact (plot_real_imag_run traces e Hne).
Qed.

Lemma real_imag_render_witness :
  [Samples.s33_trace] <> []
  /\ fst (PlotEngine.plot "Real vs Imaginary" [Samples.s33_trace] init_engine)
     = Ok tt
  /\ PlotEngine.ax
       (snd (PlotEngine.plot "Real vs Imaginary" [Samples.s33_trace]
                             init_engine))
     = Some (real_imag_axes (PlotEngine.plot_config init_engine) []).
Proof.
  split; [discriminate|].
  rewrite (real_imag_render [Samples.s33_trace] init_engine
                            ltac:(discriminate)).
  split; reflexivity.
Defined.

(** [PlotWindow.on_config_changed] with the dictionary of the controls
    redraws the traces of the last plot. When that XY plot returns, the
    axes carry the texts typed in the controls, and explicit limits exactly
    on the axes whose "auto" box is unchecked, with the two spin-box
    values. *)
Theorem config_change_redraws_last_traces :
  forall `{NP : NumPy} controls method calculator yl e,
    PlotEngine.standard_calculator
      (PlotControlsWidget.plot_type_combo controls)
    = Some (method, calculator, yl) ->
    (exists trace,
        In trace (PlotEngine.last_traces e)
        /\ computes calculator trace = true) ->
    let e' := snd (PlotWindow.on_config_changed
                     controls (PlotControlsWidget.update_config controls) e) in
    fst (PlotWindow.on_config_changed
           controls (PlotControlsWidget.update_config controls) e) = Ok tt
    /\ PlotEngine.last_traces e' = PlotEngine.last_traces e
    /\ PlotEngine.ax e'
       = Some (PlotEngine.mkAxes
                 "rectilinear"
                 (flat_map (standard_artists calculator)
                           (PlotEngine.last_traces e))
                 (Some (PlotControlsWidget.xlabel_edit controls))
                 (Some (PlotControlsWidget.ylabel_edit controls))
                 (Some (PlotControlsWidget.title_edit controls))
                 (PlotControlsWidget.grid_checkbox controls)
                 (Some (PlotControlsWidget.legend_combo controls))
                 (if PlotControlsWidget.xlim_auto_checkbox controls then None
                  else Some (PlotControlsWidget.xmin_spinbox controls,
                             PlotControlsWidget.xmax_spinbox controls))
                 (if PlotControlsWidget.ylim_auto_checkbox controls then None
                  else Some (PlotControlsWidget.ymin_spinbox controls,
                             PlotControlsWidget.ymax_spinbox controls))).
Proof.
  intros NP controls method calculator yl e Hcalc Hex e'.
  assert (Hne : PlotEngine.last_traces e <> []).
  { destruct Hex as (trace & Hin & _). intros E. rewrite E in Hin. exact Hin. }
  assert (E : existsb (computes calculator) (PlotEngine.last_traces e) = true)
    by (apply existsb_exists; exact Hex).
  subst e'. unfold PlotWindow.on_config_changed.
  erewrite mbind_ok by reflexivity.
  erewrite mbind_ok by reflexivity.
  cbn [PlotEngine.last_traces].
  unfold PlotControlsWidget.get_plot_type.
  rewrite (plot_xy_run _ _ _ _ _ _ Hcalc Hne). cbn zeta. rewrite E.
  cbn [fst snd PlotEngine.last_traces PlotEngine.ax].
  split; [reflexivity|]. split; [reflexivity|].
  destruct controls as [pt t xl yl0 g lg [|] [|] x0 x1 y0 y1]; reflexivity.
Qed.

Lemma config_change_redraws_last_traces_witness :
  let controls :=
    @PlotControlsWidget.mk Ideal.RealNumPy "VSWR" "Return loss" "f (GHz)"
                           "VSWR" false "upper right" false true
                           (Q2R 1) (Q2R 2) (Q2R 0) (Q2R 0) in
  let e := snd (PlotEngine.plot "Magnitude (dB)" [Samples.s21_trace]
                                init_engine) in
  (exists trace,
      In trace (PlotEngine.last_traces e)
      /\ computes TouchstoneFile.get_vswr trace = true)
  /\ option_map PlotEngine.ax_xlim
       (PlotEngine.ax
          (snd (PlotWindow.on_config_changed
                  controls (PlotControlsWidget.update_config controls) e)))
     = Some (Some (Q2R 1, Q2R 2)).
Proof.
  cbv zeta.
  assert (Hex : exists trace,
             In trace (PlotEngine.last_traces
                         (snd (PlotEngine.plot "Magnitude (dB)"
                                               [Samples.s21_trace]
                                               init_engine)))
             /\ computes TouchstoneFile.get_vswr trace = true).
  { exists Samples.s21_trace. split; [simpl; tauto | reflexivity]. }
  split; [exact Hex|].
  destruct (config_change_redraws_last_traces
              (@PlotControlsWidget.mk Ideal.RealNumPy "VSWR" "Return loss"
                                      "f (GHz)" "VSWR" false "upper right"
                                      false true (Q2R 1) (Q2R 2) (Q2R 0)
                                      (Q2R 0))
              "get_vswr" TouchstoneFile.get_vswr "VSWR"
              (snd (PlotEngine.plot "Magnitude (dB)" [Samples.s21_trace]
                                    init_engine))
              eq_refl Hex) as (_ & _ & Hax).
  rewrite Hax. reflexivity.
Defined.

(* ================================================================== *)
(** * Trace collection and colours *)

Lemma colors_index :
  forall k, list_index colors (k mod length colors)
            = Ok (nth (k mod 10) colors "").
Proof.
  intro k. change (length colors) with 10.
  pose proof (Nat.mod_upper_bound k 10 ltac:(lia)) as H.
  generalize dependent (k mod 10). intros r H.
  do 10 (destruct r as [|r]; [reflexivity|]). lia.
Qed.

Section Collection.
Context `{NP : NumPy}.

Lemma collect_from_run :
  forall file_slots i traces,
    MainWindow.collect_from i file_slots traces
    = Ok (traces
          ++ flat_map
               (fun '(k, slot) =>
                  match FileSlotWidget.get_trace_data slot with
                  | Some trace_data =>
                      [FileSlotWidget.set_color (nth (k mod 10) colors "")
                                                trace_data]
                  | None => []
                  end)
               (combine (seq i (length file_slots)) file_slots))%list.
Proof.
  induction file_slots as [|slot rest IH]; intros i traces.
  - cbn. now rewrite app_nil_r.
  - cbn [MainWindow.collect_from length seq combine flat_map].
    destruct (FileSlotWidget.get_trace_data slot) as [trace_data|].
    + rewrite colors_index. cbn [bind]. rewrite IH, <- app_assoc. reflexivity.
    + rewrite IH. reflexivity.
Qed.

Lemma in_combine_seq :
  forall {A} (l : list A) i start a,
    nth_error l i = Some a -> In (start + i, a) (combine (seq start (length l)) l).
Proof.
  intros A l. induction l as [|x l IH]; intros i start a H.
  - destruct i; discriminate.
  - destruct i as [|i]; cbn [length seq combine].
    + injection H as <-. left. f_equal. lia.
    + right. replace (start + S i) with (S start + i) by lia.
      apply IH. exact H.
Qed.
End Collection.

(** [MainWindow.update_plot] collects one trace per slot that is enabled
    and has a file, a parameter and a legend, in slot order, and never
    fails on the colour lookup. The colour of a trace is the palette entry
    of its slot's position (modulo ten), so it does not depend on which
    other slots are active. *)
Theorem main_window_trace_colours :
  forall `{NP : NumPy} file_slots,
    exists traces,
      MainWindow.collect_traces file_slots = Ok traces
      /\ traces
         = flat_map
             (fun '(k, slot) =>
                match FileSlotWidget.get_trace_data slot with
                | Some trace_data =>
                    [FileSlotWidget.set_color (nth (k mod 10) colors "")
                                              trace_data]
                | None => []
                end)
             (combine (seq 0 (length file_slots)) file_slots)
      /\ forall i slot trace_data,
          nth_error file_slots i = Some slot ->
          FileSlotWidget.get_trace_data slot = Some trace_data ->
          In (FileSlotWidget.set_color (nth (i mod 10) colors "") trace_data)
             traces.
Proof.
  intros NP file_slots. eexists. split.
  - unfold MainWindow.collect_traces. rewrite collect_from_run. reflexivity.
  - split; [reflexivity|].
    intros i slot trace_data Hi Hd. cbn [app].
    apply in_flat_map. exists (i, slot). split.
    + exact (in_combine_seq file_slots i 0 slot Hi).
    + cbn. rewrite Hd. left. reflexivity.
Qed.

Section Selections.
Context `{NP : NumPy}.

Lemma positional_colours_snoc :
  forall traces tf p l,
    positional_colours traces ->
    positional_colours
      (traces ++ [PlotEngine.mkTrace
                    tf p l (Some (nth (length traces mod 10) colors ""))]).
Proof.
  intros traces tf p l H k t Hk.
  destruct (Nat.lt_ge_cases k (length traces)) as [Hlt|Hge].
  - rewrite nth_error_app1 in Hk by assumption. now apply H.
  - rewrite nth_error_app2 in Hk by assumption.
    destruct (k - length traces) as [|n] eqn:E.
    + injection Hk as <-. cbn. replace k with (length traces) by lia.
      reflexivity.
    + destruct n; discriminate.
Qed.

Lemma add_selections_run :
  forall tf selections traces,
    positional_colours traces ->
    exists traces',
      FileManagerWindow.add_selections tf selections traces (length traces)
      = Ok (traces', length traces')
      /\ positional_colours traces'
      /\ map trace_key traces'
         = (map trace_key traces
            ++ map (fun '(p, l) => (tf, p, l)) selections)%list.
Proof.
  intros tf selections.
  induction selections as [|[p l] rest IH]; intros traces Hpos.
  - exists traces. cbn. now rewrite app_nil_r.
  - cbn [FileManagerWindow.add_selections]. rewrite colors_index.
    cbn [bind].
    destruct (IH _ (positional_colours_snoc traces tf p l Hpos))
      as (traces' & Hrun & Hpos' & Hkeys).
    rewrite length_app in Hrun. cbn [length] in Hrun.
    exists traces'. rewrite Hrun. split; [reflexivity|].
    split; [exact Hpos'|].
    rewrite Hkeys, map_app, <- app_assoc. reflexivity.
Qed.

Lemma collect_selected_run :
  forall loaded_files items traces,
    positional_colours traces ->
    exists traces',
      FileManagerWindow.collect_selected loaded_files items traces
                                         (length traces)
      = Ok (traces', length traces')
      /\ positional_colours traces'
      /\ map trace_key traces'
         = (map trace_key traces ++ selected_keys loaded_files items)%list.
Proof.
  intros loaded_files items.
  induction items as [|[slot_id selections] rest IH]; intros traces Hpos.
  - exists traces. cbn. now rewrite app_nil_r.
  - cbn [FileManagerWindow.collect_selected selected_keys flat_map].
    destruct (Dict.get slot_id loaded_files) as [tf|].
    + destruct selections as [|s0 sels].
      * destruct (IH traces Hpos) as (traces' & Hrun & Hpos' & Hkeys).
        exists traces'. split; [exact Hrun|]. split; [exact Hpos'|].
        exact Hkeys.
      * destruct (add_selections_run tf (s0 :: sels) traces Hpos)
          as (traces1 & Hrun1 & Hpos1 & Hkeys1).
        rewrite Hrun1. cbn [bind].
        destruct (IH traces1 Hpos1) as (traces' & Hrun & Hpos' & Hkeys).
        exists traces'. split; [exact Hrun|]. split; [exact Hpos'|].
        rewrite Hkeys, Hkeys1, <- app_assoc. reflexivity.
    + destruct (IH traces Hpos) as (traces' & Hrun & Hpos' & Hkeys).
      exists traces'. split; [|split; [exact Hpos'|exact Hkeys]].
      destruct selections; exact Hrun.
Qed.
End Selections.

(** [FileManagerWindow.open_plot_window] never fails on the colour lookup.
    It builds one trace per selection of every loaded file, in the order of
    the selection dictionary, and the k-th trace carries the palette colour
    [colors[k mod 10]]: colours go by position in the list, so they repeat
    after ten traces and shift when an earlier selection is dropped. With
    no selection of a loaded file it plots nothing. *)
Theorem plot_window_trace_colours :
  forall `{NP : NumPy} loaded_files selected_s_params,
    exists r,
      FileManagerWindow.open_plot_window loaded_files selected_s_params = Ok r
      /\ match r with
         | None => selected_keys loaded_files selected_s_params = []
         | Some traces =>
             traces <> []
             /\ map trace_key traces
                = selected_keys loaded_files selected_s_params
             /\ positional_colours traces
         end.
Proof.
  intros NP loaded_files selected_s_params.
  assert (H0 : positional_colours []).
  { intros k t Hk. destruct k; discriminate. }
  destruct (collect_selected_run loaded_files selected_s_params [] H0)
    as (traces & Hrun & Hpos & Hkeys).
  unfold FileManagerWindow.open_plot_window.
  change 0 with (length (@nil PlotEngine.Trace)). rewrite Hrun. cbn [bind].
  cbn [map app] in Hkeys.
  destruct traces as [|t rest].
  - exists None. split; [reflexivity|]. now rewrite <- Hkeys.
  - exists (Some (t :: rest)). split; [reflexivity|].
    split; [discriminate|]. split; [exact Hkeys | exact Hpos].
Qed.

(* ================================================================== *)
(** * The parameter selector *)

Section Selector.
Variable isspace : ascii -> bool.

Lemma rstrip_cons :
  forall c rest,
    SParamSelectorDialog.rstrip isspace (String c rest)
    = match SParamSelectorDialog.rstrip isspace rest with
      | EmptyString => if isspace c then EmptyString else String c EmptyString
      | kept => String c kept
      end.
Proof. reflexivity. Qed.

Lemma lstrip_cons :
  forall c rest,
    SParamSelectorDialog.lstrip isspace (String c rest)
    = if isspace c then SParamSelectorDialog.lstrip isspace rest
      else String c rest.
Proof. reflexivity. Qed.

Lemma lstrip_head :
  forall s,
    SParamSelectorDialog.lstrip isspace s = EmptyString
    \/ exists c rest,
        SParamSelectorDialog.lstrip isspace s = String c rest
        /\ isspace c = false.
Proof.
  induction s as [|c rest IH]; [left; reflexivity|].
  rewrite lstrip_cons.
  destruct (isspace c) eqn:E; [exact IH|].
  right. exists c, rest. split; [reflexivity | exact E].
Qed.

Lemma rstrip_idempotent :
  forall s,
    SParamSelectorDialog.rstrip isspace (SParamSelectorDialog.rstrip isspace s)
    = SParamSelectorDialog.rstrip isspace s.
Proof.
  induction s as [|c rest IH]; [reflexivity|].
  rewrite (rstrip_cons c rest).
  destruct (SParamSelectorDialog.rstrip isspace rest) as [|k kept] eqn:E.
  - destruct (isspace c) eqn:Ec; [reflexivity|].
    rewrite rstrip_cons. cbn [SParamSelectorDialog.rstrip]. now rewrite Ec.
  - rewrite rstrip_cons, IH. reflexivity.
Qed.

Lemma rstrip_keeps_head :
  forall c rest,
    isspace c = false ->
    exists kept,
      SParamSelectorDialog.rstrip isspace (String c rest) = String c kept.
Proof.
  intros c rest Hc. rewrite rstrip_cons.
  destruct (SParamSelectorDialog.rstrip isspace rest) as [|k kept].
  - rewrite Hc. now exists EmptyString.
  - now exists (String k kept).
Qed.

Lemma strip_idempotent :
  forall s,
    SParamSelectorDialog.strip isspace (SParamSelectorDialog.strip isspace s)
    = SParamSelectorDialog.strip isspace s.
Proof.
  intro s. unfold SParamSelectorDialog.strip.
  destruct (lstrip_head s) as [E|(c & rest & E & Hc)]; rewrite E.
  - reflexivity.
  - destruct (rstrip_keeps_head c rest Hc) as (kept & Ek).
    rewrite Ek, lstrip_cons, Hc, <- Ek. apply rstrip_idempotent.
Qed.

Lemma current_dict_get_absent :
  forall sel p acc,
    ~ In p (map fst sel) ->
    fold_left (fun (found : option string) '(q, legend) =>
                 if (p =? q)%string then Some legend else found) sel acc
    = acc.
Proof.
  induction sel as [|[q l] sel IH]; intros p acc H; [reflexivity|].
  cbn [fold_left]. cbn [map fst] in H.
  destruct (p =? q)%string eqn:E.
  - apply String.eqb_eq in E. subst q. exfalso. apply H. now left.
  - apply IH. intro Hin. apply H. now right.
Qed.

Lemma current_dict_get_present :
  forall sel p l acc,
    NoDup (map fst sel) -> In (p, l) sel ->
    fold_left (fun (found : option string) '(q, legend) =>
                 if (p =? q)%string then Some legend else found) sel acc
    = Some l.
Proof.
  induction sel as [|[q l0] sel IH]; intros p l acc Hnd Hin; [contradiction|].
  cbn [map fst] in Hnd. inversion Hnd as [|? ? Hq Hnd']; subst.
  cbn [fold_left]. destruct Hin as [Hin|Hin].
  - injection Hin as -> ->. rewrite String.eqb_refl.
    now apply current_dict_get_absent.
  - apply IH; assumption.
Qed.

Lemma get_selections_keys :
  forall rows,
    map fst (SParamSelectorDialog.get_selections isspace rows)
    = map SParamSelectorDialog.param_item
          (filter SParamSelectorDialog.include_checkbox rows).
Proof.
  induction rows as [|r rows IH]; [reflexivity|].
  cbn [SParamSelectorDialog.get_selections flat_map filter].
  destruct (SParamSelectorDialog.include_checkbox r); cbn zeta.
  - cbn [app map fst]. f_equal. exact IH.
  - exact IH.
Qed.

Lemma NoDup_map_filter :
  forall {A B} (g : A -> B) (keep : A -> bool) l,
    NoDup (map g l) -> NoDup (map g (filter keep l)).
Proof.
  intros A B g keep l. induction l as [|a l IH]; intro H; [constructor|].
  cbn [map] in H. inversion H as [|? ? Ha Hl]; subst.
  cbn [filter]. destruct (keep a); [|now apply IH].
  cbn [map]. constructor; [|now apply IH].
  intro Hin. apply Ha. apply in_map_iff in Hin.
  destruct Hin as (x & Ex & Hx). apply filter_In in Hx.
  apply in_map_iff. exists x. split; [exact Ex | apply Hx].
Qed.
End Selector.

Lemma NoDup_map_inj :
  forall {A B} (g : A -> B) l a b,
    NoDup (map g l) -> In a l -> In b l -> g a = g b -> a = b.
Proof.
  intros A B g l. induction l as [|x l IH]; intros a b Hnd Ha Hb E;
    [contradiction|].
  cbn [map] in Hnd. inversion Hnd as [|? ? Hx Hl]; subst.
  destruct Ha as [Ha|Ha]; destruct Hb as [Hb|Hb]; subst.
  - reflexivity.
  - exfalso. apply Hx. rewrite E. now apply in_map.
  - exfalso. apply Hx. rewrite <- E. now apply in_map.
  - now apply IH.
Qed.

(** Re-opening the selector on the selections it returned and accepting
    without an edit returns the same selections, whenever the parameter
    names of the table are pairwise different and carry no outer
    whitespace. *)
Theorem selector_round_trip :
  forall isspace rows,
    NoDup (map SParamSelectorDialog.param_item rows) ->
    Forall (fun r =>
              SParamSelectorDialog.strip isspace
                                         (SParamSelectorDialog.param_item r)
              = SParamSelectorDialog.param_item r) rows ->
    SParamSelectorDialog.get_selections
      isspace
      (SParamSelectorDialog.populate_table
         (map SParamSelectorDialog.param_item rows)
         (SParamSelectorDialog.get_selections isspace rows))
    = SParamSelectorDialog.get_selections isspace rows.
Proof.
  intros isspace rows Hnd Hstrip.
  set (sel := SParamSelectorDialog.get_selections isspace rows).
  assert (Hsel : NoDup (map fst sel)).
  { unfold sel. rewrite get_selections_keys. now apply NoDup_map_filter. }
  unfold SParamSelectorDialog.populate_table. rewrite map_map.
  assert (Hsub : forall sub,
             incl sub rows ->
             SParamSelectorDialog.get_selections
               isspace
               (map (fun r =>
                       match SParamSelectorDialog.current_dict_get
                               sel (SParamSelectorDialog.param_item r) with
                       | Some legend =>
                           SParamSelectorDialog.mkRow
                             (SParamSelectorDialog.param_item r) legend true
                       | None =>
                           SParamSelectorDialog.mkRow
                             (SParamSelectorDialog.param_item r)
                             (SParamSelectorDialog.param_item r) false
                       end) sub)
             = SParamSelectorDialog.get_selections isspace sub).
  { induction sub as [|r sub IH]; intro Hincl; [reflexivity|].
    assert (Hr : In r rows) by (apply Hincl; now left).
    assert (Hsub' : incl sub rows)
      by (intros x Hx; apply Hincl; now right).
    cbn [map SParamSelectorDialog.get_selections flat_map].
    fold (SParamSelectorDialog.get_selections isspace sub).
    change (flat_map _ (map ?g sub))
      with (SParamSelectorDialog.get_selections isspace (map g sub)).
    rewrite (IH Hsub'). f_equal.
    rewrite Forall_forall in Hstrip. specialize (Hstrip r Hr).
    destruct r as [p leg inc]. cbn [SParamSelectorDialog.param_item
      SParamSelectorDialog.legend_item SParamSelectorDialog.include_checkbox]
      in *.
    destruct inc.
    - set (L := if nonempty (SParamSelectorDialog.strip isspace leg)
                then SParamSelectorDialog.strip isspace leg else p).
      assert (Hin : In (p, L) sel).
      { unfold sel, SParamSelectorDialog.get_selections.
        apply in_flat_map. exists (SParamSelectorDialog.mkRow p leg true).
        split; [exact Hr|]. cbn. left. reflexivity. }
      unfold SParamSelectorDialog.current_dict_get.
      rewrite (current_dict_get_present sel p L None Hsel Hin).
      cbn [SParamSelectorDialog.param_item SParamSelectorDialog.legend_item
           SParamSelectorDialog.include_checkbox]. cbn zeta.
      fold L. f_equal. f_equal. unfold L.
      destruct (nonempty (SParamSelectorDialog.strip isspace leg)) eqn:E.
      + rewrite strip_idempotent, E. reflexivity.
      + rewrite Hstrip. now destruct (nonempty p).
    - unfold SParamSelectorDialog.current_dict_get.
      rewrite current_dict_get_absent; [reflexivity|].
      unfold sel. rewrite get_selections_keys. intro Hin.
      apply in_map_iff in Hin. destruct Hin as (r' & Ep & Hr').
      apply filter_In in Hr'. destruct Hr' as [Hr'in Hinc].
      assert (r' = SParamSelectorDialog.mkRow p leg false)
        by (eapply NoDup_map_inj; eassumption).
      subst r'. discriminate. }
  apply Hsub. apply incl_refl.
Qed.

Lemma selector_round_trip_witness :
  let isspace := fun c => Ascii.eqb c " "%char in
  let rows :=
    [SParamSelectorDialog.mkRow "S11" "  input match " true;
     SParamSelectorDialog.mkRow "S12" "unused" false;
     SParamSelectorDialog.mkRow "S21" "   " true] in
  NoDup (map SParamSelectorDialog.param_item rows)
  /\ SParamSelectorDialog.get_selections isspace rows
     = [("S11", "input match"); ("S21", "S21")]
  /\ SParamSelectorDialog.get_selections
       isspace
       (SParamSelectorDialog.populate_table
          (map SParamSelectorDialog.param_item rows)
          (SParamSelectorDialog.get_selections isspace rows))
     = SParamSelectorDialog.get_selections isspace rows.
Proof.
  cbv zeta.
  assert (Hnd : NoDup (map SParamSelectorDialog.param_item
                           [SParamSelectorDialog.mkRow "S11" "  input match "
                                                       true;
                            SParamSelectorDialog.mkRow "S12" "unused" false;
                            SParamSelectorDialog.mkRow "S21" "   " true])).
  { apply distinct_NoDup. reflexivity. }
  split; [exact Hnd|]. split; [reflexivity|].
  apply (selector_round_trip (fun c => Ascii.eqb c " "%char) _ Hnd).
  repeat constructor.
Defined.

(* ================================================================== *)
(** * From a loaded file to the chart *)

Section FreshFile.
Context `{NP : NumPy}.

Lemma gen_s_params_head :
  forall P, 1 <= P ->
            exists rest, TouchstoneFile.gen_s_params P = "S11" :: rest.
Proof.
  intros P HP.
  pose proof (nth_error_flat_map_blocks
                (fun i j => param_id (i + 1) (j + 1)) P P 0 0 0 HP HP) as H.
  rewrite <- gen_s_params_flat_map in H. cbn [Nat.mul Nat.add] in H.
  destruct (TouchstoneFile.gen_s_params P) as [|x rest]; [discriminate|].
  injection H as ->. exists rest. reflexivity.
Qed.

Lemma get_group_delay_listed :
  forall rf_Network path tf p,
    TouchstoneFile.load_file rf_Network path = Ok tf ->
    Network.wf (TouchstoneFile.network tf) ->
    In p (TouchstoneFile.s_params tf) ->
    is_ok (TouchstoneFile.get_group_delay tf p) = true.
Proof.
  intros rf_Network path tf p Hload Hwf Hin.
  destruct (get_s_parameter_listed _ _ _ _ Hload Hwf Hin)
    as (row & col & s_data & _ & _ & _ & _ & _ & Hlen & Hget).
  unfold TouchstoneFile.get_group_delay. rewrite Hget. cbn [bind].
  set (phase := np_unwrap (map (np_angle false) s_data)).
  set (omega := map (fmul (fmul (lit 2) np_pi)) (TouchstoneFile.frequency tf)).
  assert (Hom : length omega = length phase).
  { unfold omega, phase. rewrite length_np_unwrap, !length_map. congruence. }
  destruct (1 <? length phase) eqn:E; [|reflexivity].
  apply Nat.ltb_lt in E. rewrite (np_gradient_ok phase omega Hom E).
  reflexivity.
Qed.

(** Every XY calculator returns on a listed parameter of a loaded,
    well-shaped network. *)
Lemma standard_calculator_listed :
  forall plot_type method calculator yl rf_Network path tf p,
    PlotEngine.standard_calculator plot_type = Some (method, calculator, yl) ->
    TouchstoneFile.load_file rf_Network path = Ok tf ->
    Network.wf (TouchstoneFile.network tf) ->
    In p (TouchstoneFile.s_params tf) ->
    is_ok (calculator tf p) = true.
Proof.
  intros plot_type method calculator yl rf_Network path tf p Hcalc Hload Hwf
         Hin.
  pose proof (get_group_delay_listed _ _ _ _ Hload Hwf Hin) as Hgd.
  destruct (get_s_parameter_listed _ _ _ _ Hload Hwf Hin)
    as (row & col & s_data & _ & _ & _ & _ & _ & _ & Hget).
  unfold PlotEngine.standard_calculator in Hcalc.
  repeat match type of Hcalc with
         | (if ?b then _ else _) = _ =>
             destruct b;
             [injection Hcalc as <- <- <-;
              first [ exact Hgd
                    | unfold TouchstoneFile.get_magnitude_db,
                        TouchstoneFile.get_magnitude_linear,
                        TouchstoneFile.get_phase_deg,
                        TouchstoneFile.get_phase_rad, TouchstoneFile.get_vswr;
                      rewrite Hget; reflexivity ]|]
         end.
  discriminate.
Qed.
End FreshFile.

(** Loading a well-shaped file with at least one port into a slot leaves
    the slot enabled on [S11] with the legend "S11", whatever the slot held
    before; and with such a slot among the file slots, [update_plot]
    returns normally on every XY plot type. *)
Theorem fresh_file_plots_s11 :
  forall `{NP : NumPy} rf_Network path slot tf plot_type method calculator yl
         file_slots i e,
    TouchstoneFile.load_file rf_Network path = Ok tf ->
    Network.wf (TouchstoneFile.network tf) ->
    1 <= Network.nports (TouchstoneFile.network tf) ->
    PlotEngine.standard_calculator plot_type = Some (method, calculator, yl) ->
    nth_error file_slots i
    = Some (FileSlotWidget.load_file rf_Network path slot) ->
    FileSlotWidget.get_trace_data (FileSlotWidget.load_file rf_Network path slot)
    = Some (FileSlotWidget.mkTraceData
              (PlotEngine.mkTrace tf "S11" "S11" None)
              (FileSlotWidget.slot_id slot))
    /\ fst (MainWindow.update_plot file_slots plot_type e) = Ok tt.
Proof.
  intros NP rf_Network path slot tf plot_type method calculator yl file_slots
         i e Hload Hwf HP Hcalc Hi.
  assert (Hparams : exists rest, TouchstoneFile.s_params tf = "S11" :: rest).
  { destruct (load_file_inv _ _ _ Hload) as (nw & _ & ->).
    cbn [TouchstoneFile.s_params TouchstoneFile.network] in *.
    now apply gen_s_params_head. }
  destruct Hparams as (rest & Hparams).
  assert (Hdata :
            FileSlotWidget.get_trace_data
              (FileSlotWidget.load_file rf_Network path slot)
            = Some (FileSlotWidget.mkTraceData
                      (PlotEngine.mkTrace tf "S11" "S11" None)
                      (FileSlotWidget.slot_id slot))).
  { unfold FileSlotWidget.load_file. rewrite Hload, Hparams. reflexivity. }
  split; [exact Hdata|].
  unfold MainWindow.update_plot, MainWindow.collect_traces.
  rewrite collect_from_run. cbn [app].
  set (traces := flat_map _ _).
  set (t := FileSlotWidget.set_color
              (nth (i mod 10) colors "")
              (FileSlotWidget.mkTraceData
                 (PlotEngine.mkTrace tf "S11" "S11" None)
                 (FileSlotWidget.slot_id slot))).
  assert (Hin : In t traces).
  { unfold traces. apply in_flat_map.
    exists (i, FileSlotWidget.load_file rf_Network path slot). split.
    - exact (in_combine_seq file_slots i 0 _ Hi).
    - cbn beta iota. rewrite Hdata. left. reflexivity. }
  assert (Hin' : In (FileSlotWidget.trace t) (map FileSlotWidget.trace traces))
    by (now apply in_map).
  assert (Hne : map FileSlotWidget.trace traces <> []).
  { intro E. rewrite E in Hin'. exact Hin'. }
  rewrite (plot_xy_run _ _ _ _ _ e Hcalc Hne). cbn zeta.
  assert (E : existsb (computes calculator) (map FileSlotWidget.trace traces)
              = true).
  { apply existsb_exists. exists (FileSlotWidget.trace t).
    split; [exact Hin'|]. unfold computes, t. cbn.
    eapply standard_calculator_listed; try eassumption.
    rewrite Hparams. now left. }
  rewrite E. reflexivity.
Qed.

Lemma fresh_file_plots_s11_witness :
  let slot := FileSlotWidget.load_file (Samples.parser_of Samples.two_port)
                                       "dut.s2p" (FileSlotWidget.init 0) in
  TouchstoneFile.load_file (Samples.parser_of Samples.two_port) "dut.s2p"
  = Ok Samples.two_port_file
  /\ Network.wf Samples.two_port
  /\ fst (MainWindow.update_plot [FileSlotWidget.init 1; slot] "Group Delay"
                                 init_engine) = Ok tt.
Proof.
  cbv zeta.
  assert (Hwf : Network.wf Samples.two_port).
  { split; [reflexivity|]. repeat constructor. }
  split; [reflexivity|]. split; [exact Hwf|].
  apply (fresh_file_plots_s11
           (Samples.parser_of Samples.two_port) "dut.s2p"
           (FileSlotWidget.init 0) Samples.two_port_file "Group Delay"
           "get_group_delay" TouchstoneFile.get_group_delay "Group Delay (s)"
           [FileSlotWidget.init 1;
            FileSlotWidget.load_file (Samples.parser_of Samples.two_port)
                                     "dut.s2p" (FileSlotWidget.init 0)]
           1 init_engine eq_refl Hwf);
    [cbn; lia | reflexivity | reflexivity].
Defined.

(* ================================================================== *)
(** * Beyond nine ports *)

(** With an output port of two or more digits, positions 1 and 2 of the
    identifier are both digits of the output port: the request returns the
    same series whatever the input port is. *)
Theorem multi_digit_output_port_ignores_input_port :
  forall `{NP : NumPy} rf_Network path tf i j j',
    TouchstoneFile.load_file rf_Network path = Ok tf ->
    10 <= i <= Network.nports (TouchstoneFile.network tf) ->
    1 <= j <= Network.nports (TouchstoneFile.network tf) ->
    1 <= j' <= Network.nports (TouchstoneFile.network tf) ->
    TouchstoneFile.get_s_parameter tf (param_id i j)
    = TouchstoneFile.get_s_parameter tf (param_id i j').
Proof.
  intros NP rf_Network path tf i j j' Hload Hi Hj Hj'.
  destruct (load_file_inv _ _ _ Hload) as (nw & _ & ->).
  cbn [TouchstoneFile.network] in *.
  destruct (str_head2 i (proj1 Hi)) as (d1 & d2 & rest & E & H1 & H2).
  assert (Hparse : forall k,
             TouchstoneFile.parse_row_col (param_id i k)
             = Ok ((Z.of_nat d1 - 1)%Z, (Z.of_nat d2 - 1)%Z)).
  { intro k. apply parse_row_col_digits; try lia;
      unfold param_id; rewrite E; reflexivity. }
  assert (Hin : forall k,
             1 <= k <= Network.nports nw ->
             str_in (param_id i k)
                    (TouchstoneFile.gen_s_params (Network.nports nw)) = true).
  { intros k Hk. apply str_in_true, In_gen_s_params.
    exists (i - 1), (k - 1). repeat split; try lia.
    f_equal; [f_equal; lia | f_equal; lia]. }
  unfold TouchstoneFile.get_s_parameter.
  cbn [TouchstoneFile.s_params TouchstoneFile.network TouchstoneFile.frequency].
  rewrite (Hin j Hj), (Hin j' Hj'), !Hparse. reflexivity.
Qed.

Lemma multi_digit_output_port_ignores_input_port_witness :
  let nw := @Network.mk Ideal.RealNumPy [] 10 [] in
  let tf := TouchstoneFile.mk "big.s10p" "big.s10p" nw
                              (TouchstoneFile.gen_s_params 10) [] in
  TouchstoneFile.load_file (Samples.parser_of nw) "big.s10p" = Ok tf
  /\ param_id 10 1 = "S101"
  /\ param_id 10 2 = "S102"
  /\ TouchstoneFile.get_s_parameter tf "S101"
     = TouchstoneFile.get_s_parameter tf "S102".
Proof.
  cbv zeta. split; [reflexivity|]. split; [reflexivity|].
  split; [reflexivity|].
  apply (multi_digit_output_port_ignores_input_port
           (Samples.parser_of (@Network.mk Ideal.RealNumPy [] 10 []))
           "big.s10p"
           (TouchstoneFile.mk "big.s10p" "big.s10p"
                              (@Network.mk Ideal.RealNumPy [] 10 [])
                              (TouchstoneFile.gen_s_params 10) [])
           10 1 2 eq_refl); cbn; lia.
Defined.

(* ================================================================== *)
(** * Inactive slots and blank legends *)

(** After [remove_file] a slot offers no trace; when every slot has been
    removed, as [clear_all_files] does, [update_plot] shows the "No data to
    plot" placeholder and invokes no calculator. *)
Theorem cleared_slots_show_placeholder :
  forall `{NP : NumPy} file_slots plot_type e,
    MainWindow.update_plot (map FileSlotWidget.remove_file file_slots)
                           plot_type e
    = (Ok tt,
       PlotEngine.mk
         (Some (PlotEngine.mkAxes
                  "rectilinear"
                  [PlotEngine.Text (lit 0.5) (lit 0.5) "No data to plot"]
                  None None None false None None None))
         (PlotEngine.plot_config e) [] (S (PlotEngine.draws e))
         (PlotEngine.stdout e) (PlotEngine.calls e)).
Proof.
  intros NP file_slots plot_type e.
  unfold MainWindow.update_plot, MainWindow.collect_traces.
  rewrite collect_from_run. cbn [app].
  assert (H : forall start,
             flat_map
               (fun '(k, slot) =>
                  match FileSlotWidget.get_trace_data slot with
                  | Some trace_data =>
                      [FileSlotWidget.set_color (nth (k mod 10) colors "")
                                                trace_data]
                  | None => []
                  end)
               (combine (seq start
                             (length (map FileSlotWidget.remove_file
                                          file_slots)))
                        (map FileSlotWidget.remove_file file_slots))
             = []).
  { induction file_slots as [|slot rest IH]; intro start; [reflexivity|].
    cbn [map length seq combine flat_map]. rewrite IH. reflexivity. }
  rewrite H. reflexivity.
Qed.

(** Every selection the selector returns comes from a checked row, keeps
    its parameter name, and carries as legend the stripped text of the
    legend cell, or the parameter name when that text is blank: a legend is
    never blank unless the parameter name itself is empty. *)
Theorem selection_legend_defaults_to_parameter :
  forall isspace rows p l,
    In (p, l) (SParamSelectorDialog.get_selections isspace rows) ->
    (exists r,
        In r rows
        /\ SParamSelectorDialog.include_checkbox r = true
        /\ SParamSelectorDialog.param_item r = p
        /\ l = (if nonempty (SParamSelectorDialog.strip
                               isspace (SParamSelectorDialog.legend_item r))
                then SParamSelectorDialog.strip
                       isspace (SParamSelectorDialog.legend_item r)
                else p))
    /\ (nonempty p = true -> nonempty l = true).
Proof.
  intros isspace rows p l Hin.
  unfold SParamSelectorDialog.get_selections in Hin.
  apply in_flat_map in Hin. destruct Hin as (r & Hr & Hin).
  destruct (SParamSelectorDialog.include_checkbox r) eqn:Einc;
    [|contradiction].
  cbn zeta in Hin. destruct Hin as [Hin|[]]. injection Hin as <- <-.
  split.
  - exists r. repeat split; assumption.
  - intro Hp.
    destruct (nonempty (SParamSelectorDialog.strip
                          isspace (SParamSelectorDialog.legend_item r))) eqn:E;
      assumption.
Qed.

Lemma selection_legend_defaults_to_parameter_witness :
  let isspace := fun c => Ascii.eqb c " "%char in
  let rows := [SParamSelectorDialog.mkRow "S21" "   " true] in
  In ("S21", "S21") (SParamSelectorDialog.get_selections isspace rows)
  /\ nonempty "S21" = true.
Proof.
  cbv zeta.
  assert (Hin : In ("S21", "S21")
                   (SParamSelectorDialog.get_selections
                      (fun c => Ascii.eqb c " "%char)
                      [SParamSelectorDialog.mkRow "S21" "   " true])).
  { left. reflexivity. }
  split; [exact Hin|].
  exact (proj2 (selection_legend_defaults_to_parameter
                  (fun c => Ascii.eqb c " "%char)
                  [SParamSelectorDialog.mkRow "S21" "   " true]
                  "S21" "S21" Hin) eq_refl).
Defined.
